(** * Typing Speed Tester: session scoring, word source and score log

  A shallow embedding of [words_random.py] (class [WordsList]) and of
  [Typing_Speed_Tester/window.py] (classes [TypingSession] and [Window]),
  with the properties of the scoring logic, the countdown, the word
  sampling and the score log.

  Conventions of the embedding:
  - a Python [str] is a [string], one [ascii] per character, [len] is
    [String.length] and [s[i]] is [String.get i s];
  - a Python [int] is a [Z]; a Python [float] is a binary64 [float]
    (Rocq's primitive floats, round to nearest even);
  - a Python list is a [list], subscripted by [Py.index], which raises
    [IndexError] out of range and counts a negative index from the end;
  - a method that mutates [self] takes the object and returns the new
    one; a method that can raise returns a [Py.result];
  - the clock, the network, the random generator and the file system
    are explicit arguments. *)

From Stdlib Require Import ZArith Floats String Ascii List Lia.
From Stdlib Require Import DecimalString DecimalZ.
From stdpp Require Import base list strings.

Local Open Scope Z_scope.

(** ** The fragment of Python the program relies on *)

Module Py.

Inductive exn : Type :=
| IndexError
| ValueError
| TypeError
| OverflowError
| ZeroDivisionError.

Inductive result (A : Type) : Type :=
| Ok (a : A)
| Raise (e : exn).
Arguments Ok {A} a.
Arguments Raise {A} e.

Definition bind {A B} (r : result A) (k : A -> result B) : result B :=
  match r with
  | Ok a => k a
  | Raise e => Raise e
  end.

#[global] Instance result_bind : MBind result :=
  fun A B k r => bind r k.

(** [l[i]]: a negative index counts from the end of the list. *)
Definition index {A} (l : list A) (i : Z) : result A :=
  let n := Z.of_nat (length l) in
  let j := if i <? 0 then i + n else i in
  if (j <? 0) || (n <=? j) then Raise IndexError
  else match l !! Z.to_nat j with
       | Some x => Ok x
       | None => Raise IndexError
       end.

(** [typed == actual] on strings. *)
Definition str_eq (a b : string) : bool := bool_decide (a = b).

(** [a[i] == b[i]] for an [i] in range of both. *)
Definition char_eq_at (a b : string) (i : nat) : Prop :=
  String.get i a = String.get i b.

#[global] Instance char_eq_at_dec a b i : Decision (char_eq_at a b i).
Proof. unfold char_eq_at. apply _. Defined.

(** The numbers a metric attribute can hold: the [int] it is initialised
    with, or the [float] a recomputation stores. *)
Inductive number : Type :=
| PyInt (z : Z)
| PyFloat (f : float).

(** [float(z)] as mixed arithmetic does it: correctly rounded, and
    [OverflowError] when the integer is too large for a float. *)
Definition float_of_int (z : Z) : result float :=
  let f := SF2Prim (binary_normalize prec emax z 0 false) in
  if is_infinity f then Raise OverflowError else Ok f.

(** [a / b] on floats. *)
Definition truediv (a b : float) : result float :=
  if (b =? 0)%float then Raise ZeroDivisionError else Ok (a / b)%float.

(** [max(a, b)] on floats: [b] replaces [a] only when [b > a]. *)
Definition max (a b : float) : float :=
  if (a <? b)%float then b else a.

(** [int(f)]: truncation towards zero; an infinity or a NaN raises. *)
Definition int_of_float (f : float) : result Z :=
  match Prim2SF f with
  | S754_zero _ => Ok 0
  | S754_infinity _ => Raise OverflowError
  | S754_nan => Raise ValueError
  | S754_finite sg m e =>
      let a := if 0 <=? e then Z.pos m * 2 ^ e else Z.pos m / 2 ^ (- e) in
      Ok (if sg then - a else a)
  end.

(** [int(x)] on a metric attribute. *)
Definition int_of (x : number) : result Z :=
  match x with
  | PyInt z => Ok z
  | PyFloat f => int_of_float f
  end.

(** The truth value of a number: zero is false, a NaN is true. *)
Definition truthy (x : number) : bool :=
  match x with
  | PyInt z => negb (z =? 0)
  | PyFloat f => negb (f =? 0)%float
  end.

(** [k * x] for an integer [k]: the integer is converted to a float
    when [x] is a float. *)
Definition mul_int (k : Z) (x : number) : result number :=
  match x with
  | PyInt z => Ok (PyInt (k * z))
  | PyFloat f => kf ← float_of_int k; Ok (PyFloat (kf * f)%float)
  end.

(** The integer a float is equal to, if any. *)
Definition integral_value (f : float) : option Z :=
  match Prim2SF f with
  | S754_zero _ => Some 0
  | S754_finite sg m e =>
      if 0 <=? e then Some (if sg then - (Z.pos m * 2 ^ e) else Z.pos m * 2 ^ e)
      else if Z.pos m mod 2 ^ (- e) =? 0
           then Some (if sg then - (Z.pos m / 2 ^ (- e)) else Z.pos m / 2 ^ (- e))
           else None
  | _ => None
  end.

(** [x == y] on numbers: an integer and a float are compared by value. *)
Definition num_eq (x y : number) : bool :=
  match x, y with
  | PyInt a, PyInt b => a =? b
  | PyFloat a, PyFloat b => (a =? b)%float
  | PyInt a, PyFloat b | PyFloat b, PyInt a =>
      match integral_value b with
      | Some z => z =? a
      | None => false
      end
  end.

(** [str(z)] and the decimal literals [int(s)] reads back: an optional
    minus sign and digits. The other spellings Python accepts (a plus
    sign, surrounding blanks, underscores) are not produced by the
    program and are read as a [ValueError] here. *)
Definition str_of_int (z : Z) : string :=
  NilZero.string_of_int (Z.to_int z).

Definition int_of_str (s : string) : result Z :=
  match NilZero.int_of_string s with
  | Some d => Ok (Z.of_int d)
  | None => Raise ValueError
  end.

Arguments str_of_int : simpl never.
Arguments int_of_str : simpl never.

(** [random.sample(population, k)]: [k] elements at distinct positions.
    [rand i] is the raw value of the generator's [i]-th draw and
    [randbelow(m)] reduces it below [m]. The selection is the library's:
    the pool is a copy of the population, the drawn slot is refilled with
    the last live element. (On a large population the library records
    the positions drawn in a set instead of copying; the lists it can
    return are the same.) *)
Fixpoint sample_loop {A} (rand : nat -> nat) (pool : list A)
    (n i k : nat) : list A :=
  match k with
  | O => []
  | S k' =>
      let j := (rand i mod (n - i))%nat in
      match pool !! j, pool !! (n - i - 1)%nat with
      | Some x, Some y => x :: sample_loop rand (<[j := y]> pool) n (S i) k'
      | _, _ => []
      end
  end.

Definition sample {A} (rand : nat -> nat) (population : list A)
    (k : nat) : result (list A) :=
  let n := length population in
  if (k <=? n)%nat then Ok (sample_loop rand population n 0 k)
  else Raise ValueError.

(** [s.strip()]: blanks removed at both ends. *)
Definition isspace (c : ascii) : bool :=
  let n := nat_of_ascii c in
  ((9 <=? n) && (n <=? 13) || (28 <=? n) && (n <=? 32)
   || (n =? 133) || (n =? 160))%nat.

Fixpoint lstrip (s : string) : string :=
  match s with
  | String c s' => if isspace c then lstrip s' else s
  | EmptyString => EmptyString
  end.

Fixpoint rstrip (s : string) : string :=
  match s with
  | String c s' =>
      match rstrip s' with
      | EmptyString => if isspace c then EmptyString else String c EmptyString
      | r => String c r
      end
  | EmptyString => EmptyString
  end.

Definition strip (s : string) : string := rstrip (lstrip s).

(** [c.islower()] on one character. *)
Definition islower (c : ascii) : bool :=
  let n := nat_of_ascii c in
  ((97 <=? n) && (n <=? 122) || (n =? 170) || (n =? 181) || (n =? 186)
   || (223 <=? n) && (n <=? 246) || (248 <=? n) && (n <=? 255))%nat.

End Py.


(** ** class TypingSession *)

Module TypingSession.

Import Py (number, PyInt, PyFloat).

(** The attributes set by [__init__] and [start]. The two metrics hold
    the integer [0] until the first recomputation and a float after. *)
Record t : Type := mk {
  words : list string;
  start_time : float;
  time_left : Z;
  correct_words : Z;
  correct_chars : Z;
  current_word_index : Z;
  cpm_corrected : number;
  wpm : number;
  timer_started : bool
}.

Definition set_time_left (v : Z) (s : t) : t :=
  mk (words s) (start_time s) v (correct_words s) (correct_chars s)
     (current_word_index s) (cpm_corrected s) (wpm s) (timer_started s).
Definition set_correct_words (v : Z) (s : t) : t :=
  mk (words s) (start_time s) (time_left s) v (correct_chars s)
     (current_word_index s) (cpm_corrected s) (wpm s) (timer_started s).
Definition set_correct_chars (v : Z) (s : t) : t :=
  mk (words s) (start_time s) (time_left s) (correct_words s) v
     (current_word_index s) (cpm_corrected s) (wpm s) (timer_started s).
Definition set_current_word_index (v : Z) (s : t) : t :=
  mk (words s) (start_time s) (time_left s) (correct_words s)
     (correct_chars s) v (cpm_corrected s) (wpm s) (timer_started s).
Definition set_metrics (c w : number) (s : t) : t :=
  mk (words s) (start_time s) (time_left s) (correct_words s)
     (correct_chars s) (current_word_index s) c w (timer_started s).

(** [__init__(words)], which calls [start()]; [now] is [time.time()]. *)
Definition init (ws : list string) (now : float) : t :=
  mk ws now 60 0 0 0 (PyInt 0) (PyInt 0) false.

(** [next_word()]: the session after the call, and what the call
    returns ([None], or the word under the new index). *)
Definition next_word (s : t) : t * Py.result (option string) :=
  let s' := set_current_word_index (current_word_index s + 1) s in
  if Z.of_nat (length (words s')) <=? current_word_index s'
  then (s', Py.Ok None)
  else (s', w ← Py.index (words s') (current_word_index s'); Py.Ok (Some w)).

(** [sum(1 for i in range(min(len(typed), len(actual)))
          if typed[i] == actual[i])] *)
Definition credit (typed actual : string) : nat :=
  sum_list_with (fun _ => 1%nat)
    (filter (Py.char_eq_at typed actual)
       (seq 0 (Nat.min (String.length typed) (String.length actual)))).

(** [check_word(typed)]: the returned flag and the new session. *)
Definition check_word (typed : string) (s : t) : Py.result (bool * t) :=
  actual ← Py.index (words s) (current_word_index s);
  let s1 := set_correct_chars
              (correct_chars s + Z.of_nat (credit typed actual)) s in
  if Py.str_eq typed actual
  then Py.Ok (true, set_correct_words (correct_words s1 + 1) s1)
  else Py.Ok (false, s1).

(** [update_metrics()]; [now] is what [time.time()] returns. *)
Definition update_metrics (now : float) (s : t) : Py.result t :=
  if (start_time s =? 0)%float then Py.Ok s
  else
    let elapsed_time :=
      Py.max ((now - start_time s) / 60)%float (1 / 60)%float in
    chars ← Py.float_of_int (correct_chars s);
    cpm ← Py.truediv chars elapsed_time;
    Py.Ok (set_metrics (PyFloat cpm) (PyFloat (cpm / 5)%float) s).

End TypingSession.


(** ** class WordsList *)

Module WordsList.

Record t : Type := mk {
  words_list : option (list string);
  idiom : option string
}.

(** What [requests.get(url, timeout = 5).json()] evaluates to: the decoded
    list of words, or an exception of the request or of the decoding
    (a subclass of [Exception]), given by the text [print] shows for
    it. *)
Inductive fetched : Type :=
| Words (ws : list string)
| Failure (e : string).

Definition network : Type := string -> fetched.

Definition url (idiom : option string) : string :=
  match idiom with
  | None => "https://random-word-api.herokuapp.com/all"
  | Some i => "https://random-word-api.herokuapp.com/all?lang=" +:+ i
  end.

Definition fallback : list string :=
  ["default"; "word"; "list"; "in"; "case"; "of"; "error"]%string.

(** [get_words(idiom)]: the object after the call and the lines printed. *)
Definition get_words (net : network) (i : option string) (self : t)
    : t * list string :=
  match net (url i) with
  | Words ws => (mk (Some ws) (idiom self), [])
  | Failure e =>
      (mk (Some fallback) (idiom self), ["Unable to load words: " +:+ e])
  end.

(** [WordsList(idiom)] *)
Definition init (net : network) (i : option string) : t * list string :=
  get_words net i (mk None i).

(** [get_list()] *)
Definition get_list (rand : nat -> nat) (self : t)
    : Py.result (list string) :=
  match words_list self with
  | None => Py.Raise Py.TypeError
  | Some ws =>
      let filtered_words :=
        filter (fun word => (String.length word <= 8)%nat) ws in
      Py.sample rand filtered_words
        (Nat.min 200 (length filtered_words))
  end.

End WordsList.

(** ** class Window *)

Module Window.

Inductive widget_state : Type := Normal | Disabled.

(** The attributes of the window, the contents of its widgets and, last,
    what lives outside the object: whether Tk holds a scheduled timer
    callback, the rows of [score/score.csv] when the file exists, the
    number of dialogs shown and the lines printed. Positions in the text
    widget are character offsets in its only line; [after_id] records
    whether the attribute holds an identifier. The file is given by the
    rows [csv.reader] returns for it, every line of the file being
    terminated, as the lines the program writes are, and [csv.writer]
    appends one row per call. [session] is assigned by [new_session] before the event
    loop starts, so the tests [if not self.session] of the handlers never
    fire and are left out. *)
Record t : Type := mk {
  idiom : option string;
  words_list : list string;
  session : TypingSession.t;
  timer_started : bool;
  after_id : bool;
  words_indexes : list (nat * nat);
  text : string;
  recent_score_entry : string;
  corrected_cpm_entry : string;
  wpm_entry : string;
  time_entry : string;
  typed_text_entry : widget_state;
  highlight : option (nat * nat);
  letter_tags : list (nat * bool);
  word_tags : list (nat * nat * bool);
  timer_pending : bool;
  score_csv : option (list (list string));
  dialogs : nat;
  stdout : list string
}.

Definition set_idiom (v : option string) (w : t) : t :=
  mk v (words_list w) (session w) (timer_started w) (after_id w)
     (words_indexes w) (text w) (recent_score_entry w)
     (corrected_cpm_entry w) (wpm_entry w) (time_entry w)
     (typed_text_entry w) (highlight w) (letter_tags w) (word_tags w)
     (timer_pending w) (score_csv w) (dialogs w) (stdout w).
Definition set_words_list (v : list string) (w : t) : t :=
  mk (idiom w) v (session w) (timer_started w) (after_id w) (words_indexes
     w) (text w) (recent_score_entry w) (corrected_cpm_entry w) (wpm_entry
     w) (time_entry w) (typed_text_entry w) (highlight w) (letter_tags w)
     (word_tags w) (timer_pending w) (score_csv w) (dialogs w) (stdout w).
Definition set_session (v : TypingSession.t) (w : t) : t :=
  mk (idiom w) (words_list w) v (timer_started w) (after_id w)
     (words_indexes w) (text w) (recent_score_entry w)
     (corrected_cpm_entry w) (wpm_entry w) (time_entry w)
     (typed_text_entry w) (highlight w) (letter_tags w) (word_tags w)
     (timer_pending w) (score_csv w) (dialogs w) (stdout w).
Definition set_timer_started (v : bool) (w : t) : t :=
  mk (idiom w) (words_list w) (session w) v (after_id w) (words_indexes w)
     (text w) (recent_score_entry w) (corrected_cpm_entry w) (wpm_entry w)
     (time_entry w) (typed_text_entry w) (highlight w) (letter_tags w)
     (word_tags w) (timer_pending w) (score_csv w) (dialogs w) (stdout w).
Definition set_after_id (v : bool) (w : t) : t :=
  mk (idiom w) (words_list w) (session w) (timer_started w) v
     (words_indexes w) (text w) (recent_score_entry w)
     (corrected_cpm_entry w) (wpm_entry w) (time_entry w)
     (typed_text_entry w) (highlight w) (letter_tags w) (word_tags w)
     (timer_pending w) (score_csv w) (dialogs w) (stdout w).
Definition set_words_indexes (v : list (nat * nat)) (w : t) : t :=
  mk (idiom w) (words_list w) (session w) (timer_started w) (after_id w) v
     (text w) (recent_score_entry w) (corrected_cpm_entry w) (wpm_entry w)
     (time_entry w) (typed_text_entry w) (highlight w) (letter_tags w)
     (word_tags w) (timer_pending w) (score_csv w) (dialogs w) (stdout w).
Definition set_text (v : string) (w : t) : t :=
  mk (idiom w) (words_list w) (session w) (timer_started w) (after_id w)
     (words_indexes w) v (recent_score_entry w) (corrected_cpm_entry w)
     (wpm_entry w) (time_entry w) (typed_text_entry w) (highlight w)
     (letter_tags w) (word_tags w) (timer_pending w) (score_csv w)
     (dialogs w) (stdout w).
Definition set_recent_score_entry (v : string) (w : t) : t :=
  mk (idiom w) (words_list w) (session w) (timer_started w) (after_id w)
     (words_indexes w) (text w) v (corrected_cpm_entry w) (wpm_entry w)
     (time_entry w) (typed_text_entry w) (highlight w) (letter_tags w)
     (word_tags w) (timer_pending w) (score_csv w) (dialogs w) (stdout w).
Definition set_corrected_cpm_entry (v : string) (w : t) : t :=
  mk (idiom w) (words_list w) (session w) (timer_started w) (after_id w)
     (words_indexes w) (text w) (recent_score_entry w) v (wpm_entry w)
     (time_entry w) (typed_text_entry w) (highlight w) (letter_tags w)
     (word_tags w) (timer_pending w) (score_csv w) (dialogs w) (stdout w).
Definition set_wpm_entry (v : string) (w : t) : t :=
  mk (idiom w) (words_list w) (session w) (timer_started w) (after_id w)
     (words_indexes w) (text w) (recent_score_entry w)
     (corrected_cpm_entry w) v (time_entry w) (typed_text_entry w)
     (highlight w) (letter_tags w) (word_tags w) (timer_pending w)
     (score_csv w) (dialogs w) (stdout w).
Definition set_time_entry (v : string) (w : t) : t :=
  mk (idiom w) (words_list w) (session w) (timer_started w) (after_id w)
     (words_indexes w) (text w) (recent_score_entry w)
     (corrected_cpm_entry w) (wpm_entry w) v (typed_text_entry w)
     (highlight w) (letter_tags w) (word_tags w) (timer_pending w)
     (score_csv w) (dialogs w) (stdout w).
Definition set_typed_text_entry (v : widget_state) (w : t) : t :=
  mk (idiom w) (words_list w) (session w) (timer_started w) (after_id w)
     (words_indexes w) (text w) (recent_score_entry w)
     (corrected_cpm_entry w) (wpm_entry w) (time_entry w) v (highlight w)
     (letter_tags w) (word_tags w) (timer_pending w) (score_csv w)
     (dialogs w) (stdout w).
Definition set_highlight (v : option (nat * nat)) (w : t) : t :=
  mk (idiom w) (words_list w) (session w) (timer_started w) (after_id w)
     (words_indexes w) (text w) (recent_score_entry w)
     (corrected_cpm_entry w) (wpm_entry w) (time_entry w)
     (typed_text_entry w) v (letter_tags w) (word_tags w) (timer_pending
     w) (score_csv w) (dialogs w) (stdout w).
Definition set_letter_tags (v : list (nat * bool)) (w : t) : t :=
  mk (idiom w) (words_list w) (session w) (timer_started w) (after_id w)
     (words_indexes w) (text w) (recent_score_entry w)
     (corrected_cpm_entry w) (wpm_entry w) (time_entry w)
     (typed_text_entry w) (highlight w) v (word_tags w) (timer_pending w)
     (score_csv w) (dialogs w) (stdout w).
Definition set_word_tags (v : list (nat * nat * bool)) (w : t) : t :=
  mk (idiom w) (words_list w) (session w) (timer_started w) (after_id w)
     (words_indexes w) (text w) (recent_score_entry w)
     (corrected_cpm_entry w) (wpm_entry w) (time_entry w)
     (typed_text_entry w) (highlight w) (letter_tags w) v (timer_pending
     w) (score_csv w) (dialogs w) (stdout w).
Definition set_timer_pending (v : bool) (w : t) : t :=
  mk (idiom w) (words_list w) (session w) (timer_started w) (after_id w)
     (words_indexes w) (text w) (recent_score_entry w)
     (corrected_cpm_entry w) (wpm_entry w) (time_entry w)
     (typed_text_entry w) (highlight w) (letter_tags w) (word_tags w) v
     (score_csv w) (dialogs w) (stdout w).
Definition set_score_csv (v : option (list (list string))) (w : t) : t :=
  mk (idiom w) (words_list w) (session w) (timer_started w) (after_id w)
     (words_indexes w) (text w) (recent_score_entry w)
     (corrected_cpm_entry w) (wpm_entry w) (time_entry w)
     (typed_text_entry w) (highlight w) (letter_tags w) (word_tags w)
     (timer_pending w) v (dialogs w) (stdout w).
Definition set_dialogs (v : nat) (w : t) : t :=
  mk (idiom w) (words_list w) (session w) (timer_started w) (after_id w)
     (words_indexes w) (text w) (recent_score_entry w)
     (corrected_cpm_entry w) (wpm_entry w) (time_entry w)
     (typed_text_entry w) (highlight w) (letter_tags w) (word_tags w)
     (timer_pending w) (score_csv w) v (stdout w).
Definition set_stdout (v : list string) (w : t) : t :=
  mk (idiom w) (words_list w) (session w) (timer_started w) (after_id w)
     (words_indexes w) (text w) (recent_score_entry w)
     (corrected_cpm_entry w) (wpm_entry w) (time_entry w)
     (typed_text_entry w) (highlight w) (letter_tags w) (word_tags w)
     (timer_pending w) (score_csv w) (dialogs w) v.

(** A handler runs on the window and returns or raises; the window it
    leaves behind is the one at the time of the return or of the raise
    (Tk reports an exception of a callback and carries on). *)
Definition M (A : Type) : Type := t -> t * Py.result A.

#[global] Instance M_ret : MRet M := fun A a w => (w, Py.Ok a).

#[global] Instance M_bind : MBind M := fun A B k m w =>
  match m w with
  | (w', Py.Ok a) => k a w'
  | (w', Py.Raise e) => (w', Py.Raise e)
  end.

Definition modify (f : t -> t) : M unit := fun w => (f w, Py.Ok tt).
Definition read {A} (f : t -> A) : M A := fun w => (w, Py.Ok (f w)).
Definition lift {A} (r : Py.result A) : M A := fun w => (w, r).

(** A call of a session method that mutates the session or raises
    before it mutates anything. *)
Definition on_session {A} (f : TypingSession.t -> Py.result (A * TypingSession.t))
    : M A := fun w =>
  match f (session w) with
  | Py.Ok (a, s') => (set_session s' w, Py.Ok a)
  | Py.Raise e => (w, Py.Raise e)
  end.

(** The last score as [get_last_score] returns it. *)
Record score : Type := mk_score {
  date : string;
  lang : string;
  cpm : Z;
  wpm : Z
}.

Definition header : list string := ["Date"; "Lang"; "CPM"; "WPM"]%string.

(** [self.idiom if self.idiom else "en"] *)
Definition lang_of (i : option string) : string :=
  match i with
  | Some l => if bool_decide (l = EmptyString) then "en" else l
  | None => "en"
  end.

(** [save_score_to_csv()]; [now] is what
    [datetime.now().strftime("%Y-%m-%d %H:%M:%S")] returns. Opening the
    file for appending creates it; a field that is an [int] is written
    as [str] of it. *)
Definition save_score_to_csv (now : string) : M unit :=
  file_exist ← read (fun w => bool_decide (is_Some (score_csv w)));
  modify (fun w => set_score_csv (Some (default [] (score_csv w))) w);;
  (if file_exist : bool then mret tt
   else modify (fun w =>
          set_score_csv (Some (default [] (score_csv w) ++ [header])) w));;
  i ← read idiom;
  c ← read (fun w => TypingSession.cpm_corrected (session w));
  c ← lift (Py.int_of c);
  p ← read (fun w => TypingSession.wpm (session w));
  p ← lift (Py.int_of p);
  modify (fun w =>
    set_score_csv
      (Some (default [] (score_csv w)
             ++ [[now; lang_of i; Py.str_of_int c; Py.str_of_int p]])) w).

(** [get_last_score()], a static method: it only reads the file. *)
Definition get_last_score (file : option (list (list string)))
    : Py.result (option score) :=
  match file with
  | None => Py.Ok None
  | Some reader =>
      if (length reader <=? 1)%nat then Py.Ok None
      else
        last_row ← Py.index reader (-1);
        d ← Py.index last_row 0;
        l ← Py.index last_row 1;
        c ← Py.index last_row 2;
        c ← Py.int_of_str c;
        p ← Py.index last_row 3;
        p ← Py.int_of_str p;
        Py.Ok (Some (mk_score d l c p))
  end.

(** [update_cpm(cpm)] and [update_wpm(wpm)]: the entry is emptied, then
    filled with [int] of the metric. *)
Definition update_cpm (x : Py.number) : M unit :=
  modify (set_corrected_cpm_entry EmptyString);;
  v ← lift (Py.int_of x);
  modify (set_corrected_cpm_entry (Py.str_of_int v)).

Definition update_wpm (x : Py.number) : M unit :=
  modify (set_wpm_entry EmptyString);;
  v ← lift (Py.int_of x);
  modify (set_wpm_entry (Py.str_of_int v)).

(** [end_test()] *)
Definition end_test (now : string) : M unit :=
  modify (set_typed_text_entry Disabled);;
  modify (set_recent_score_entry EmptyString);;
  c ← read (fun w => TypingSession.cpm_corrected (session w));
  c ← (if Py.truthy c then lift (Py.int_of c) else mret 0);
  p ← read (fun w => TypingSession.wpm (session w));
  p ← (if Py.truthy p then lift (Py.int_of p) else mret 0);
  modify (set_recent_score_entry
            (Py.str_of_int c +:+ " CPM (" +:+ Py.str_of_int p +:+ " WPM)"));;
  save_score_to_csv now;;
  modify (fun w => set_dialogs (S (dialogs w)) w).

(** [update_timer()]: one tick of the countdown. *)
Definition update_timer (now : string) : M unit :=
  modify (fun w =>
    set_time_entry (Py.str_of_int (TypingSession.time_left (session w))) w);;
  left ← read (fun w => TypingSession.time_left (session w));
  if 0 <? left
  then modify (fun w =>
         set_timer_pending true
           (set_after_id true
              (set_session
                 (TypingSession.set_time_left
                    (TypingSession.time_left (session w) - 1) (session w))
                 w)))
  else end_test now.

(** [highlight_next_word()] *)
Definition highlight_next_word : M unit :=
  modify (set_highlight None);;
  current_index ← read (fun w => TypingSession.current_word_index (session w));
  n ← read (fun w => Z.of_nat (length (words_indexes w)));
  if (current_index <? 0) || (n <=? current_index) then mret tt
  else
    r ← (w ← read words_indexes; lift (Py.index w current_index));
    modify (set_highlight (Some r)).

(** The tags of the letters of the word at [start]: one per typed
    character, up to the length of the word. *)
Definition letter_tags_of (start : nat) (typed actual_word : string)
    : list (nat * bool) :=
  (fun i => ((start + i)%nat,
             bool_decide (String.get i typed = String.get i actual_word)))
  <$> seq 0 (Nat.min (String.length typed) (String.length actual_word)).

(** [check_typed_word(event)], bound to the release of a key; [typed] is
    the content of the entry at that time. *)
Definition check_typed_word (typed : string) (now : string) : M unit :=
  started ← read timer_started;
  (if started : bool then mret tt
   else modify (set_timer_started true);; update_timer now);;
  current_index ← read (fun w => TypingSession.current_word_index (session w));
  if current_index =? -1 then mret tt
  else
    r ← (w ← read words_indexes; lift (Py.index w current_index));
    actual_word ← read (fun w =>
      substring (fst r) (snd r - fst r) (text w));
    modify (fun w =>
      set_letter_tags
        (filter (fun t => ¬ (fst r <= fst t < snd r)%nat) (letter_tags w)
         ++ letter_tags_of (fst r) typed actual_word) w).

(** [space_pressed(event)], bound to the space key; [entry] is the
    content of the entry, [now] the clock and [today] the date. The
    content of the entry is an input of every event, so emptying it at
    the end is not recorded. *)
Definition space_pressed (entry : string) (now : float) (today : string)
    : M unit :=
  let typed := Py.strip entry in
  correct ← on_session (TypingSession.check_word typed);
  on_session (fun s => s' ← TypingSession.update_metrics now s; Py.Ok (tt, s'));;
  c ← read (fun w => TypingSession.cpm_corrected (session w));
  update_cpm c;;
  p ← read (fun w => TypingSession.wpm (session w));
  update_wpm p;;
  current_index ← read (fun w => TypingSession.current_word_index (session w));
  r ← (w ← read words_indexes; lift (Py.index w current_index));
  modify (fun w =>
    set_word_tags
      (filter (fun t => fst t ≠ r) (word_tags w) ++ [(r, correct)]) w);;
  on_session (fun s =>
    let (s', r) := TypingSession.next_word s in _ ← r; Py.Ok (tt, s'));;
  current_index ← read (fun w => TypingSession.current_word_index (session w));
  n ← read (fun w => Z.of_nat (length (words_list w)));
  if n <=? current_index then end_test today
  else highlight_next_word.

(** [cancel_timer()] *)
Definition cancel_timer : M unit :=
  a ← read after_id;
  if a : bool
  then modify (fun w => set_after_id false (set_timer_pending false w))
  else mret tt.

(** The positions [reset_interface] records for the words, each word
    followed by one blank. *)
Fixpoint positions (index : nat) (ws : list string) : list (nat * nat) :=
  match ws with
  | [] => []
  | word :: rest =>
      (index, (index + String.length word)%nat)
      :: positions (index + String.length word + 1)%nat rest
  end.

Definition joined (ws : list string) : string :=
  foldr (fun word acc => word +:+ " " +:+ acc) EmptyString ws.

(** [reset_interface()] *)
Definition reset_interface : M unit :=
  modify (fun w =>
    set_text (joined (words_list w))
      (set_words_indexes (positions 0 (words_list w))
         (set_highlight None (set_letter_tags [] (set_word_tags [] w)))));;
  modify (set_typed_text_entry Normal);;
  modify (set_corrected_cpm_entry EmptyString);;
  modify (set_wpm_entry EmptyString);;
  modify (set_time_entry "60").

(** [new_session()]: [net] answers the request for the words, [rand] is
    the random generator and [now] the clock. *)
Definition new_session (net : WordsList.network) (rand : nat -> nat)
    (now : float) : M unit :=
  i ← read idiom;
  let (source, printed) := WordsList.init net i in
  modify (fun w => set_stdout (stdout w ++ printed) w);;
  ws ← lift (WordsList.get_list rand source);
  modify (set_words_list ws);;
  modify (set_session (TypingSession.init ws now));;
  reset_interface;;
  highlight_next_word;;
  last_score ← (f ← read score_csv; lift (get_last_score f));
  match last_score with
  | Some sc =>
      modify (set_recent_score_entry
        ("Lang: " +:+ lang sc +:+ " " +:+ Py.str_of_int (cpm sc)
         +:+ " CPM (" +:+ Py.str_of_int (wpm sc) +:+ " WPM)"))
  | None => mret tt
  end.

(** [reset()] and [change_language(idiom)] *)
Definition reset (net : WordsList.network) (rand : nat -> nat)
    (now : float) : M unit :=
  cancel_timer;;
  modify (set_timer_started false);;
  new_session net rand now.

Definition change_language (i : option string) (net : WordsList.network)
    (rand : nat -> nat) (now : float) : M unit :=
  modify (set_idiom i);;
  modify (set_timer_started false);;
  reset net rand now.

(** [Window()]: the attributes as [__init__] sets them, over the score
    file found on disk, then [new_session()]. The session of [blank]
    stands for [None]: it is replaced before anything reads it. *)
Definition blank (file : option (list (list string))) : t :=
  mk None [] (TypingSession.init [] 0%float) false false [] EmptyString
     EmptyString EmptyString EmptyString EmptyString Normal None [] []
     false file 0%nat [].

Definition init (file : option (list (list string)))
    (net : WordsList.network) (rand : nat -> nat) (now : float)
    : t * Py.result unit :=
  new_session net rand now (blank file).

(** What the event loop delivers to the window. *)
Inductive event : Type :=
| KeyRelease (typed : string) (today : string)
| Space (entry : string) (now : float) (today : string)
| Timer (today : string)
| Restart (net : WordsList.network) (rand : nat -> nat) (now : float)
| Language (i : option string) (net : WordsList.network)
    (rand : nat -> nat) (now : float).

(** The window after an event; a timer event without a scheduled
    callback does not happen. *)
Definition handle (e : event) (w : t) : t :=
  match e with
  | KeyRelease typed today => fst (check_typed_word typed today w)
  | Space entry now today => fst (space_pressed entry now today w)
  | Timer today =>
      if timer_pending w
      then fst (update_timer today (set_timer_pending false w))
      else w
  | Restart net rand now => fst (reset net rand now w)
  | Language i net rand now => fst (change_language i net rand now w)
  end.

Definition run (es : list event) (w : t) : t :=
  foldl (fun w e => handle e w) w es.

End Window.

(** ** Sessions and windows used as examples *)

Module Examples.

(** A fresh session over two words, started at clock reading [1000]. *)
Definition cat_dog : TypingSession.t :=
  TypingSession.init ["cat"; "dog"]%string 1000%float.

(** A fresh session started at a clock reading of [1700000000] seconds. *)
Definition a_b : TypingSession.t :=
  TypingSession.init ["a"; "b"]%string 1700000000%float.

(** A word source that answers with three words, and one that fails. *)
Definition answers : WordsList.network :=
  fun _ => WordsList.Words ["cat"; "elephantine"; "dog"]%string.

Definition capitalised : WordsList.network :=
  fun _ => WordsList.Words ["Cat"]%string.

Definition unreachable : WordsList.network :=
  fun _ => WordsList.Failure "timed out".

(** A word source whose words are all too long. *)
Definition long_words : WordsList.network :=
  fun _ => WordsList.Words ["elephantine"; "hippopotamus"]%string.

(** A random generator. *)
Definition draws : nat -> nat := fun i => (7 * i + 3)%nat.

(** The window as it opens, without a score file, on the three words. *)
Definition opened : Window.t :=
  fst (Window.init None answers draws 1700000000%float).

(** The window as it opens over a score file that exists and is empty. *)
Definition empty_log : Window.t :=
  fst (Window.init (Some []) answers draws 1700000000%float).

(** Two submissions: the content of the entry, the clock, the date. *)
Definition two_words : list (string * float * string) :=
  [("cat "%string, 1700000001%float, "2026-01-01 10:00:01"%string);
   ("dox"%string, 1700000002%float, "2026-01-01 10:00:02"%string)].

End Examples.

(** ** Predicates and runs the statements are about *)

(** A word made of lowercase characters only. *)
Definition lowercase (word : string) : Prop :=
  Forall (fun c => Py.islower c = true) (list_ascii_of_string word).

#[global] Instance lowercase_dec word : Decision (lowercase word).
Proof. unfold lowercase. apply _. Defined.

(** A word the length filter of [get_list] keeps. *)
Definition short (word : string) : Prop := (String.length word <= 8)%nat.

#[global] Instance short_dec word : Decision (short word) :=
  decide (String.length word <= 8)%nat.

(** A property of the window that a handler keeps, whether it returns
    or raises. *)
Definition keeps {A} (I : Window.t -> Prop) (m : Window.M A) : Prop :=
  forall w, I w -> I (fst (m w)).

(** Running a handler from [w] ends in [Q] when it returns and in [E]
    when it raises. *)
Definition wp {A} (m : Window.M A) (Q : A -> Window.t -> Prop)
    (E : Window.t -> Prop) (w : Window.t) : Prop :=
  match m w with
  | (w', Py.Ok a) => Q a w'
  | (w', Py.Raise _) => E w'
  end.

(** A float that is a zero or finite, and one that is not a NaN, on the
    specification of floats. *)
Definition representable (x : spec_float) : Prop :=
  match x with
  | S754_zero _ | S754_finite _ _ _ => True
  | _ => False
  end.

Definition not_nan (x : spec_float) : Prop :=
  match x with
  | S754_nan => False
  | _ => True
  end.

(** A character count that converts to a float below [2 ^ 11]. *)
Definition small_float (z : Z) : bool :=
  match Py.float_of_int z with
  | Py.Ok f =>
      match Prim2SF f with
      | S754_zero _ => true
      | S754_finite _ m e => Z.pos (digits2_pos m) + e <=? 11
      | _ => false
      end
  | Py.Raise _ => false
  end.

(** A metric that [int] converts. *)
Definition displayable (x : Py.number) : Prop :=
  exists z, Py.int_of x = Py.Ok z.

(** The session of the window runs over the words shown, each with its
    position, and its cursor is within them or just past them. *)
Definition session_ok (w : Window.t) : Prop :=
  TypingSession.words (Window.session w) = Window.words_list w /\
  length (Window.words_indexes w) = length (Window.words_list w) /\
  0 <= TypingSession.current_word_index (Window.session w)
    <= Z.of_nat (length (Window.words_list w)).

(** Moreover the words are a pool (at most 200 words of at most 8
    characters), the credit does not exceed 8 characters per word
    passed, the session started at a finite clock reading and its
    metrics can be displayed. *)
Definition scoring_ok (w : Window.t) : Prop :=
  session_ok w /\
  Forall short (Window.words_list w) /\
  (length (Window.words_list w) <= 200)%nat /\
  0 <= TypingSession.correct_chars (Window.session w)
    <= 8 * TypingSession.current_word_index (Window.session w) /\
  is_finite (TypingSession.start_time (Window.session w)) = true /\
  displayable (TypingSession.cpm_corrected (Window.session w)) /\
  displayable (TypingSession.wpm (Window.session w)).

(** Two windows on the same test: same words, positions and session. *)
Definition same_test (w w' : Window.t) : Prop :=
  Window.session w' = Window.session w /\
  Window.words_list w' = Window.words_list w /\
  Window.words_indexes w' = Window.words_indexes w.

(** Submissions, each with the content of the entry, the clock reading
    and the date, as the events the window receives. *)
Definition submissions (subs : list (string * float * string))
    : list Window.event :=
  (fun x => Window.Space (fst (fst x)) (snd (fst x)) (snd x)) <$> subs.

(** The clock reading of an event, if it has one, is finite. *)
Definition finite_clock (e : Window.event) : Prop :=
  match e with
  | Window.Space _ now _ => is_finite now = true
  | Window.Restart _ _ now => is_finite now = true
  | Window.Language _ _ _ now => is_finite now = true
  | _ => True
  end.


(** One [save_score_to_csv] per date, in order. *)
Fixpoint saves (dates : list string) (w : Window.t) : Window.t :=
  match dates with
  | [] => w
  | today :: rest => saves rest (fst (Window.save_score_to_csv today w))
  end.

(** The row [save_score_to_csv] appends for the scores [c] and [p]. *)
Definition score_row (today : string) (i : option string) (c p : Z)
    : list string :=
  [today; Window.lang_of i; Py.str_of_int c; Py.str_of_int p].

(** [cpm_corrected == 5 * wpm] on the attributes of a session. *)
Definition metrics_consistent (s : TypingSession.t) : Py.result bool :=
  x ← Py.mul_int 5 (TypingSession.wpm s);
  Py.Ok (Py.num_eq (TypingSession.cpm_corrected s) x).

(** ** States the further properties are about *)

(** [n] successive calls of [next_word]. *)
Definition skip (n : nat) (s : TypingSession.t) : TypingSession.t :=
  Nat.iter n (fun s => fst (TypingSession.next_word s)) s.

(** The window [new_session] builds from [w] before it reads the score
    log: [ws] are the words drawn, [now] is the clock and [printed] what
    the word source printed. *)
Definition fresh (ws : list string) (now : float) (printed : list string)
    (w : Window.t) : Window.t :=
  Window.set_highlight (head (Window.positions 0 ws))
    (Window.set_time_entry "60"
       (Window.set_wpm_entry EmptyString
          (Window.set_corrected_cpm_entry EmptyString
             (Window.set_typed_text_entry Window.Normal
                (Window.set_text (Window.joined ws)
                   (Window.set_words_indexes (Window.positions 0 ws)
                      (Window.set_letter_tags []
                         (Window.set_word_tags []
                            (Window.set_session (TypingSession.init ws now)
                               (Window.set_words_list ws
                                  (Window.set_stdout
                                     (Window.stdout w ++ printed) w))))))))))).

(** What [new_session] shows for the last score of the log, and what
    [end_test] shows for the scores [c] and [p]. *)
Definition last_score_text (sc : Window.score) : string :=
  "Lang: " +:+ Window.lang sc +:+ " " +:+ Py.str_of_int (Window.cpm sc)
  +:+ " CPM (" +:+ Py.str_of_int (Window.wpm sc) +:+ " WPM)".

Definition score_text (c p : Z) : string :=
  Py.str_of_int c +:+ " CPM (" +:+ Py.str_of_int p +:+ " WPM)".

(** The rows of the log once it was opened for appending and the header
    written if the file did not exist. *)
Definition log_rows (file : option (list (list string)))
    : list (list string) :=
  match file with
  | None => [Window.header]
  | Some rows => rows
  end.

(** The text shows the words of the test and the positions recorded are
    theirs. *)
Definition display_ok (w : Window.t) : Prop :=
  Window.text w = Window.joined (Window.words_list w) /\
  Window.words_indexes w = Window.positions 0 (Window.words_list w).

(** The countdown: between 0 and 60 seconds are left; a scheduled tick
    has its identifier recorded and belongs to a countdown that was
    started; before the countdown starts 60 seconds are left. *)
Definition countdown_ok (w : Window.t) : Prop :=
  0 <= TypingSession.time_left (Window.session w) <= 60 /\
  (Window.timer_pending w = true ->
   Window.after_id w = true /\ Window.timer_started w = true) /\
  (Window.timer_started w = false ->
   TypingSession.time_left (Window.session w) = 60).

(** The counters: no more correct words than words passed, no more
    correct characters than the words passed have. *)
Definition counts_ok (w : Window.t) : Prop :=
  0 <= TypingSession.correct_words (Window.session w)
    <= TypingSession.current_word_index (Window.session w) /\
  0 <= TypingSession.correct_chars (Window.session w)
    <= Z.of_nat
         (sum_list_with String.length
            (take (Z.to_nat (TypingSession.current_word_index
                               (Window.session w)))
               (TypingSession.words (Window.session w)))).

(** An event that does not start another test. *)
Definition within_test (e : Window.event) : Prop :=
  match e with
  | Window.Restart _ _ _ | Window.Language _ _ _ _ => False
  | _ => True
  end.

(** An event that submits nothing: a key release or a tick. *)
Definition passive (e : Window.event) : Prop :=
  match e with
  | Window.KeyRelease _ _ | Window.Timer _ => True
  | _ => False
  end.

(** * Properties *)

(** ** Scoring a word: [TypingSession.check_word] *)

Section CheckWord.

Import TypingSession Examples.

Implicit Types (typed actual : string) (s : TypingSession.t).

Lemma filter_ext_elem {A} (P Q : A -> Prop) `{!forall x, Decision (P x)}
    `{!forall x, Decision (Q x)} (l : list A) :
  (forall x, x ∈ l -> P x <-> Q x) -> filter P l = filter Q l.
Proof.
  induction l as [|x l IH]; intros Hext; [reflexivity |].
  rewrite !filter_cons.
  rewrite IH by (intros y Hy; apply Hext; now right).
  destruct (decide (P x)) as [HP|HP], (decide (Q x)) as [HQ|HQ];
    try reflexivity; exfalso.
  - apply HQ, (Hext x); [left | exact HP].
  - apply HP, (Hext x); [left | exact HQ].
Qed.

Lemma filter_all {A} (P : A -> Prop) `{!forall x, Decision (P x)}
    (l : list A) :
  Forall P l -> filter P l = l.
Proof.
  induction 1 as [|x l HP _ IH]; [reflexivity |].
  rewrite filter_cons_True by exact HP. now rewrite IH.
Qed.

Lemma credit_length typed actual :
  credit typed actual =
  length (filter (Py.char_eq_at typed actual)
            (seq 0 (Nat.min (String.length typed) (String.length actual)))).
Proof.
  unfold credit. generalize (filter (Py.char_eq_at typed actual)
    (seq 0 (Nat.min (String.length typed) (String.length actual)))).
  intros l. induction l as [|x l IH]; simpl; [reflexivity | now rewrite IH].
Qed.

Lemma credit_le typed actual :
  (credit typed actual
   <= Nat.min (String.length typed) (String.length actual))%nat.
Proof.
  rewrite credit_length.
  etransitivity; [apply length_filter |]. now rewrite length_seq.
Qed.

(** The credited positions, as a duplicate-free list. *)
Lemma credit_positions typed actual :
  exists ps : list nat,
    NoDup ps /\
    (forall i, i ∈ ps <->
       (i < Nat.min (String.length typed) (String.length actual))%nat
       /\ String.get i typed = String.get i actual) /\
    credit typed actual = length ps.
Proof.
  exists (filter (Py.char_eq_at typed actual)
            (seq 0 (Nat.min (String.length typed) (String.length actual)))).
  split; [apply NoDup_filter, NoDup_seq |].
  split; [| apply credit_length].
  intros i. rewrite list_elem_of_filter, elem_of_seq.
  unfold Py.char_eq_at. intuition lia.
Qed.

Lemma get_append_l typed extra i :
  (i < String.length typed)%nat ->
  String.get i (typed +:+ extra) = String.get i typed.
Proof. intros Hi. symmetry. now apply append_correct1. Qed.

Lemma length_append typed extra :
  String.length (typed +:+ extra)
  = (String.length typed + String.length extra)%nat.
Proof. induction typed as [|c typed IH]; simpl; [reflexivity | now rewrite IH]. Qed.

(** Characters typed beyond the length of the word change nothing. *)
Lemma credit_extra typed actual extra :
  (String.length actual <= String.length typed)%nat ->
  credit (typed +:+ extra) actual = credit typed actual.
Proof.
  intros Hlen. rewrite !credit_length, length_append.
  rewrite !Nat.min_r by lia. f_equal.
  apply filter_ext_elem. intros i Hi.
  apply elem_of_seq in Hi. unfold Py.char_eq_at.
  rewrite get_append_l by lia. reflexivity.
Qed.

Lemma credit_none typed actual :
  (forall i, (i < Nat.min (String.length typed) (String.length actual))%nat ->
             String.get i typed <> String.get i actual) ->
  credit typed actual = 0%nat.
Proof.
  intros Hne. destruct (credit_positions typed actual) as (ps & _ & Hps & ->).
  destruct ps as [|i ps]; [reflexivity |].
  destruct (proj1 (Hps i)) as [Hi Heq]; [left |].
  now destruct (Hne i Hi).
Qed.

Lemma credit_all typed actual :
  (forall i, (i < Nat.min (String.length typed) (String.length actual))%nat ->
             String.get i typed = String.get i actual) ->
  credit typed actual
  = Nat.min (String.length typed) (String.length actual).
Proof.
  intros Heq. rewrite credit_length.
  rewrite filter_all; [apply length_seq |].
  apply Forall_forall. intros i Hi. apply elem_of_seq in Hi.
  apply Heq. lia.
Qed.

(** What [check_word] does on a session whose current word is [actual]. *)
Lemma check_word_eq typed actual s :
  Py.index (words s) (current_word_index s) = Py.Ok actual ->
  check_word typed s =
  Py.Ok (bool_decide (typed = actual),
         let s1 := set_correct_chars
                     (correct_chars s + Z.of_nat (credit typed actual)) s in
         if bool_decide (typed = actual)
         then set_correct_words (correct_words s + 1) s1 else s1).
Proof.
  intros Hw. unfold check_word. rewrite Hw. cbn. unfold Py.str_eq.
  destruct (bool_decide (typed = actual)); reflexivity.
Qed.

(** C1. On a session whose current word is [actual], [check_word typed]
    returns and adds to [correct_chars] the number of positions below
    [min(len(typed), len(actual))] at which the two strings carry the same
    character. The credit is at most that minimum, characters typed beyond
    the length of the word change neither the credit nor anything else of
    the count, and when no position carries the same character in both
    strings nothing is credited, whatever characters the strings share
    elsewhere. *)
Theorem check_word_credit typed actual s :
  Py.index (words s) (current_word_index s) = Py.Ok actual ->
  exists correct s',
    check_word typed s = Py.Ok (correct, s') /\
    (exists ps : list nat,
       NoDup ps /\
       (forall i, i ∈ ps <->
          (i < Nat.min (String.length typed) (String.length actual))%nat
          /\ String.get i typed = String.get i actual) /\
       correct_chars s' = correct_chars s + Z.of_nat (length ps)) /\
    correct_chars s' - correct_chars s
      <= Z.of_nat (Nat.min (String.length typed) (String.length actual)) /\
    (forall extra,
       (String.length actual <= String.length typed)%nat ->
       exists correct2 s2,
         check_word (typed +:+ extra) s = Py.Ok (correct2, s2) /\
         correct_chars s2 = correct_chars s') /\
    ((forall i,
        (i < Nat.min (String.length typed) (String.length actual))%nat ->
        String.get i typed <> String.get i actual) ->
     correct_chars s' = correct_chars s).
Proof.
  intros Hw.
  assert (Hchars : forall t, exists c s1,
            check_word t s = Py.Ok (c, s1) /\
            correct_chars s1 = correct_chars s + Z.of_nat (credit t actual)).
  { intros t. rewrite (check_word_eq t actual s Hw).
    eexists _, _. split; [reflexivity |].
    cbn. now destruct (bool_decide (t = actual)). }
  destruct (Hchars typed) as (c & s1 & Hrun & Hadd).
  exists c, s1. split; [exact Hrun |]. repeat split.
  - destruct (credit_positions typed actual) as (ps & Hnd & Hps & Hlen).
    exists ps. rewrite <- Hlen. auto.
  - rewrite Hadd. pose proof (credit_le typed actual). lia.
  - intros extra Hlen.
    destruct (Hchars (typed +:+ extra)) as (c2 & s2 & Hrun2 & Hadd2).
    exists c2, s2. split; [exact Hrun2 |].
    rewrite Hadd2, Hadd, credit_extra by exact Hlen. reflexivity.
  - intros Hne. rewrite Hadd, credit_none by exact Hne. lia.
Qed.

Lemma check_word_credit_witness :
  exists correct s',
    check_word "cot" cat_dog = Py.Ok (correct, s') /\
    correct_chars s' - correct_chars cat_dog <= 3.
Proof.
  destruct (check_word_credit "cot" "cat" cat_dog eq_refl)
    as (c & s' & Hrun & _ & Hle & _).
  exists c, s'. split; [exact Hrun | exact Hle].
Defined.

(** C2. On a session whose current word is [actual], [check_word typed]
    returns [True] exactly when [typed == actual], and it adds one to
    [correct_words] exactly then; otherwise it returns [False] and leaves
    [correct_words] as it was. In both cases the characters are credited;
    a string that agrees with the word on every common position but has
    another length is not correct and earns the common length. *)
Theorem check_word_exact typed actual s :
  Py.index (words s) (current_word_index s) = Py.Ok actual ->
  exists correct s',
    check_word typed s = Py.Ok (correct, s') /\
    (correct = true <-> typed = actual) /\
    (correct_words s' = correct_words s + 1 <-> typed = actual) /\
    (typed <> actual ->
       correct = false /\ correct_words s' = correct_words s) /\
    correct_chars s' = correct_chars s + Z.of_nat (credit typed actual) /\
    ((forall i,
        (i < Nat.min (String.length typed) (String.length actual))%nat ->
        String.get i typed = String.get i actual) ->
     String.length typed <> String.length actual ->
     correct = false /\
     correct_words s' = correct_words s /\
     correct_chars s' = correct_chars s
       + Z.of_nat (Nat.min (String.length typed) (String.length actual))).
Proof.
  intros Hw. rewrite (check_word_eq typed actual s Hw).
  eexists _, _. split; [reflexivity |].
  destruct (decide (typed = actual)) as [Heq|Hne].
  - rewrite (bool_decide_eq_true_2 _ Heq). cbn.
    split; [tauto |]. split; [tauto |]. split; [tauto |].
    split; [reflexivity |].
    intros _ Hlen. now subst.
  - rewrite (bool_decide_eq_false_2 _ Hne). cbn.
    split; [split; [discriminate | tauto] |].
    split; [split; [lia | tauto] |].
    split; [tauto |]. split; [reflexivity |].
    intros Hall _. now rewrite credit_all.
Qed.

(** The two submissions of a session over ["cat"] and ["dog"]. *)
Example cat_then_dig :
  (r1 ← check_word "cat" cat_dog;
   r2 ← check_word "dig" (fst (next_word (snd r1)));
   Py.Ok (fst r1, fst r2,
          correct_chars (snd r2), correct_words (snd r2),
          current_word_index (fst (next_word (snd r2)))))
  = Py.Ok (true, false, 5, 1, 2).
Proof. reflexivity. Qed.

Lemma check_word_exact_witness :
  exists s',
    check_word "cot" cat_dog = Py.Ok (false, s') /\
    correct_words s' = 0 /\ correct_chars s' = 2.
Proof.
  destruct (check_word_exact "cot" "cat" cat_dog eq_refl)
    as (c & s' & Hrun & _ & _ & Hne & Hchars & _).
  destruct Hne as [-> Hwords]; [discriminate |].
  exists s'. split; [exact Hrun |]. split; [exact Hwords | exact Hchars].
Defined.

End CheckWord.

(** ** The derived metrics: [TypingSession.update_metrics] *)

Section Metrics.

Import TypingSession Examples.

Local Open Scope float_scope.

Lemma floor_spec : Prim2SF (1 / 60) = S754_finite false 4803839602528529 (-58).
Proof. vm_compute. reflexivity. Qed.

Lemma zero_spec : Prim2SF 0 = S754_zero false.
Proof. vm_compute. reflexivity. Qed.

(** A float equal to zero is below [1 / 60]. *)
Lemma zero_below_floor (x : float) :
  (x =? 0) = true -> (x <? 1 / 60) = true.
Proof.
  rewrite FloatAxioms.eqb_spec, FloatAxioms.ltb_spec, floor_spec, zero_spec.
  destruct (Prim2SF x) as [sg|sg| |sg m e]; unfold SFeqb, SFltb, SFcompare.
  - reflexivity.
  - destruct sg; discriminate.
  - discriminate.
  - destruct sg; discriminate.
Qed.

(** The divisor of the recomputation is neither below [1 / 60] nor zero. *)
Lemma elapsed_floor (x : float) :
  (Py.max x (1 / 60) <? 1 / 60) = false /\
  (Py.max x (1 / 60) =? 0) = false.
Proof.
  unfold Py.max. destruct (x <? 1 / 60) eqn:Hlt.
  - split; vm_compute; reflexivity.
  - split; [exact Hlt |].
    destruct (x =? 0) eqn:Hz; [| reflexivity].
    apply zero_below_floor in Hz. congruence.
Qed.

(** C5, as the code has it. A recomputation (the start time being set
    and the character count fitting a float) stores in [cpm_corrected] the
    float quotient of [correct_chars] by
    [max((now - start_time) / 60, 1 / 60)], a divisor that is never below
    [1 / 60] and never zero, so the division does not raise, and stores in
    [wpm] the float quotient of that by [5]. A fresh session holds [0] in
    both and satisfies [cpm_corrected == 5 * wpm]. *)
Theorem update_metrics_recomputes (now : float) (s : TypingSession.t)
    (chars : float) :
  (start_time s =? 0) = false ->
  Py.float_of_int (correct_chars s) = Py.Ok chars ->
  let elapsed_time := Py.max ((now - start_time s) / 60) (1 / 60) in
  (elapsed_time <? 1 / 60) = false /\
  (elapsed_time =? 0) = false /\
  update_metrics now s =
    Py.Ok (set_metrics (Py.PyFloat (chars / elapsed_time))
             (Py.PyFloat (chars / elapsed_time / 5)) s) /\
  (forall ws t0,
     cpm_corrected (init ws t0) = Py.PyInt 0 /\
     wpm (init ws t0) = Py.PyInt 0 /\
     metrics_consistent (init ws t0) = Py.Ok true).
Proof.
  intros Hstart Hchars elapsed_time.
  destruct (elapsed_floor ((now - start_time s) / 60)) as [Hfloor Hzero].
  fold elapsed_time in Hfloor, Hzero.
  split; [exact Hfloor |]. split; [exact Hzero |]. split.
  - unfold update_metrics. rewrite Hstart, Hchars.
    fold elapsed_time. unfold mbind, Py.result_bind, Py.bind, Py.truediv.
    rewrite Hzero. reflexivity.
  - intros ws t0. repeat split.
Qed.

Lemma update_metrics_recomputes_witness :
  update_metrics 1700000030 a_b =
    Py.Ok (set_metrics (Py.PyFloat 0) (Py.PyFloat 0) a_b).
Proof.
  destruct (update_metrics_recomputes 1700000030 a_b 0 eq_refl eq_refl)
    as (_ & _ & Hrun & _).
  exact Hrun.
Defined.

(** C5 fails as stated: after the first character is credited and the
    metrics are recomputed nine seconds after the start,
    [cpm_corrected] is [6.666666666666667] and [5 * wpm] is
    [6.666666666666668]. *)
Lemma metrics_identity_counterexample :
  (r ← check_word "a" a_b;
   s2 ← update_metrics 1700000009 (snd r);
   same ← metrics_consistent s2;
   Py.Ok (fst r, correct_chars s2, same))
  = Py.Ok (true, 1%Z, false).
Proof. vm_compute. reflexivity. Qed.

End Metrics.

(** ** The word source: [WordsList] *)

Section Sampling.

Context {A : Type}.

Local Open Scope nat_scope.

Implicit Types (pool population : list A) (rand : nat -> nat).

(** One step of the selection: the drawn element, followed by the live
    part of the pool after the refill, is the live part before it. *)
Lemma refill_live pool m j x y :
  (j < S m)%nat ->
  pool !! j = Some x ->
  pool !! m = Some y ->
  x :: take m (<[j := y]> pool) ≡ₚ take (S m) pool.
Proof.
  intros Hj Hx Hy. rewrite (take_S_r pool m y Hy).
  destruct (decide (j = m)) as [->|Hne].
  - rewrite take_insert_ge by lia.
    assert (x = y) by congruence. subst y. apply Permutation_cons_append.
  - assert (Hjm : (j < m)%nat) by lia.
    rewrite take_insert_lt by exact Hjm.
    assert (Hlive : take m pool !! j = Some x)
      by (rewrite lookup_take_lt by exact Hjm; exact Hx).
    rewrite insert_take_drop by (apply lookup_lt_Some in Hlive; exact Hlive).
    rewrite <- (take_drop_middle (take m pool) j x Hlive) at 3.
    rewrite <- !app_assoc. cbn.
    generalize (take j (take m pool)), (drop (S j) (take m pool)).
    intros before after.
    rewrite <- (Permutation_cons_append after y).
    rewrite <- !Permutation_middle. reflexivity.
Qed.

(** The loop selects [k] elements and leaves the others in the pool. *)
Lemma sample_loop_spec rand k : forall pool n i,
  length pool = n ->
  (i + k <= n)%nat ->
  length (Py.sample_loop rand pool n i k) = k /\
  exists rest,
    Py.sample_loop rand pool n i k ++ rest ≡ₚ take (n - i) pool.
Proof.
  induction k as [|k IH]; intros pool n i Hlen Hik; cbn.
  - split; [reflexivity |]. now exists (take (n - i) pool).
  - assert (Hm : (n - i = S (n - i - 1))%nat) by lia.
    assert (Hj : (rand i mod (n - i) < n - i)%nat)
      by (apply Nat.mod_upper_bound; lia).
    destruct (lookup_lt_is_Some_2 pool (rand i mod (n - i))) as [x Hx];
      [lia |].
    destruct (lookup_lt_is_Some_2 pool (n - i - 1)) as [y Hy]; [lia |].
    rewrite Hx, Hy. cbn.
    destruct (IH (<[rand i mod (n - i) := y]> pool) n (S i)) as [Hl [rest Hr]];
      [now rewrite length_insert | lia |].
    split; [now rewrite Hl |].
    exists rest. rewrite Hr.
    replace (n - S i)%nat with (n - i - 1)%nat by lia.
    rewrite Hm at 3. apply refill_live; [lia | exact Hx | exact Hy].
Qed.

(** [sample] returns when [k] does not exceed the population: [k]
    elements, none taken more often than the population holds it. *)
Lemma sample_spec rand population k :
  (k <= length population)%nat ->
  exists result,
    Py.sample rand population k = Py.Ok result /\
    length result = k /\
    result ⊆+ population.
Proof.
  intros Hk. unfold Py.sample.
  rewrite (proj2 (Nat.leb_le _ _) Hk).
  destruct (sample_loop_spec rand k population (length population) 0)
    as [Hl [rest Hr]]; [reflexivity | lia |].
  eexists. split; [reflexivity |]. split; [exact Hl |].
  rewrite Nat.sub_0_r, firstn_all in Hr.
  transitivity (Py.sample_loop rand population (length population) 0 k ++ rest).
  - now apply submseteq_inserts_r.
  - now apply Permutation_submseteq.
Qed.

End Sampling.

Section Words.

Import WordsList Examples.

Implicit Types (net : network) (rand : nat -> nat) (ws pool : list string).

Lemma filter_none {A} (P : A -> Prop) `{!forall x, Decision (P x)}
    (l : list A) :
  filter P l = [] <-> Forall (fun x => ~ P x) l.
Proof.
  rewrite Forall_forall. split.
  - intros Hnil x Hx HP. now apply (filter_nil_not_elem_of P l x).
  - intros Hnone. induction l as [|x l IH]; [reflexivity |].
    rewrite filter_cons_False by (apply Hnone; left).
    apply IH. intros y Hy. apply Hnone. now right.
Qed.

(** [get_list] returns on every list of words: as many words as the
    filter keeps, up to 200, taken from the kept words. *)
Lemma get_list_spec rand ws i :
  exists pool,
    get_list rand (mk (Some ws) i) = Py.Ok pool /\
    length pool = Nat.min 200 (length (filter short ws)) /\
    pool ⊆+ filter short ws.
Proof.
  destruct (sample_spec rand (filter short ws)
              (Nat.min 200 (length (filter short ws))))
    as (pool & Hrun & Hlen & Hsub); [lia |].
  exists pool. split; [exact Hrun |]. split; [exact Hlen | exact Hsub].
Qed.

(** The pool is made of at most 200 words, of at most 8 characters. *)
Lemma get_list_short rand ws i :
  exists pool,
    get_list rand (mk (Some ws) i) = Py.Ok pool /\
    (length pool <= 200)%nat /\
    Forall short pool.
Proof.
  destruct (get_list_spec rand ws i) as (pool & Hrun & Hlen & Hsub).
  exists pool. split; [exact Hrun |]. split; [lia |].
  apply Forall_forall. intros word Hword.
  apply (elem_of_submseteq _ _ _ Hword) in Hsub.
  now apply list_elem_of_filter in Hsub.
Qed.

Lemma init_words_list net i :
  words_list (fst (init net i)) =
  Some match net (url i) with
       | Words ws => ws
       | Failure _ => fallback
       end.
Proof. unfold init, get_words. now destruct (net (url i)). Qed.

Lemma init_eq net i :
  fst (init net i) =
  mk (Some match net (url i) with
           | Words ws => ws
           | Failure _ => fallback
           end) i.
Proof. unfold init, get_words. now destruct (net (url i)). Qed.

(** C4. On every source list, [get_list] returns a pool of
    [min(200, number of source words of length <= 8)] words, each of
    length at most 8, in which no word occurs more often than among the
    source words of length at most 8 (the words are drawn without
    replacement); the pool is empty when no source word is that short. *)
Theorem get_list_pool rand ws i :
  exists pool,
    get_list rand (mk (Some ws) i) = Py.Ok pool /\
    length pool = Nat.min 200 (length (filter short ws)) /\
    Forall short pool /\
    pool ⊆+ filter short ws /\
    (Forall (fun word => ~ short word) ws -> pool = []).
Proof.
  destruct (get_list_spec rand ws i) as (pool & Hrun & Hlen & Hsub).
  exists pool. split; [exact Hrun |]. split; [exact Hlen |].
  split; [| split; [exact Hsub |]].
  - apply Forall_forall. intros word Hword.
    apply (elem_of_submseteq _ _ _ Hword) in Hsub.
    now apply list_elem_of_filter in Hsub.
  - intros Hnone. apply (proj2 (filter_none short ws)) in Hnone.
    rewrite Hnone in Hsub. now apply submseteq_nil_r.
Qed.

(** C7. [get_words] is a total function of what the request does: when
    the request or the decoding fails, the object retains the seven
    fallback words and one line is printed; when it succeeds, the object
    retains the list received and nothing is printed. The same holds of
    the constructor, which calls it. *)
Theorem get_words_fallback net i self :
  fallback = ["default"; "word"; "list"; "in"; "case"; "of"; "error"]%string /\
  length fallback = 7%nat /\
  (forall e, net (url i) = Failure e ->
     get_words net i self =
       (mk (Some fallback) (idiom self), ["Unable to load words: " +:+ e]) /\
     init net i = (mk (Some fallback) i, ["Unable to load words: " +:+ e])) /\
  (forall ws, net (url i) = Words ws ->
     get_words net i self = (mk (Some ws) (idiom self), []) /\
     init net i = (mk (Some ws) i, [])).
Proof.
  split; [reflexivity |]. split; [reflexivity |].
  unfold init, get_words.
  split; intros x Hnet; rewrite Hnet; split; reflexivity.
Qed.

Lemma get_words_fallback_witness :
  init unreachable (Some "pt-br"%string) =
    (mk (Some fallback) (Some "pt-br"%string),
     ["Unable to load words: timed out"%string]).
Proof.
  destruct (get_words_fallback unreachable (Some "pt-br"%string)
              (mk None None)) as (_ & _ & Hfail & _).
  destruct (Hfail "timed out"%string eq_refl) as [_ Hinit].
  exact Hinit.
Defined.

(** C9 fails as stated: the pool drawn from a source that answers
    ["Cat"] holds the word ["Cat"]. *)
Lemma get_list_lowercase_counterexample :
  get_list draws (fst (init capitalised None)) = Py.Ok ["Cat"%string] /\
  ~ lowercase "Cat".
Proof.
  split; [reflexivity |].
  intros Hlow. apply Forall_cons in Hlow as [Hc _]. discriminate Hc.
Qed.

(** C9, as the code has it. Whatever the source words are, every word
    of the pool is one of the source words of length at most 8, the very
    string the source gave, and no word occurs in the pool more often
    than among them; when at most 200 source words are that short, each
    of them is in the pool as it was given. So [get_list] changes the
    case of no word: the words of the pool are lowercase whenever the
    source words of length at most 8 are. *)
Theorem get_list_keeps_words rand ws i :
  exists pool,
    get_list rand (mk (Some ws) i) = Py.Ok pool /\
    pool ⊆+ filter short ws /\
    (forall word, word ∈ pool -> word ∈ ws /\ short word) /\
    ((length (filter short ws) <= 200)%nat ->
     forall word, word ∈ ws -> short word -> word ∈ pool) /\
    (Forall lowercase (filter short ws) -> Forall lowercase pool).
Proof.
  destruct (get_list_spec rand ws i) as (pool & Hrun & Hlen & Hsub).
  exists pool. split; [exact Hrun |]. split; [exact Hsub |].
  split; [| split].
  - intros word Hword. apply (elem_of_submseteq _ _ _ Hword) in Hsub.
    now apply list_elem_of_filter in Hsub.
  - intros Hfew word Hword Hshort.
    assert (Hall : pool ≡ₚ filter short ws)
      by (apply submseteq_length_Permutation; [exact Hsub | lia]).
    rewrite Hall. now apply list_elem_of_filter.
  - intros Hlow. apply Forall_forall. intros word Hword.
    apply (elem_of_submseteq _ _ _ Hword) in Hsub.
    now apply (proj1 (Forall_forall _ _) Hlow).
Qed.

Lemma get_list_keeps_words_witness :
  exists pool,
    get_list draws (mk (Some ["cat"; "elephantine"; "dog"]%string) None)
      = Py.Ok pool /\
    "cat"%string ∈ pool /\
    Forall lowercase pool.
Proof.
  destruct (get_list_keeps_words draws
              ["cat"; "elephantine"; "dog"]%string None)
    as (pool & Hrun & _ & _ & Hall & Hlow).
  exists pool. split; [exact Hrun |]. split.
  - apply Hall; [vm_compute; lia | left | vm_compute; lia].
  - apply Hlow. apply (bool_decide_unpack _). vm_compute. exact I.
Defined.

(** C10. When the request fails, [get_list] returns the seven fallback
    words in some order, hence a pool that is not empty; so an empty pool
    is only drawn from a list that was received and holds no word of
    length at most 8. *)
Theorem fallback_pool net i rand :
  (forall e, net (url i) = Failure e ->
     exists pool,
       get_list rand (fst (init net i)) = Py.Ok pool /\
       pool ≡ₚ fallback /\ length pool = 7%nat /\ pool <> []) /\
  (get_list rand (fst (init net i)) = Py.Ok [] ->
   exists ws,
     net (url i) = Words ws /\
     Forall (fun word => (8 < String.length word)%nat) ws).
Proof.
  assert (Hfail : forall e, net (url i) = Failure e ->
            exists pool,
              get_list rand (fst (init net i)) = Py.Ok pool /\
              pool ≡ₚ fallback /\ length pool = 7%nat /\ pool <> []).
  { intros e Hnet. rewrite init_eq, Hnet.
    destruct (get_list_spec rand fallback i) as (pool & Hrun & Hlen & Hsub).
    change (filter short fallback) with fallback in Hlen, Hsub.
    change (Nat.min 200 (length fallback)) with 7%nat in Hlen.
    exists pool. split; [exact Hrun |]. split; [| split; [exact Hlen |]].
    - apply submseteq_length_Permutation; [exact Hsub |].
      rewrite Hlen. reflexivity.
    - intros ->. discriminate Hlen. }
  split; [exact Hfail |].
  intros Hempty. destruct (net (url i)) as [ws|e] eqn:Hnet.
  - exists ws. split; [reflexivity |].
    rewrite init_eq, Hnet in Hempty.
    destruct (get_list_spec rand ws i) as (pool & Hrun & Hlen & _).
    rewrite Hempty in Hrun. injection Hrun as <-.
    assert (Hnil : filter short ws = []).
    { destruct (filter short ws); [reflexivity | discriminate Hlen]. }
    apply (proj1 (filter_none short ws)) in Hnil.
    eapply Forall_impl; [exact Hnil |].
    intros word Hword. unfold short in Hword. lia.
  - destruct (Hfail e eq_refl) as (pool & Hrun & _ & _ & Hne).
    rewrite Hempty in Hrun. injection Hrun as <-. now destruct Hne.
Qed.

Lemma fallback_pool_witness :
  exists pool,
    get_list draws (fst (init unreachable None)) = Py.Ok pool /\
    length pool = 7%nat.
Proof.
  destruct (fallback_pool unreachable None draws) as [Hfail _].
  destruct (Hfail "timed out"%string eq_refl) as (pool & Hrun & _ & Hlen & _).
  exists pool. split; [exact Hrun | exact Hlen].
Defined.

End Words.

(** ** Reasoning about handlers *)

Section Handlers.

Import Window.

(** Running a sequence whose first part returns, or raises. *)
Lemma run_bind {A B} (m : M A) (k : A -> M B) w w' a :
  m w = (w', Py.Ok a) -> (m ≫= k) w = k a w'.
Proof. intros Hm. unfold mbind, M_bind. now rewrite Hm. Qed.

Lemma run_bind_raise {A B} (m : M A) (k : A -> M B) w w' e :
  m w = (w', Py.Raise e) -> (m ≫= k) w = (w', Py.Raise e).
Proof. intros Hm. unfold mbind, M_bind. now rewrite Hm. Qed.

Lemma keeps_bind {A B} I (m : M A) (k : A -> M B) :
  keeps I m -> (forall a, keeps I (k a)) -> keeps I (m ≫= k).
Proof.
  intros Hm Hk w Hw. unfold mbind, M_bind.
  specialize (Hm w Hw). destruct (m w) as [w' [a|e]]; cbn in *.
  - now apply Hk.
  - exact Hm.
Qed.

Lemma keeps_ret {A} I (a : A) : keeps I (mret a).
Proof. intros w Hw. exact Hw. Qed.

Lemma keeps_read {A} I (f : t -> A) : keeps I (read f).
Proof. intros w Hw. exact Hw. Qed.

Lemma keeps_lift {A} I (r : Py.result A) : keeps I (lift r).
Proof. intros w Hw. exact Hw. Qed.

Lemma keeps_modify I (f : t -> t) :
  (forall w, I w -> I (f w)) -> keeps I (modify f).
Proof. intros Hf w Hw. now apply Hf. Qed.

Lemma keeps_if {A} I (b : bool) (m1 m2 : M A) :
  keeps I m1 -> keeps I m2 -> keeps I (if b then m1 else m2).
Proof. now destruct b. Qed.

Lemma keeps_on_session {A} I
    (f : TypingSession.t -> Py.result (A * TypingSession.t)) :
  (forall w a s', I w -> f (session w) = Py.Ok (a, s') ->
                  I (set_session s' w)) ->
  keeps I (on_session f).
Proof.
  intros Hf w Hw. unfold on_session.
  destruct (f (session w)) as [[a s']|e] eqn:Hrun; cbn; [| exact Hw].
  now apply (Hf w a s').
Qed.

End Handlers.

Ltac keeps_step :=
  cbv beta;
  lazymatch goal with
  | |- keeps _ (_ ≫= _) => apply keeps_bind; [| intros ?]
  | |- keeps _ (mret _) => apply keeps_ret
  | |- keeps _ (Window.read _) => apply keeps_read
  | |- keeps _ (Window.lift _) => apply keeps_lift
  | |- keeps _ (Window.modify _) => apply keeps_modify
  | |- keeps _ (if _ then _ else _) => apply keeps_if
  | |- keeps _ (match ?x with _ => _ end) => destruct x
  end.

(** ** The countdown: [Window.update_timer] *)

Section Countdown.

Import Window Examples.

Implicit Types (w : Window.t) (today : string).

(** A tick with time left: the time is shown, then decremented, and the
    next tick is scheduled. *)
Lemma update_timer_running today w :
  0 < TypingSession.time_left (session w) ->
  update_timer today w =
    (set_timer_pending true
       (set_after_id true
          (set_session
             (TypingSession.set_time_left
                (TypingSession.time_left (session w) - 1) (session w))
             (set_time_entry
                (Py.str_of_int (TypingSession.time_left (session w))) w))),
     Py.Ok tt).
Proof.
  intros Hleft. unfold update_timer, mbind, M_bind, modify, read. cbn.
  rewrite (proj2 (Z.ltb_lt _ _) Hleft). reflexivity.
Qed.

Lemma save_score_keeps today (I : Window.t -> Prop) :
  (forall w v, I w -> I (set_score_csv v w)) ->
  keeps I (save_score_to_csv today).
Proof.
  intros Hcsv. unfold save_score_to_csv.
  repeat keeps_step; intros; now apply Hcsv.
Qed.

(** [end_test] disables the entry before anything else and leaves the
    session alone, also when it raises. *)
Lemma end_test_triggers today w :
  typed_text_entry (fst (end_test today w)) = Disabled /\
  session (fst (end_test today w)) = session w.
Proof.
  pose (I := fun w' : Window.t =>
          typed_text_entry w' = Disabled /\ session w' = session w).
  change (I (fst (end_test today w))).
  unfold end_test.
  match goal with
  | |- I (fst ((modify ?f ≫= ?k) w)) =>
      change (I (fst (k tt (f w)))); cut (keeps I (k tt))
  end.
  - intros Hkeeps. apply Hkeeps. split; reflexivity.
  - repeat first [keeps_step | apply save_score_keeps];
      unfold I; intros; cbn; assumption.
Qed.







End Countdown.

(** ** The score log: [save_score_to_csv] and [get_last_score] *)

Section ScoreLog.

Import Window Examples.

Implicit Types (w : Window.t) (today : string) (rows : list (list string)).

(** [int(str(z)) == z] *)
Lemma int_of_str_of_int (z : Z) : Py.int_of_str (Py.str_of_int z) = Py.Ok z.
Proof.
  unfold Py.int_of_str, Py.str_of_int.
  destruct (Decimal.signed_int_eq_dec (Z.to_int z) (Decimal.Pos Decimal.Nil))
    as [Hpos|Hpos].
  - rewrite Hpos, NilZero.isi_posnil.
    rewrite <- (DecimalZ.of_to z), Hpos. reflexivity.
  - destruct (Decimal.signed_int_eq_dec (Z.to_int z) (Decimal.Neg Decimal.Nil))
      as [Hneg|Hneg].
    + rewrite Hneg, NilZero.isi_negnil.
      rewrite <- (DecimalZ.of_to z), Hneg. reflexivity.
    + rewrite NilZero.isi by assumption. now rewrite DecimalZ.of_to.
Qed.

(** [str(z)] is not a column title. *)
Lemma str_of_int_not_title (z : Z) : Py.str_of_int z <> "CPM"%string.
Proof.
  intros Heq. pose proof (int_of_str_of_int z) as Hback.
  rewrite Heq in Hback. discriminate Hback.
Qed.

(** The file after a save that finds the metrics convertible. *)
Lemma save_score_to_csv_ok today w c p :
  Py.int_of (TypingSession.cpm_corrected (session w)) = Py.Ok c ->
  Py.int_of (TypingSession.wpm (session w)) = Py.Ok p ->
  save_score_to_csv today w =
    (set_score_csv
       (Some (match score_csv w with
              | None => [header]
              | Some rows => rows
              end ++ [score_row today (idiom w) c p])) w,
     Py.Ok tt).
Proof.
  intros Hc Hp. unfold save_score_to_csv, mbind, M_bind, modify, read, lift.
  destruct (score_csv w) as [rows|] eqn:Hfile; cbn;
    rewrite ?Hfile, Hc, Hp; cbn; rewrite ?Hfile; reflexivity.
Qed.

Lemma bind_ok {A B} (a : A) (k : A -> Py.result B) : Py.Ok a ≫= k = k a.
Proof. reflexivity. Qed.

(** Subscripts in range. *)
Lemma index_lookup {A} (l : list A) (n : nat) (x : A) :
  l !! n = Some x -> Py.index l (Z.of_nat n) = Py.Ok x.
Proof.
  intros Hx. unfold Py.index. cbv zeta.
  pose proof (lookup_lt_Some _ _ _ Hx) as Hn.
  rewrite !(proj2 (Z.ltb_ge (Z.of_nat n) 0)) by lia.
  rewrite (proj2 (Z.leb_gt _ _)) by lia. cbn.
  now rewrite Nat2Z.id, Hx.
Qed.

Lemma index_last {A} (l : list A) (x : A) :
  Py.index (l ++ [x]) (-1) = Py.Ok x.
Proof.
  unfold Py.index. cbv zeta. rewrite length_app. cbn [length].
  change (-1 <? 0) with true. cbv iota.
  replace (-1 + Z.of_nat (length l + 1)) with (Z.of_nat (length l)) by lia.
  rewrite (proj2 (Z.ltb_ge _ _)) by lia.
  rewrite (proj2 (Z.leb_gt _ _)) by lia. cbn.
  rewrite Nat2Z.id, lookup_app_r by lia.
  now rewrite Nat.sub_diag.
Qed.

(** Reading a file whose last row was written by a save. *)
Lemma get_last_score_row rows today i c p :
  rows <> [] ->
  get_last_score (Some (rows ++ [score_row today i c p]))
  = Py.Ok (Some (mk_score today (lang_of i) c p)).
Proof.
  intros Hrows. unfold get_last_score.
  assert (Hlen : (length (rows ++ [score_row today i c p]) <=? 1)%nat = false).
  { apply Nat.leb_gt. rewrite length_app. cbn.
    destruct rows; [congruence | cbn; lia]. }
  rewrite Hlen, index_last, bind_ok.
  change (Py.index (score_row today i c p) 0) with (Py.Ok today).
  change (Py.index (score_row today i c p) 1) with (Py.Ok (lang_of i)).
  change (Py.index (score_row today i c p) 2) with (Py.Ok (Py.str_of_int c)).
  change (Py.index (score_row today i c p) 3) with (Py.Ok (Py.str_of_int p)).
  rewrite !bind_ok, int_of_str_of_int, !bind_ok, int_of_str_of_int, bind_ok.
  reflexivity.
Qed.

(** Saves into a file that exists only append their rows. *)
Lemma saves_existing c p dates : forall w rows,
  Py.int_of (TypingSession.cpm_corrected (session w)) = Py.Ok c ->
  Py.int_of (TypingSession.wpm (session w)) = Py.Ok p ->
  score_csv w = Some rows ->
  score_csv (saves dates w)
  = Some (rows ++ ((fun today => score_row today (idiom w) c p) <$> dates)).
Proof.
  induction dates as [|today dates IH]; intros w rows Hc Hp Hfile; cbn.
  - now rewrite app_nil_r.
  - rewrite (save_score_to_csv_ok today w c p Hc Hp), Hfile. cbn [fst].
    rewrite (IH _ (rows ++ [score_row today (idiom w) c p]));
      [| exact Hc | exact Hp | reflexivity].
    cbn. now rewrite <- app_assoc.
Qed.

Lemma score_row_not_header today i c p : score_row today i c p <> header.
Proof.
  unfold score_row, header. intros Heq.
  injection Heq as _ _ Hc _. now apply (str_of_int_not_title c).
Qed.

(** C8 fails as stated: into a score file that exists and is empty the
    save writes its row without a header, and reading the log back then
    returns nothing, since a log of one row is taken to hold the header
    only. *)
Lemma score_log_empty_file_counterexample :
  score_csv empty_log = Some [] /\
  Py.int_of (TypingSession.cpm_corrected (session empty_log)) = Py.Ok 0 /\
  Py.int_of (TypingSession.wpm (session empty_log)) = Py.Ok 0 /\
  snd (save_score_to_csv "2026-01-01 10:00:00" empty_log) = Py.Ok tt /\
  score_csv (fst (save_score_to_csv "2026-01-01 10:00:00" empty_log))
    = Some [["2026-01-01 10:00:00"; "en"; "0"; "0"]%string] /\
  get_last_score
    (score_csv (fst (save_score_to_csv "2026-01-01 10:00:00" empty_log)))
    = Py.Ok None.
Proof. vm_compute. repeat split. Qed.

(** C8, as the code has it. The log is the list of rows of the file,
    each line of which is terminated, as the lines the program writes
    are. When the metrics convert to integers [c] and [p], a save
    returns; if the log was absent or held at least one row before the
    save, reading it back yields the date, the language and the integers
    [c] and [p] that were written, and if the file existed and was empty,
    the save leaves the row alone in it, without a header, and reading it
    back yields nothing. Reading yields nothing when the file does not
    exist or holds only the header row. A save into an existing file
    appends its row and nothing else; saves that start without a file
    leave the header row first, written once, and one row per save, none
    of them equal to the header. *)
Theorem score_log_round_trip today w c p :
  Py.int_of (TypingSession.cpm_corrected (session w)) = Py.Ok c ->
  Py.int_of (TypingSession.wpm (session w)) = Py.Ok p ->
  (score_csv w <> Some [] ->
   exists w',
     save_score_to_csv today w = (w', Py.Ok tt) /\
     get_last_score (score_csv w')
     = Py.Ok (Some (mk_score today (lang_of (idiom w)) c p))) /\
  (score_csv w = Some [] ->
   exists w',
     save_score_to_csv today w = (w', Py.Ok tt) /\
     score_csv w' = Some [score_row today (idiom w) c p] /\
     get_last_score (score_csv w') = Py.Ok None) /\
  get_last_score None = Py.Ok None /\
  get_last_score (Some [header]) = Py.Ok None /\
  (forall rows,
     score_csv w = Some rows ->
     score_csv (fst (save_score_to_csv today w))
     = Some (rows ++ [score_row today (idiom w) c p])) /\
  (score_csv w = None ->
   forall dates, dates <> [] ->
   exists records,
     score_csv (saves dates w) = Some (header :: records) /\
     length records = length dates /\
     header ∉ records).
Proof.
  intros Hc Hp.
  split; [| split; [| split; [reflexivity |]; split; [reflexivity |]; split]].
  - intros Hfile. eexists. split; [apply (save_score_to_csv_ok _ _ _ _ Hc Hp) |].
    cbn. apply get_last_score_row.
    destruct (score_csv w) as [[|row rows]|]; congruence.
  - intros Hfile. eexists.
    split; [apply (save_score_to_csv_ok _ _ _ _ Hc Hp) |].
    cbn. rewrite Hfile. split; reflexivity.
  - intros rows Hfile.
    now rewrite (save_score_to_csv_ok _ _ _ _ Hc Hp), Hfile.
  - intros Hfile [|first dates] Hdates; [congruence |].
    exists ((fun day => score_row day (idiom w) c p) <$> (first :: dates)).
    split; [| split].
    + cbn [saves]. rewrite (save_score_to_csv_ok first w c p Hc Hp), Hfile.
      cbn [fst].
      rewrite (saves_existing c p dates _ [header; score_row first (idiom w) c p]);
        [reflexivity | exact Hc | exact Hp | reflexivity].
    + now rewrite length_fmap.
    + intros Hin. apply list_elem_of_fmap in Hin as (day & Heq & _).
      symmetry in Heq. now apply score_row_not_header in Heq.
Qed.

Lemma score_log_round_trip_witness :
  exists w',
    save_score_to_csv "2026-01-01 10:00:00" opened = (w', Py.Ok tt) /\
    get_last_score (score_csv w')
    = Py.Ok (Some (mk_score "2026-01-01 10:00:00" "en" 0 0)).
Proof.
  destruct (score_log_round_trip "2026-01-01 10:00:00" opened 0 0
              eq_refl eq_refl) as [Hround _].
  apply Hround. discriminate.
Defined.

End ScoreLog.

(** ** Floats: when a quotient is finite *)

Section FloatFacts.

(** The number of binary digits of a mantissa. *)
Lemma digits2_pos_log2 (p : positive) :
  Z.pos (digits2_pos p) = Z.log2 (Z.pos p) + 1.
Proof.
  assert (Hsize : forall q, digits2_pos q = Pos.size q).
  { induction q as [q IH|q IH|]; cbn; now rewrite ?IH. }
  destruct p as [p|p|]; cbn; rewrite ?Hsize; lia.
Qed.

Lemma Zdigits2_nonneg (m : Z) : 0 <= Zdigits2 m.
Proof. destruct m; cbn; lia. Qed.

Lemma Zdigits2_upper (m : Z) : 0 <= m -> m < 2 ^ Zdigits2 m.
Proof.
  intros Hm. destruct m as [|p|p]; [reflexivity | | lia].
  cbn [Zdigits2]. rewrite digits2_pos_log2.
  apply (Z.log2_spec (Z.pos p)). lia.
Qed.

Lemma Zdigits2_lower (p : positive) : 2 ^ (Z.pos (digits2_pos p) - 1) <= Z.pos p.
Proof.
  rewrite digits2_pos_log2. replace (Z.log2 (Z.pos p) + 1 - 1) with (Z.log2 (Z.pos p)) by lia.
  apply (Z.log2_spec (Z.pos p)). lia.
Qed.

Lemma Zdigits2_le (m k : Z) : 0 <= m -> 0 <= k -> m < 2 ^ k -> Zdigits2 m <= k.
Proof.
  intros Hm Hk Hlt. destruct m as [|p|p]; [exact Hk | | lia].
  cbn [Zdigits2]. rewrite digits2_pos_log2.
  assert (Z.log2 (Z.pos p) < k) by (apply Z.log2_lt_pow2; lia). lia.
Qed.

(** Shifting a record to the right halves its mantissa. *)
Lemma shr_1_m (mrs : shr_record) :
  0 <= shr_m mrs -> shr_m (shr_1 mrs) = Z.div2 (shr_m mrs).
Proof.
  destruct mrs as [m r s]. cbn [shr_m]. intros Hm.
  destruct m as [|[p|p|]|p]; try reflexivity; lia.
Qed.

Lemma iter_shr_1_m (p : positive) : forall mrs,
  0 <= shr_m mrs ->
  shr_m (SpecFloat.iter_pos shr_1 p mrs) = Z.shiftr (shr_m mrs) (Z.pos p).
Proof.
  induction p as [p IH|p IH|]; intros mrs Hm; cbn [SpecFloat.iter_pos].
  - assert (H1 : 0 <= shr_m (shr_1 mrs)).
    { rewrite shr_1_m by exact Hm. now apply Z.div2_nonneg. }
    assert (H2 : 0 <= shr_m (SpecFloat.iter_pos shr_1 p (shr_1 mrs))).
    { rewrite IH by exact H1. now apply Z.shiftr_nonneg. }
    rewrite IH by exact H2. rewrite IH by exact H1.
    rewrite shr_1_m by exact Hm. rewrite Z.div2_spec.
    rewrite !Z.shiftr_shiftr by lia. f_equal. lia.
  - assert (H2 : 0 <= shr_m (SpecFloat.iter_pos shr_1 p mrs)).
    { rewrite IH by exact Hm. now apply Z.shiftr_nonneg. }
    rewrite IH by exact H2. rewrite IH by exact Hm.
    rewrite Z.shiftr_shiftr by lia. f_equal. lia.
  - rewrite shr_1_m by exact Hm. now rewrite Z.div2_spec.
Qed.

Lemma shr_record_of_loc_m m l : shr_m (shr_record_of_loc m l) = m.
Proof. destruct l as [|[]]; reflexivity. Qed.

(** [shr_fexp]: the exponent reached and the mantissa left. *)
Lemma shr_fexp_spec (m e : Z) (l : location) :
  0 <= m ->
  let e' := Z.max e (fexp prec emax (Zdigits2 m + e)) in
  snd (shr_fexp prec emax m e l) = e' /\
  shr_m (fst (shr_fexp prec emax m e l)) = m / 2 ^ (e' - e).
Proof.
  intros Hm e'. unfold shr_fexp, shr.
  destruct (fexp prec emax (Zdigits2 m + e) - e) as [|p|p] eqn:Hn; cbn [fst snd].
  - rewrite shr_record_of_loc_m. subst e'.
    rewrite Z.max_l by lia. rewrite Z.sub_diag. split; [reflexivity |].
    now rewrite Z.pow_0_r, Z.div_1_r.
  - rewrite iter_shr_1_m by (now rewrite shr_record_of_loc_m).
    rewrite shr_record_of_loc_m. subst e'.
    rewrite Z.max_r by lia. split; [lia |].
    rewrite Z.shiftr_div_pow2 by lia. f_equal. f_equal. lia.
  - rewrite shr_record_of_loc_m. subst e'.
    rewrite Z.max_l by lia. rewrite Z.sub_diag. split; [reflexivity |].
    now rewrite Z.pow_0_r, Z.div_1_r.
Qed.

Lemma round_nearest_even_bounds m l :
  m <= round_nearest_even m l <= m + 1.
Proof.
  unfold round_nearest_even. destruct l as [|[]]; try lia.
  destruct (Z.even m); lia.
Qed.

Lemma binary_round_aux_not_nan sx mx ex lx :
  0 <= mx -> not_nan (binary_round_aux prec emax sx mx ex lx).
Proof.
  intros Hm. unfold binary_round_aux.
  destruct (shr_fexp_spec mx ex lx Hm) as [He1 Hm1].
  destruct (shr_fexp prec emax mx ex lx) as [mrs1 e1]. cbn [fst snd] in *.
  assert (H1 : 0 <= shr_m mrs1).
  { rewrite Hm1. apply Z.div_pos; [lia |]. apply Z.pow_pos_nonneg; lia. }
  pose proof (round_nearest_even_bounds (shr_m mrs1) (loc_of_shr_record mrs1)) as Hr.
  set (m2 := round_nearest_even (shr_m mrs1) (loc_of_shr_record mrs1)) in *.
  destruct (shr_fexp_spec m2 e1 loc_Exact) as [He2 Hm2]; [lia |].
  destruct (shr_fexp prec emax m2 e1 loc_Exact) as [mrs2 e2]. cbn [fst snd] in *.
  assert (H2 : 0 <= shr_m mrs2).
  { rewrite Hm2. apply Z.div_pos; [lia |]. apply Z.pow_pos_nonneg; lia. }
  destruct (shr_m mrs2) as [|p|p]; cbn; [exact I | | lia].
  destruct (_ <=? _); exact I.
Qed.

Lemma binary_round_aux_representable sx mx ex lx :
  0 <= mx ->
  ex <= emax - prec ->
  Zdigits2 mx + ex + 1 <= emax ->
  representable (binary_round_aux prec emax sx mx ex lx).
Proof.
  intros Hm Hex Hd. unfold binary_round_aux.
  destruct (shr_fexp_spec mx ex lx Hm) as [He1 Hm1].
  destruct (shr_fexp prec emax mx ex lx) as [mrs1 e1]. cbn [fst snd] in *.
  rewrite <- He1 in Hm1.
  assert (Hpow1 : 0 < 2 ^ (e1 - ex)) by (apply Z.pow_pos_nonneg; lia).
  assert (H1 : 0 <= shr_m mrs1) by (rewrite Hm1; apply Z.div_pos; lia).
  pose proof (round_nearest_even_bounds (shr_m mrs1) (loc_of_shr_record mrs1))
    as Hr.
  set (m2 := round_nearest_even (shr_m mrs1) (loc_of_shr_record mrs1)) in *.
  destruct (shr_fexp_spec m2 e1 loc_Exact) as [He2 Hm2]; [lia |].
  destruct (shr_fexp prec emax m2 e1 loc_Exact) as [mrs2 e2].
  cbn [fst snd] in *. rewrite <- He2 in Hm2.
  assert (H2 : 0 <= shr_m mrs2).
  { rewrite Hm2. apply Z.div_pos; [lia |]. apply Z.pow_pos_nonneg; lia. }
  destruct (shr_m mrs2) as [|p|p]; cbn; [exact I | | lia].
  assert (Hfexp : forall k, fexp prec emax k = Z.max (k - 53) (-1074))
    by reflexivity.
  rewrite Hfexp in He1, He2.
  change prec with 53 in *. change emax with 1024 in *.
  set (k := Z.max (Zdigits2 mx - (e1 - ex)) 0).
  assert (Hm1lt : shr_m mrs1 < 2 ^ k).
  { rewrite Hm1. apply Z.div_lt_upper_bound; [lia |].
    rewrite <- Z.pow_add_r by lia.
    eapply Z.lt_le_trans; [apply (Zdigits2_upper mx Hm) |].
    apply Z.pow_le_mono_r; lia. }
  assert (Hm2lt : m2 < 2 ^ (k + 1)) by (rewrite Z.pow_add_r by lia; lia).
  assert (Hd2 : Zdigits2 m2 <= k + 1) by (apply Zdigits2_le; lia).
  assert (He2b : e2 <= 971) by (pose proof (Zdigits2_nonneg mx); lia).
  match goal with
  | |- context [?a <=? ?b] => destruct (Z.leb_spec a b) as [Hle|Hgt]
  end; [exact I |].
  change emax with 1024 in Hgt. change prec with 53 in Hgt. lia.
Qed.

(** A quotient of finite floats is never a NaN, and is a zero or a
    finite float when the exponents leave room. *)
Lemma SFdiv_core_spec (m1 m2 : positive) (e1 e2 : Z) :
  let mag := Z.pos (digits2_pos m1) + e1 - (Z.pos (digits2_pos m2) + e2) in
  let q := fst (fst (SFdiv_core_binary prec emax (Z.pos m1) e1 (Z.pos m2) e2)) in
  let e := snd (fst (SFdiv_core_binary prec emax (Z.pos m1) e1 (Z.pos m2) e2)) in
  0 <= q /\ e <= fexp prec emax mag /\ Zdigits2 q + e <= Z.max (mag + 1) e.
Proof.
  intros mag q e. unfold SFdiv_core_binary in q, e. cbn [Zdigits2] in q, e.
  fold mag in q, e.
  set (e' := Z.min (fexp prec emax mag) (e1 - e2)) in *.
  set (m' := match e1 - e2 - e' with
             | 0 => Z.pos m1
             | Z.pos _ => Z.shiftl (Z.pos m1) (e1 - e2 - e')
             | Z.neg _ => 0
             end) in *.
  assert (Hs : 0 <= e1 - e2 - e') by (subst e'; lia).
  assert (Hm' : m' = Z.pos m1 * 2 ^ (e1 - e2 - e')).
  { subst m'. destruct (e1 - e2 - e') as [|p|p] eqn:Hsh; [| | lia].
    - now rewrite Z.mul_1_r.
    - now rewrite Z.shiftl_mul_pow2 by lia. }
  assert (Hq : q = m' / Z.pos m2 /\ e = e').
  { subst q e. unfold Z.div.
    destruct (Z.div_eucl m' (Z.pos m2)) as [q0 r0]. split; reflexivity. }
  destruct Hq as [-> ->].
  assert (Hpow : 0 < 2 ^ (e1 - e2 - e')) by (apply Z.pow_pos_nonneg; lia).
  split; [apply Z.div_pos; lia |]. split; [subst e'; lia |].
  set (k := Z.max (Z.pos (digits2_pos m1) + (e1 - e2 - e')
                   - Z.pos (digits2_pos m2) + 1) 0).
  assert (Hlt : m' / Z.pos m2 < 2 ^ k).
  { apply Z.div_lt_upper_bound; [lia |].
    pose proof (Zdigits2_upper (Z.pos m1)) as Hu. cbn [Zdigits2] in Hu.
    pose proof (Zdigits2_lower m2) as Hl.
    assert (Hk : 0 < 2 ^ k) by (apply Z.pow_pos_nonneg; lia).
    apply Z.lt_le_trans with (2 ^ (Z.pos (digits2_pos m1) + (e1 - e2 - e'))).
    - rewrite Hm', Z.pow_add_r by lia.
      apply Z.mul_lt_mono_pos_r; [lia | apply Hu; lia].
    - apply Z.le_trans with (2 ^ (Z.pos (digits2_pos m2) - 1) * 2 ^ k).
      + rewrite <- Z.pow_add_r by lia. apply Z.pow_le_mono_r; lia.
      + apply Z.mul_le_mono_nonneg_r; lia. }
  assert (Hd : Zdigits2 (m' / Z.pos m2) <= k).
  { apply Zdigits2_le; [apply Z.div_pos; lia | lia | exact Hlt]. }
  subst mag. lia.
Qed.

Lemma SFdiv_finite_not_nan s1 m1 e1 s2 m2 e2 :
  not_nan (SFdiv prec emax (S754_finite s1 m1 e1) (S754_finite s2 m2 e2)).
Proof.
  cbn [SFdiv]. destruct (SFdiv_core_spec m1 m2 e1 e2) as (Hq & _ & _).
  destruct (SFdiv_core_binary prec emax (Z.pos m1) e1 (Z.pos m2) e2)
    as [[q e] l]. cbn [fst snd] in *.
  now apply binary_round_aux_not_nan.
Qed.

Lemma SFdiv_finite_representable s1 m1 e1 s2 m2 e2 :
  Z.pos (digits2_pos m1) + e1 - (Z.pos (digits2_pos m2) + e2) + 2 <= emax ->
  representable (SFdiv prec emax (S754_finite s1 m1 e1) (S754_finite s2 m2 e2)).
Proof.
  intros Hmag. cbn [SFdiv].
  destruct (SFdiv_core_spec m1 m2 e1 e2) as (Hq & He & Hd).
  destruct (SFdiv_core_binary prec emax (Z.pos m1) e1 (Z.pos m2) e2)
    as [[q e] l]. cbn [fst snd] in *.
  assert (Hfexp : forall k, fexp prec emax k = Z.max (k - 53) (-1074))
    by reflexivity.
  rewrite Hfexp in He. change emax with 1024 in *. change prec with 53 in *.
  apply binary_round_aux_representable; change emax with 1024;
    change prec with 53; lia.
Qed.

(** What the primitive tests say of the specification of a float. *)
Lemma is_finite_representable (x : float) :
  is_finite x = true -> representable (Prim2SF x).
Proof.
  unfold is_finite, Prim2SF.
  destruct (is_nan x); [discriminate |].
  destruct (is_zero x); [intros _; exact I |].
  destruct (is_infinity x); [discriminate |]. intros _.
  destruct (Z.frexp x) as [r exp].
  destruct (shr_fexp _ _ _ _ _) as [mrs e].
  destruct (shr_m mrs); exact I.
Qed.

Lemma not_nan_is_nan (x : float) :
  not_nan (Prim2SF x) -> is_nan x = false.
Proof.
  unfold Prim2SF. destruct (is_nan x); [intros [] | reflexivity].
Qed.

Lemma is_nan_not_nan (x : float) :
  is_nan x = false -> not_nan (Prim2SF x).
Proof.
  unfold Prim2SF. intros ->.
  destruct (is_zero x); [exact I |].
  destruct (is_infinity x); [exact I |].
  destruct (Z.frexp x) as [r exp].
  destruct (shr_fexp _ _ _ _ _) as [mrs e].
  destruct (shr_m mrs); exact I.
Qed.

Lemma representable_int_of_float (x : float) :
  representable (Prim2SF x) -> exists z, Py.int_of_float x = Py.Ok z.
Proof.
  unfold Py.int_of_float. destruct (Prim2SF x); intros Hx;
    try destruct Hx; eexists; reflexivity.
Qed.

Lemma binary_normalize_not_nan m e sz :
  not_nan (binary_normalize prec emax m e sz).
Proof.
  unfold binary_normalize, binary_round.
  destruct m as [|p|p]; [exact I | |];
    destruct (shl_align _ _ _) as [mz ez];
    apply binary_round_aux_not_nan; lia.
Qed.

Lemma SFsub_not_nan (x y : spec_float) :
  representable x -> representable y -> not_nan (SFsub prec emax x y).
Proof.
  destruct x as [sx|sx| |sx mx ex], y as [sy|sy| |sy my ey];
    intros Hx Hy; try destruct Hx; try destruct Hy; cbn [SFsub].
  - destruct sx, sy; exact I.
  - exact I.
  - exact I.
  - apply binary_normalize_not_nan.
Qed.

(** The elapsed time is not a NaN when both clock readings are finite. *)
Lemma clock_not_nan (now start : float) :
  is_finite now = true -> is_finite start = true ->
  is_nan ((now - start) / 60)%float = false.
Proof.
  intros Hnow Hstart. apply not_nan_is_nan.
  rewrite div_spec, sub_spec.
  pose proof (SFsub_not_nan _ _ (is_finite_representable now Hnow)
                (is_finite_representable start Hstart)) as Hsub.
  unfold SF64sub. destruct (SFsub prec emax (Prim2SF now) (Prim2SF start))
    as [s|s| |s m e]; [| | destruct Hsub |].
  - exact I.
  - exact I.
  - apply SFdiv_finite_not_nan.
Qed.

(** A valid finite float has at most [emax] digits before the point, and
    at least [-5] of them when it is not below [1 / 60]. *)
Lemma valid_magnitude s m e :
  valid_binary (S754_finite s m e) = true ->
  Z.pos (digits2_pos m) + e <= emax.
Proof.
  cbn [valid_binary]. unfold bounded, canonical_mantissa.
  intros Hb. apply andb_prop in Hb as [Hc He].
  apply Z.eqb_eq in Hc. apply Z.leb_le in He.
  assert (Hfexp : forall k, fexp prec emax k = Z.max (k - 53) (-1074))
    by reflexivity.
  rewrite Hfexp in Hc. change emax with 1024 in *. change prec with 53 in *.
  lia.
Qed.

Lemma elapsed_magnitude (x : float) :
  is_nan x = false ->
  Prim2SF (Py.max x (1 / 60)) = S754_infinity false \/
  exists m e,
    Prim2SF (Py.max x (1 / 60)) = S754_finite false m e /\
    -5 <= Z.pos (digits2_pos m) + e.
Proof.
  intros Hnan.
  assert (Hel : is_nan (Py.max x (1 / 60)) = false).
  { unfold Py.max. destruct (x <? 1 / 60)%float; [reflexivity | exact Hnan]. }
  destruct (elapsed_floor x) as [Hfloor _].
  apply is_nan_not_nan in Hel.
  pose proof (Prim2SF_valid (Py.max x (1 / 60))) as Hvalid.
  rewrite ltb_spec, floor_spec in Hfloor.
  destruct (Prim2SF (Py.max x (1 / 60))) as [s|s| |s m e];
    [discriminate Hfloor | | destruct Hel |].
  - destruct s; [discriminate Hfloor | now left].
  - right. destruct s; [discriminate Hfloor |].
    exists m, e. split; [reflexivity |].
    unfold SFltb, SFcompare in Hfloor.
    destruct (Z.compare_spec e (-58)) as [He|He|He];
      [| discriminate Hfloor |].
    + cbn [valid_binary] in Hvalid. unfold bounded, canonical_mantissa in Hvalid.
      apply andb_prop in Hvalid as [Hc _]. apply Z.eqb_eq in Hc.
      assert (Hfexp : forall k, fexp prec emax k = Z.max (k - 53) (-1074))
        by reflexivity.
      rewrite Hfexp in Hc. lia.
    + cbn [valid_binary] in Hvalid. unfold bounded, canonical_mantissa in Hvalid.
      apply andb_prop in Hvalid as [Hc _]. apply Z.eqb_eq in Hc.
      assert (Hfexp : forall k, fexp prec emax k = Z.max (k - 53) (-1074))
        by reflexivity.
      rewrite Hfexp in Hc. lia.
Qed.

(** The character counts a pool of 200 words of 8 characters allows
    convert to floats below [2 ^ 11]. *)
Lemma small_floats : forallb small_float (Z.of_nat <$> seq 0 1601) = true.
Proof. vm_compute. reflexivity. Qed.

Lemma float_of_small_int (z : Z) :
  0 <= z <= 1600 ->
  exists f,
    Py.float_of_int z = Py.Ok f /\
    match Prim2SF f with
    | S754_zero _ => True
    | S754_finite _ m e => Z.pos (digits2_pos m) + e <= 11
    | _ => False
    end.
Proof.
  intros Hz. pose proof small_floats as Hall.
  rewrite forallb_forall in Hall.
  specialize (Hall z). unfold small_float in Hall.
  destruct (Py.float_of_int z) as [f|e].
  - exists f. split; [reflexivity |].
    destruct (Prim2SF f) as [s|s| |s m e];
      try (exfalso; apply Bool.diff_false_true; apply Hall);
      try exact I.
    all: try (apply list_elem_of_In, list_elem_of_fmap; exists (Z.to_nat z);
              split; [lia | apply elem_of_seq; lia]).
    apply Z.leb_le, Hall.
    apply list_elem_of_In, list_elem_of_fmap. exists (Z.to_nat z).
    split; [lia | apply elem_of_seq; lia].
  - exfalso. apply Bool.diff_false_true, Hall.
    apply list_elem_of_In, list_elem_of_fmap. exists (Z.to_nat z).
    split; [lia | apply elem_of_seq; lia].
Qed.

Lemma five_spec : Prim2SF 5 = S754_finite false 5629499534213120 (-50).
Proof. vm_compute. reflexivity. Qed.

(** The recomputed metrics of a small count are zeros or finite floats. *)
Lemma metrics_representable (z : Z) (now start : float) :
  0 <= z <= 1600 ->
  is_finite now = true -> is_finite start = true ->
  exists chars,
    Py.float_of_int z = Py.Ok chars /\
    let cpm := (chars / Py.max ((now - start) / 60) (1 / 60))%float in
    representable (Prim2SF cpm) /\ representable (Prim2SF (cpm / 5)).
Proof.
  intros Hz Hnow Hstart.
  destruct (float_of_small_int z Hz) as (chars & Hchars & Hsmall).
  exists chars. split; [exact Hchars |]. intros cpm.
  assert (Hcpm : representable (Prim2SF cpm)).
  { subst cpm. rewrite div_spec. unfold SF64div.
    destruct (elapsed_magnitude _ (clock_not_nan now start Hnow Hstart))
      as [Hinf|(m & e & Hfin & Hmag)].
    - rewrite Hinf.
      destruct (Prim2SF chars) as [s|s| |s mc ec];
        [exact I | destruct Hsmall | destruct Hsmall | exact I].
    - rewrite Hfin.
      destruct (Prim2SF chars) as [s|s| |s mc ec];
        [exact I | destruct Hsmall | destruct Hsmall |].
      apply SFdiv_finite_representable. change emax with 1024. lia. }
  split; [exact Hcpm |].
  rewrite div_spec, five_spec. unfold SF64div.
  pose proof (Prim2SF_valid cpm) as Hvalid.
  destruct (Prim2SF cpm) as [s|s| |s m e];
    [exact I | destruct Hcpm | destruct Hcpm |].
  apply SFdiv_finite_representable.
  apply valid_magnitude in Hvalid.
  change (Z.pos (digits2_pos 5629499534213120)) with 53. lia.
Qed.

End FloatFacts.

(** ** Weakest preconditions of handlers *)

Section WeakestPreconditions.

Import Window.

Context {A : Type}.

Implicit Types (Q : A -> Window.t -> Prop) (E : Window.t -> Prop).

Lemma wp_bind {B} (m : M B) (k : B -> M A) Q E w :
  wp m (fun b w' => wp (k b) Q E w') E w -> wp (m ≫= k) Q E w.
Proof.
  unfold wp, mbind, M_bind. destruct (m w) as [w' [b|e]]; intros H; exact H.
Qed.

Lemma wp_ret (a : A) Q E w : Q a w -> wp (mret a) Q E w.
Proof. intros H. exact H. Qed.

Lemma wp_read (f : Window.t -> A) Q E w : Q (f w) w -> wp (read f) Q E w.
Proof. intros H. exact H. Qed.

Lemma wp_lift (r : Py.result A) Q E w :
  match r with
  | Py.Ok a => Q a w
  | Py.Raise _ => E w
  end -> wp (lift r) Q E w.
Proof. intros H. exact H. Qed.

Lemma wp_on_session
    (f : TypingSession.t -> Py.result (A * TypingSession.t)) Q E w :
  match f (session w) with
  | Py.Ok (a, s') => Q a (set_session s' w)
  | Py.Raise _ => E w
  end -> wp (on_session f) Q E w.
Proof.
  unfold wp, on_session. destruct (f (session w)) as [[a s']|e]; intros H; exact H.
Qed.

Lemma wp_keeps (I : Window.t -> Prop) (m : M A) w :
  keeps I m -> I w -> wp m (fun _ => I) I w.
Proof.
  intros Hkeeps Hw. specialize (Hkeeps w Hw). unfold wp.
  destruct (m w) as [w' [a|e]]; exact Hkeeps.
Qed.

Lemma wp_conseq (m : M A) Q Q' E E' w :
  wp m Q' E' w ->
  (forall a w', Q' a w' -> Q a w') ->
  (forall w', E' w' -> E w') ->
  wp m Q E w.
Proof.
  unfold wp. destruct (m w) as [w' [a|e]]; intros H HQ HE; auto.
Qed.

(** What a weakest precondition says of the run. *)
Lemma wp_returns (m : M A) Q w :
  wp m Q (fun _ => False) w -> exists w' a, m w = (w', Py.Ok a) /\ Q a w'.
Proof.
  unfold wp. destruct (m w) as [w' [a|e]]; intros H; [| destruct H].
  now exists w', a.
Qed.

Lemma wp_state (I : Window.t -> Prop) (m : M A) w :
  wp m (fun _ => I) I w -> I (fst (m w)).
Proof. unfold wp. destruct (m w) as [w' [a|e]]; intros H; exact H. Qed.

Lemma wp_of_returns (m : M A) Q E w w' a :
  m w = (w', Py.Ok a) -> Q a w' -> wp m Q E w.
Proof. unfold wp. now intros ->. Qed.

Lemma wp_of_state (I : Window.t -> Prop) (m : M A) w :
  I (fst (m w)) -> wp m (fun _ => I) I w.
Proof. unfold wp. destruct (m w) as [w' [a|e]]; intros H; exact H. Qed.

End WeakestPreconditions.

Lemma wp_modify (f : Window.t -> Window.t) Q E w :
  Q tt (f w) -> wp (Window.modify f) Q E w.
Proof. intros H. exact H. Qed.

Ltac wp_step :=
  cbv beta;
  lazymatch goal with
  | |- wp (_ ≫= _) _ _ _ => apply wp_bind
  | |- wp (mret _) _ _ _ => apply wp_ret
  | |- wp (Window.read _) _ _ _ => apply wp_read
  | |- wp (Window.lift _) _ _ _ => apply wp_lift
  | |- wp (Window.modify _) _ _ _ => apply wp_modify
  | |- wp (Window.on_session _) _ _ _ => apply wp_on_session
  end.

(** ** Word submissions: [Window.space_pressed] *)

Section Submissions.

Import Window Examples.

Implicit Types (w : Window.t) (s : TypingSession.t).

(** Subscripts that return are in range. *)
Lemma index_returns {A} (l : list A) (i : Z) (x : A) :
  0 <= i -> Py.index l i = Py.Ok x ->
  i < Z.of_nat (length l) /\ l !! Z.to_nat i = Some x.
Proof.
  intros Hi. unfold Py.index. cbv zeta.
  rewrite (proj2 (Z.ltb_ge i 0)) by lia.
  rewrite (proj2 (Z.ltb_ge i 0)) by lia. cbn [orb].
  destruct (Z.leb_spec (Z.of_nat (length l)) i) as [Hge|Hlt]; [discriminate |].
  destruct (l !! Z.to_nat i) as [y|]; [| discriminate].
  intros [= ->]. split; [exact Hlt | reflexivity].
Qed.

Lemma index_in_range {A} (l : list A) (i : Z) :
  0 <= i < Z.of_nat (length l) -> exists x, Py.index l i = Py.Ok x.
Proof.
  intros Hi. destruct (lookup_lt_is_Some_2 l (Z.to_nat i)) as [x Hx]; [lia |].
  exists x. rewrite <- (Z2Nat.id i) by lia. now apply index_lookup.
Qed.

(** What a successful [check_word] leaves. *)
Lemma check_word_returns typed s correct s1 :
  TypingSession.check_word typed s = Py.Ok (correct, s1) ->
  exists actual,
    Py.index (TypingSession.words s) (TypingSession.current_word_index s)
      = Py.Ok actual /\
    TypingSession.words s1 = TypingSession.words s /\
    TypingSession.current_word_index s1 = TypingSession.current_word_index s /\
    TypingSession.start_time s1 = TypingSession.start_time s /\
    TypingSession.cpm_corrected s1 = TypingSession.cpm_corrected s /\
    TypingSession.wpm s1 = TypingSession.wpm s /\
    TypingSession.correct_chars s1
      = TypingSession.correct_chars s
        + Z.of_nat (TypingSession.credit typed actual).
Proof.
  unfold TypingSession.check_word.
  destruct (Py.index (TypingSession.words s)
              (TypingSession.current_word_index s)) as [actual|e];
    [| discriminate].
  rewrite bind_ok. destruct (Py.str_eq typed actual); intros [= <- <-];
    exists actual; repeat split.
Qed.

(** What a successful [update_metrics] leaves. *)
Lemma update_metrics_returns now s s2 :
  TypingSession.update_metrics now s = Py.Ok s2 ->
  exists c p, s2 = TypingSession.set_metrics c p s.
Proof.
  unfold TypingSession.update_metrics.
  destruct (TypingSession.start_time s =? 0)%float.
  - intros [= <-]. exists (TypingSession.cpm_corrected s), (TypingSession.wpm s).
    now destruct s.
  - destruct (Py.float_of_int _) as [chars|e]; [| discriminate].
    rewrite bind_ok. destruct (Py.truediv _ _) as [cpm|e]; [| discriminate].
    rewrite bind_ok. intros [= <-]. eauto.
Qed.

Lemma next_word_state s :
  fst (TypingSession.next_word s)
  = TypingSession.set_current_word_index
      (TypingSession.current_word_index s + 1) s.
Proof.
  unfold TypingSession.next_word. cbv zeta.
  destruct (_ <=? _); reflexivity.
Qed.

Lemma next_word_returns s :
  0 <= TypingSession.current_word_index s + 1 ->
  exists o, snd (TypingSession.next_word s) = Py.Ok o.
Proof.
  intros Hi. unfold TypingSession.next_word. cbv zeta.
  destruct (Z.leb_spec
              (Z.of_nat (length (TypingSession.words
                 (TypingSession.set_current_word_index
                    (TypingSession.current_word_index s + 1) s))))
              (TypingSession.current_word_index
                 (TypingSession.set_current_word_index
                    (TypingSession.current_word_index s + 1) s)))
    as [Hge|Hlt]; cbn [snd]; [eauto |].
  destruct (index_in_range
              (TypingSession.words
                 (TypingSession.set_current_word_index
                    (TypingSession.current_word_index s + 1) s))
              (TypingSession.current_word_index
                 (TypingSession.set_current_word_index
                    (TypingSession.current_word_index s + 1) s)))
    as [x Hx]; [cbn in *; lia |].
  rewrite Hx, bind_ok. eauto.
Qed.

Lemma positions_length ws : forall index,
  length (positions index ws) = length ws.
Proof.
  induction ws as [|word ws IH]; intros index; cbn; [reflexivity |].
  now rewrite IH.
Qed.

(** Handlers that leave the words and the cursor alone. *)
Lemma end_test_keeps today (I : Window.t -> Prop) :
  (forall w v, I w -> I (set_typed_text_entry v w)) ->
  (forall w v, I w -> I (set_recent_score_entry v w)) ->
  (forall w v, I w -> I (set_score_csv v w)) ->
  (forall w v, I w -> I (set_dialogs v w)) ->
  keeps I (end_test today).
Proof.
  intros Hentry Hrecent Hcsv Hdialogs. unfold end_test.
  repeat first [keeps_step | apply save_score_keeps]; intros; auto.
Qed.

Lemma highlight_next_word_keeps (I : Window.t -> Prop) :
  (forall w v, I w -> I (set_highlight v w)) ->
  keeps I highlight_next_word.
Proof.
  intros Hhighlight. unfold highlight_next_word.
  repeat keeps_step; intros; auto.
Qed.

Lemma update_timer_keeps today (I : Window.t -> Prop) :
  (forall w v, I w -> I (set_typed_text_entry v w)) ->
  (forall w v, I w -> I (set_recent_score_entry v w)) ->
  (forall w v, I w -> I (set_score_csv v w)) ->
  (forall w v, I w -> I (set_dialogs v w)) ->
  (forall w v, I w -> I (set_time_entry v w)) ->
  (forall w v, I w -> I (set_timer_pending v w)) ->
  (forall w v, I w -> I (set_after_id v w)) ->
  (forall w v, I w ->
     I (set_session (TypingSession.set_time_left v (session w)) w)) ->
  keeps I (update_timer today).
Proof.
  intros Hentry Hrecent Hcsv Hdialogs Htime Hpending Hafter Hleft.
  unfold update_timer.
  repeat first [keeps_step | apply end_test_keeps]; intros; auto.
Qed.

Lemma check_typed_word_keeps typed today (I : Window.t -> Prop) :
  (forall w v, I w -> I (set_typed_text_entry v w)) ->
  (forall w v, I w -> I (set_recent_score_entry v w)) ->
  (forall w v, I w -> I (set_score_csv v w)) ->
  (forall w v, I w -> I (set_dialogs v w)) ->
  (forall w v, I w -> I (set_time_entry v w)) ->
  (forall w v, I w -> I (set_timer_pending v w)) ->
  (forall w v, I w -> I (set_after_id v w)) ->
  (forall w v, I w ->
     I (set_session (TypingSession.set_time_left v (session w)) w)) ->
  (forall w v, I w -> I (set_timer_started v w)) ->
  (forall w v, I w -> I (set_letter_tags v w)) ->
  keeps I (check_typed_word typed today).
Proof.
  intros Hentry Hrecent Hcsv Hdialogs Htime Hpending Hafter Hleft Hstarted
    Htags.
  unfold check_typed_word.
  repeat first [keeps_step | apply update_timer_keeps]; intros; auto.
Qed.

Ltac frame := intros ? ? Hframe; exact Hframe.

Lemma end_test_session_ok today : keeps session_ok (end_test today).
Proof. apply end_test_keeps; frame. Qed.

Lemma highlight_session_ok : keeps session_ok highlight_next_word.
Proof. apply highlight_next_word_keeps; frame. Qed.

(** A submission leaves the cursor within the words, whatever is typed
    and whether the handler returns or raises. *)
Lemma space_pressed_session_ok entry now today w :
  session_ok w -> session_ok (fst (space_pressed entry now today w)).
Proof.
  intros Hok. apply wp_state. unfold space_pressed. cbv zeta.
  do 2 wp_step.
  destruct (TypingSession.check_word (Py.strip entry) (session w))
    as [[correct s1]|e] eqn:Hcheck; [| exact Hok].
  destruct (check_word_returns _ _ _ _ Hcheck)
    as (actual & Hactual & Hwords & Hindex & _).
  destruct Hok as (Hsame & Hpos & Hrange).
  destruct (index_returns _ _ _ (proj1 Hrange) Hactual) as [Hlt _].
  assert (Hok1 : session_ok (set_session s1 w)).
  { unfold session_ok. cbn. rewrite Hwords, Hindex. auto. }
  do 2 wp_step. cbn [session set_session].
  destruct (TypingSession.update_metrics now s1) as [s2|e] eqn:Hupdate;
    [| exact Hok1].
  rewrite bind_ok.
  destruct (update_metrics_returns _ _ _ Hupdate) as (c & p & ->).
  set (w2 := set_session (TypingSession.set_metrics c p s1) (set_session s1 w)).
  assert (Hok2 : session_ok w2).
  { unfold session_ok, w2. cbn. rewrite Hwords, Hindex. auto. }
  assert (Hidx2 : TypingSession.current_word_index (session w2)
                  = TypingSession.current_word_index (session w)).
  { unfold w2. cbn. exact Hindex. }
  assert (Hlist2 : words_list w2 = words_list w) by reflexivity.
  clearbody w2.
  do 3 wp_step. unfold update_cpm.
  do 4 wp_step.
  destruct (Py.int_of (TypingSession.cpm_corrected (session w2))) as [vc|e];
    [| exact Hok2].
  do 4 wp_step. unfold update_wpm.
  do 4 wp_step.
  destruct (Py.int_of _) as [vp|e]; [| exact Hok2].
  do 7 wp_step.
  cbn [words_indexes set_wpm_entry set_corrected_cpm_entry session].
  destruct (Py.index (words_indexes w2)
              (TypingSession.current_word_index (session w2))) as [r|e];
    [| exact Hok2].
  do 4 wp_step.
  cbn [session set_word_tags set_wpm_entry set_corrected_cpm_entry].
  rewrite (surjective_pairing (TypingSession.next_word (session w2))).
  rewrite next_word_state.
  destruct (next_word_returns (session w2)) as [o Ho]; [lia |].
  rewrite Ho, bind_ok.
  match goal with
  | |- wp _ _ _ ?w3 => assert (Hok3 : session_ok w3)
  end.
  { destruct Hok2 as (Hsame2 & Hpos2 & Hrange2).
    unfold session_ok. cbn. split; [exact Hsame2 |]. split; [exact Hpos2 |].
    rewrite Hlist2, <- Hsame. lia. }
  do 4 wp_step.
  destruct (_ <=? _).
  - now apply wp_keeps; [apply end_test_session_ok |].
  - now apply wp_keeps; [apply highlight_session_ok |].
Qed.

(** A new session is over the words drawn, with the cursor on the
    first one. *)
Lemma new_session_wp net rand now w (I : Window.t -> Prop) :
  I w ->
  (forall w' v, I w' -> I (set_stdout v w')) ->
  (forall w' v, I w' -> I (set_highlight v w')) ->
  (forall w' v, I w' -> I (set_recent_score_entry v w')) ->
  (forall ws w',
     WordsList.get_list rand (fst (WordsList.init net (idiom w))) = Py.Ok ws ->
     I (set_time_entry "60"
          (set_wpm_entry EmptyString
             (set_corrected_cpm_entry EmptyString
                (set_typed_text_entry Normal
                   (set_text (joined ws)
                      (set_words_indexes (positions 0 ws)
                         (set_highlight None
                            (set_letter_tags []
                               (set_word_tags []
                                  (set_session (TypingSession.init ws now)
                                     (set_words_list ws w')))))))))))) ->
  I (fst (new_session net rand now w)).
Proof.
  intros Hw Hstdout Hhighlight Hrecent Hfresh.
  apply wp_state. unfold new_session.
  do 2 wp_step.
  destruct (WordsList.init net (idiom w)) as [source printed] eqn:Hinit.
  cbn [fst] in Hfresh.
  do 4 wp_step.
  destruct (WordsList.get_list rand source) as [ws|e] eqn:Hlist;
    [| now apply Hstdout].
  do 4 wp_step. unfold reset_interface.
  do 10 wp_step.
  apply wp_keeps; [| cbn; now apply (Hfresh ws)].
  repeat first [keeps_step | apply highlight_next_word_keeps];
    intros; auto.
Qed.

Lemma new_session_session_ok net rand now w :
  session_ok w -> session_ok (fst (new_session net rand now w)).
Proof.
  intros Hok. apply new_session_wp; try frame; [exact Hok |].
  intros ws w' _. unfold session_ok. cbn.
  rewrite positions_length. split; [reflexivity |]. split; [reflexivity |].
  lia.
Qed.

Lemma reset_wp net rand now w (I : Window.t -> Prop) :
  (forall w' v, I w' -> I (set_after_id v w')) ->
  (forall w' v, I w' -> I (set_timer_pending v w')) ->
  (forall w' v, I w' -> I (set_timer_started v w')) ->
  (forall w', I w' -> I (fst (new_session net rand now w'))) ->
  I w -> I (fst (reset net rand now w)).
Proof.
  intros Hafter Hpending Hstarted Hnew Hw.
  apply wp_state. unfold reset, cancel_timer.
  do 3 wp_step.
  destruct (after_id w); wp_step; wp_step; wp_step;
    apply wp_of_state, Hnew; auto.
Qed.

(** Every handler leaves the cursor within the words. *)
Lemma handle_session_ok e w : session_ok w -> session_ok (handle e w).
Proof.
  intros Hok. destruct e as [typed today|entry now today|today
                            |net rand now|i net rand now]; cbn [handle].
  - apply check_typed_word_keeps; try frame; exact Hok.
  - now apply space_pressed_session_ok.
  - destruct (timer_pending w); [| exact Hok].
    apply update_timer_keeps; try frame; exact Hok.
  - apply reset_wp; try frame; [| exact Hok].
    intros w'. apply new_session_session_ok.
  - unfold change_language. apply wp_state.
    do 4 wp_step.
    apply wp_of_state, reset_wp; try frame; [| exact Hok].
    intros w'. apply new_session_session_ok.
Qed.

Lemma blank_session_ok file : session_ok (blank file).
Proof. unfold session_ok. cbn. split; [reflexivity |]. split; [reflexivity | lia]. Qed.

Lemma run_session_ok es : forall w, session_ok w -> session_ok (run es w).
Proof.
  induction es as [|e es IH]; intros w Hok; [exact Hok |].
  apply IH, handle_session_ok, Hok.
Qed.

(** A recomputation on a small count at a finite clock reading returns
    metrics that can be displayed. *)
Lemma update_metrics_displayable now s :
  0 <= TypingSession.correct_chars s <= 1600 ->
  is_finite now = true ->
  is_finite (TypingSession.start_time s) = true ->
  displayable (TypingSession.cpm_corrected s) ->
  displayable (TypingSession.wpm s) ->
  exists c p,
    TypingSession.update_metrics now s
      = Py.Ok (TypingSession.set_metrics c p s) /\
    displayable c /\ displayable p.
Proof.
  intros Hchars Hnow Hstart Hcpm Hwpm. unfold TypingSession.update_metrics.
  destruct (TypingSession.start_time s =? 0)%float.
  - exists (TypingSession.cpm_corrected s), (TypingSession.wpm s).
    split; [now destruct s | split; assumption].
  - destruct (metrics_representable _ now (TypingSession.start_time s)
                Hchars Hnow Hstart) as (chars & -> & Hc & Hp).
    rewrite bind_ok. unfold Py.truediv.
    rewrite (proj2 (elapsed_floor _)), bind_ok.
    eexists _, _. split; [reflexivity |].
    split; now apply representable_int_of_float.
Qed.

(** [end_test] returns when the metrics can be displayed. *)
Lemma end_test_returns today w :
  displayable (TypingSession.cpm_corrected (session w)) ->
  displayable (TypingSession.wpm (session w)) ->
  exists w',
    end_test today w = (w', Py.Ok tt) /\
    same_test w w' /\ typed_text_entry w' = Disabled.
Proof.
  intros [c Hc] [p Hp].
  unfold end_test, mbind, M_bind, modify, read. cbn.
  destruct (Py.truthy (TypingSession.cpm_corrected (session w)));
    cbn; rewrite ?Hc; cbn;
    destruct (Py.truthy (TypingSession.wpm (session w)));
    cbn; rewrite ?Hp; cbn;
    (rewrite save_score_to_csv_ok with (c := c) (p := p);
       [| exact Hc | exact Hp]);
    eexists; (split; [reflexivity |]); repeat split.
Qed.

(** [highlight_next_word] returns. *)
Lemma highlight_next_word_returns w :
  exists w',
    highlight_next_word w = (w', Py.Ok tt) /\
    same_test w w' /\ typed_text_entry w' = typed_text_entry w.
Proof.
  unfold highlight_next_word, mbind, M_bind, modify, read, lift. cbn.
  destruct (Z.ltb_spec (TypingSession.current_word_index (session w)) 0)
    as [Hneg|Hpos]; cbn.
  { eexists. split; [reflexivity |]. repeat split. }
  destruct (Z.leb_spec (Z.of_nat (length (words_indexes w)))
              (TypingSession.current_word_index (session w)))
    as [Hge|Hlt]; cbn.
  { eexists. split; [reflexivity |]. repeat split. }
  destruct (index_in_range (words_indexes w)
              (TypingSession.current_word_index (session w)))
    as [r Hr]; [lia |].
  rewrite Hr. cbn. eexists. split; [reflexivity |]. repeat split.
Qed.

(** The credit of a word does not exceed its length. *)
Lemma credit_le_actual typed actual :
  (TypingSession.credit typed actual <= String.length actual)%nat.
Proof. pose proof (credit_le typed actual). lia. Qed.

(** A submission on a word of the pool, at a finite clock reading,
    returns and moves the cursor to the next word; it ends the test when
    that was the last word. *)
Lemma space_pressed_advances entry now today w :
  scoring_ok w ->
  is_finite now = true ->
  TypingSession.current_word_index (session w)
    < Z.of_nat (length (words_list w)) ->
  exists w',
    space_pressed entry now today w = (w', Py.Ok tt) /\
    TypingSession.current_word_index (session w')
      = TypingSession.current_word_index (session w) + 1 /\
    words_list w' = words_list w /\
    scoring_ok w' /\
    typed_text_entry w'
      = if Z.of_nat (length (words_list w))
           <=? TypingSession.current_word_index (session w) + 1
        then Disabled else typed_text_entry w.
Proof.
  intros (Hok & Hshort & Hsize & Hchars & Hstart & Hcpm & Hwpm) Hnow Hlt.
  destruct Hok as (Hsame & Hpos & Hrange).
  set (P := fun w' : Window.t =>
    TypingSession.current_word_index (session w')
      = TypingSession.current_word_index (session w) + 1 /\
    words_list w' = words_list w /\
    scoring_ok w' /\
    typed_text_entry w'
      = if Z.of_nat (length (words_list w))
           <=? TypingSession.current_word_index (session w) + 1
        then Disabled else typed_text_entry w).
  cut (wp (space_pressed entry now today) (fun _ => P) (fun _ => False) w).
  { intros Hwp. apply wp_returns in Hwp as (w' & [] & Hrun & HP).
    exists w'. split; [exact Hrun | exact HP]. }
  unfold space_pressed. cbv zeta.
  (* check_word *)
  destruct (index_in_range (TypingSession.words (session w))
              (TypingSession.current_word_index (session w)))
    as [actual Hactual]; [rewrite Hsame; lia |].
  pose proof (check_word_eq (Py.strip entry) actual _ Hactual) as Hcheck.
  destruct (check_word_returns _ _ _ _ Hcheck)
    as (actual' & Hactual' & Hwords1 & Hindex1 & Hstart1 & Hcpm1 & Hwpm1
        & Hchars1).
  rewrite Hactual in Hactual'. injection Hactual' as <-.
  set (s1 := let s0 := TypingSession.set_correct_chars
                         (TypingSession.correct_chars (session w)
                          + Z.of_nat (TypingSession.credit (Py.strip entry) actual))
                         (session w) in
             if bool_decide (Py.strip entry = actual)
             then TypingSession.set_correct_words
                    (TypingSession.correct_words (session w) + 1) s0
             else s0) in *.
  clearbody s1.
  assert (Hactual_short : (String.length actual <= 8)%nat).
  { destruct (index_returns _ _ _ (proj1 Hrange) Hactual) as [_ Hin].
    rewrite Hsame in Hin. apply list_elem_of_lookup_2 in Hin.
    exact (proj1 (Forall_forall _ _) Hshort actual Hin). }
  pose proof (credit_le_actual (Py.strip entry) actual) as Hcredit.
  do 2 wp_step. rewrite Hcheck.
  (* update_metrics *)
  destruct (update_metrics_displayable now s1) as (c & p & Hupdate & Hc & Hp);
    [lia | exact Hnow | now rewrite Hstart1 | now rewrite Hcpm1
    | now rewrite Hwpm1 |].
  do 2 wp_step. cbn [session set_session]. rewrite Hupdate, bind_ok.
  set (s2 := TypingSession.set_metrics c p s1).
  (* the two entries *)
  destruct Hc as [vc Hvc], Hp as [vp Hvp].
  do 3 wp_step. unfold update_cpm.
  do 4 wp_step.
  cbn [session set_session set_corrected_cpm_entry
       TypingSession.cpm_corrected TypingSession.set_metrics s2].
  rewrite Hvc.
  do 4 wp_step. unfold update_wpm.
  do 4 wp_step.
  cbn [session set_session set_corrected_cpm_entry set_wpm_entry
       TypingSession.wpm TypingSession.set_metrics s2].
  rewrite Hvp.
  (* the position of the word *)
  do 7 wp_step.
  cbn [session set_session set_corrected_cpm_entry set_wpm_entry
       words_indexes TypingSession.current_word_index
       TypingSession.set_metrics s2].
  destruct (index_in_range (words_indexes w)
              (TypingSession.current_word_index s1)) as [r Hr]; [lia |].
  rewrite Hr.
  (* next_word *)
  do 4 wp_step.
  cbn [session set_session set_corrected_cpm_entry set_wpm_entry
       set_word_tags].
  rewrite (surjective_pairing (TypingSession.next_word s2)).
  rewrite next_word_state.
  destruct (next_word_returns s2) as [o Ho]; [unfold s2; cbn; lia |].
  rewrite Ho, bind_ok.
  do 4 wp_step.
  cbn [session set_session set_corrected_cpm_entry set_wpm_entry
       set_word_tags words_list TypingSession.current_word_index
       TypingSession.set_current_word_index TypingSession.set_metrics s2].
  rewrite Hindex1.
  match goal with
  | |- wp _ _ _ ?w3 => set (w3' := w3)
  end.
  assert (Hok3 : scoring_ok w3').
  { unfold scoring_ok, session_ok, displayable, w3', s2. cbn.
    rewrite Hwords1, Hchars1, Hstart1.
    repeat split; try assumption; try lia; eexists; eassumption. }
  assert (Hidx3 : TypingSession.current_word_index (session w3')
                  = TypingSession.current_word_index (session w) + 1).
  { unfold w3', s2. reflexivity. }
  assert (Hlist3 : words_list w3' = words_list w) by reflexivity.
  assert (Hentry3 : typed_text_entry w3' = typed_text_entry w) by reflexivity.
  clearbody w3'.
  destruct (Z.leb_spec (Z.of_nat (length (words_list w)))
              (TypingSession.current_word_index (session w) + 1))
    as [Hlast|Hmore].
  - destruct Hok3 as (Hok3 & Hshort3 & Hsize3 & Hchars3 & Hstart3 & Hc3 & Hp3).
    destruct (end_test_returns today w3' Hc3 Hp3)
      as (w' & Hrun & (Hs & Hl & Hi) & Hentry).
    apply (wp_of_returns _ _ _ _ _ _ Hrun).
    unfold P, scoring_ok, session_ok. rewrite Hs, Hl, Hi.
    repeat split; try assumption; try apply Hok3; try apply Hchars3.
  - destruct (highlight_next_word_returns w3')
      as (w' & Hrun & (Hs & Hl & Hi) & Hentry).
    apply (wp_of_returns _ _ _ _ _ _ Hrun).
    destruct Hok3 as (Hok3 & Hshort3 & Hsize3 & Hchars3 & Hstart3 & Hc3 & Hp3).
    unfold P, scoring_ok, session_ok. rewrite Hs, Hl, Hi, Hentry.
    repeat split; try assumption; try apply Hok3; try apply Hchars3.
Qed.

(** A submission past the last word raises and changes nothing. *)
Lemma space_pressed_over entry now today w :
  0 <= TypingSession.current_word_index (session w) ->
  Z.of_nat (length (TypingSession.words (session w)))
    <= TypingSession.current_word_index (session w) ->
  space_pressed entry now today w = (w, Py.Raise Py.IndexError).
Proof.
  intros Hpos Hover. unfold space_pressed. cbv zeta.
  apply run_bind_raise. unfold on_session, TypingSession.check_word, Py.index.
  cbv zeta. rewrite (proj2 (Z.ltb_ge _ 0) Hpos).
  rewrite (proj2 (Z.ltb_ge _ 0) Hpos). cbn [orb].
  rewrite (proj2 (Z.leb_le _ _) Hover). reflexivity.
Qed.

Lemma space_pressed_scoring_ok entry now today w :
  scoring_ok w -> is_finite now = true ->
  scoring_ok (fst (space_pressed entry now today w)).
Proof.
  intros Hok Hnow.
  destruct (Z.lt_ge_cases (TypingSession.current_word_index (session w))
              (Z.of_nat (length (words_list w)))) as [Hlt|Hge].
  - destruct (space_pressed_advances entry now today w Hok Hnow Hlt)
      as (w' & -> & _ & _ & Hok' & _).
    exact Hok'.
  - destruct Hok as ((Hsame & Hpos & Hrange) & Hrest).
    rewrite space_pressed_over; [| lia | rewrite Hsame; lia].
    split; [split; [| split] |]; assumption.
Qed.

Lemma new_session_scoring_ok net rand now w :
  scoring_ok w -> is_finite now = true ->
  scoring_ok (fst (new_session net rand now w)).
Proof.
  intros Hok Hnow. apply new_session_wp; try frame; [exact Hok |].
  intros ws w' Hlist. rewrite init_eq in Hlist.
  destruct (get_list_short rand
              match net (WordsList.url (idiom w)) with
              | WordsList.Words ws0 => ws0
              | WordsList.Failure _ => WordsList.fallback
              end (idiom w))
    as (pool & Hpool & Hlen & Hshort).
  rewrite Hpool in Hlist. injection Hlist as ->.
  unfold scoring_ok, session_ok, displayable. cbn.
  rewrite positions_length.
  repeat split; try assumption; try lia; eexists; reflexivity.
Qed.

Lemma handle_scoring_ok e w :
  finite_clock e -> scoring_ok w -> scoring_ok (handle e w).
Proof.
  intros Hclock Hok.
  destruct e as [typed today|entry now today|today
                |net rand now|i net rand now]; cbn [handle].
  - apply check_typed_word_keeps; try frame; exact Hok.
  - now apply space_pressed_scoring_ok.
  - destruct (timer_pending w); [| exact Hok].
    apply update_timer_keeps; try frame; exact Hok.
  - apply reset_wp; try frame; [| exact Hok].
    intros w' Hw'. now apply new_session_scoring_ok.
  - unfold change_language. apply wp_state.
    do 4 wp_step.
    apply wp_of_state, reset_wp; try frame; [| exact Hok].
    intros w' Hw'. now apply new_session_scoring_ok.
Qed.

Lemma run_scoring_ok es : forall w,
  Forall finite_clock es -> scoring_ok w -> scoring_ok (run es w).
Proof.
  induction es as [|e es IH]; intros w Hclocks Hok; [exact Hok |].
  apply Forall_cons in Hclocks as [Hclock Hclocks].
  apply IH; [exact Hclocks |]. now apply handle_scoring_ok.
Qed.

Lemma blank_scoring_ok file : scoring_ok (blank file).
Proof.
  unfold scoring_ok, session_ok, displayable. cbn.
  repeat split; try lia; try constructor; eexists; reflexivity.
Qed.

(** The window as it opens. *)
Lemma init_opens file net rand now :
  is_finite now = true ->
  scoring_ok (fst (init file net rand now)) /\
  TypingSession.current_word_index (session (fst (init file net rand now)))
    = 0 /\
  typed_text_entry (fst (init file net rand now)) = Normal.
Proof.
  intros Hnow. unfold init.
  apply (new_session_wp net rand now (blank file)
           (fun w' => scoring_ok w' /\
              TypingSession.current_word_index (session w') = 0 /\
              typed_text_entry w' = Normal)); try frame.
  - split; [apply blank_scoring_ok | split; reflexivity].
  - intros ws w' Hlist. split; [| split; reflexivity].
    rewrite init_eq in Hlist.
    destruct (get_list_short rand
                match net (WordsList.url (idiom (blank file))) with
                | WordsList.Words ws0 => ws0
                | WordsList.Failure _ => WordsList.fallback
                end (idiom (blank file)))
      as (pool & Hpool & Hlen & Hshort).
    rewrite Hpool in Hlist. injection Hlist as ->.
    unfold scoring_ok, session_ok, displayable. cbn.
    rewrite positions_length.
    repeat split; try assumption; try lia; eexists; reflexivity.
Qed.

(** As many submissions as words are left bring the cursor past the
    last word and end the test. *)
Lemma run_submissions subs : forall w,
  scoring_ok w ->
  Forall (fun x => is_finite (snd (fst x)) = true) subs ->
  TypingSession.current_word_index (session w) + Z.of_nat (length subs)
    <= Z.of_nat (length (words_list w)) ->
  TypingSession.current_word_index (session (run (submissions subs) w))
    = TypingSession.current_word_index (session w) + Z.of_nat (length subs) /\
  words_list (run (submissions subs) w) = words_list w /\
  scoring_ok (run (submissions subs) w) /\
  (subs <> [] ->
   TypingSession.current_word_index (session w) + Z.of_nat (length subs)
     = Z.of_nat (length (words_list w)) ->
   typed_text_entry (run (submissions subs) w) = Disabled).
Proof.
  induction subs as [|[[entry now] today] subs IH]; intros w Hok Hclocks Hleft.
  - cbn. split; [lia |]. split; [reflexivity |].
    split; [exact Hok | congruence].
  - apply Forall_cons in Hclocks as [Hnow Hclocks]. cbn in Hnow.
    cbn [length] in Hleft.
    destruct (space_pressed_advances entry now today w Hok Hnow)
      as (w1 & Hrun & Hidx & Hlist & Hok1 & Hentry); [lia |].
    change (run (submissions ((entry, now, today) :: subs)) w)
      with (run (submissions subs) (fst (space_pressed entry now today w))).
    rewrite Hrun. cbn [fst].
    destruct (IH w1 Hok1 Hclocks) as (Hidx' & Hlist' & Hok' & Hend);
      [rewrite Hidx, Hlist; lia |].
    rewrite Hidx', Hlist', Hidx, Hlist.
    split; [cbn [length]; lia |]. split; [reflexivity |].
    split; [exact Hok' |]. intros _ Hall.
    destruct subs as [|sub subs].
    + cbn in *. rewrite Hentry.
      now rewrite (proj2 (Z.leb_le _ _)) by lia.
    + apply Hend; [discriminate |]. rewrite Hidx, Hlist.
      cbn [length] in *. lia.
Qed.

(** C6. In a window that opened, whatever events follow, the cursor
    stays between [0] and the number of words. When the clock readings
    are finite floats, a submission with the cursor on a word returns and
    advances the cursor by exactly one, whatever was typed; so as many
    submissions as there are words leave the cursor equal to the number
    of words, which is the test that ends a session, and the last of them
    has ended the test. *)
Theorem submissions_advance file net rand now0 w0 :
  init file net rand now0 = (w0, Py.Ok tt) ->
  (forall es,
     0 <= TypingSession.current_word_index (session (run es w0))
       <= Z.of_nat (length (TypingSession.words (session (run es w0))))) /\
  (is_finite now0 = true ->
   (forall es entry now today,
      Forall finite_clock es ->
      is_finite now = true ->
      TypingSession.current_word_index (session (run es w0))
        < Z.of_nat (length (TypingSession.words (session (run es w0)))) ->
      exists w',
        space_pressed entry now today (run es w0) = (w', Py.Ok tt) /\
        TypingSession.current_word_index (session w')
          = TypingSession.current_word_index (session (run es w0)) + 1 /\
        TypingSession.words (session w')
          = TypingSession.words (session (run es w0))) /\
   (forall subs,
      length subs = length (TypingSession.words (session w0)) ->
      Forall (fun x => is_finite (snd (fst x)) = true) subs ->
      TypingSession.current_word_index (session (run (submissions subs) w0))
        = Z.of_nat (length (TypingSession.words
                              (session (run (submissions subs) w0)))) /\
      TypingSession.words (session (run (submissions subs) w0))
        = TypingSession.words (session w0) /\
      (subs <> [] ->
       typed_text_entry (run (submissions subs) w0) = Disabled))).
Proof.
  intros Hinit.
  assert (Hw0 : w0 = fst (init file net rand now0)) by now rewrite Hinit.
  split.
  - intros es.
    assert (Hok : session_ok (run es w0)).
    { apply run_session_ok. rewrite Hw0. unfold init.
      apply new_session_session_ok, blank_session_ok. }
    destruct Hok as (Hsame & _ & Hrange). now rewrite Hsame.
  - intros Hnow0.
    destruct (init_opens file net rand now0 Hnow0) as (Hok0 & Hidx0 & _).
    rewrite <- Hw0 in Hok0, Hidx0. split.
    + intros es entry now today Hclocks Hnow Hlt.
      pose proof (run_scoring_ok es w0 Hclocks Hok0) as Hok.
      pose proof Hok as ((Hsame & _) & _).
      rewrite Hsame in Hlt.
      destruct (space_pressed_advances entry now today _ Hok Hnow Hlt)
        as (w' & Hrun & Hidx & Hlist & ((Hsame' & _) & _) & _).
      exists w'. split; [exact Hrun |]. split; [exact Hidx |].
      now rewrite Hsame', Hsame.
    + intros subs Hlen Hclocks.
      pose proof Hok0 as ((Hsame0 & _) & _).
      rewrite Hsame0 in Hlen.
      destruct (run_submissions subs w0 Hok0 Hclocks)
        as (Hidx & Hlist & ((Hsame & _) & _) & Hend); [lia |].
      rewrite Hsame, Hlist, Hsame0, Hidx, Hidx0.
      split; [lia |]. split; [reflexivity |].
      intros Hsubs. apply Hend; [exact Hsubs | lia].
Qed.

(** Over an empty pool the cursor is on the number of words from the
    start; the window opens with the entry enabled, and a submission
    raises and changes nothing. *)
Example empty_pool :
  let w := fst (init None long_words draws 1700000000%float) in
  words_list w = [] /\
  TypingSession.current_word_index (session w) = 0 /\
  typed_text_entry w = Normal /\
  space_pressed "a" 1700000001%float "" w = (w, Py.Raise Py.IndexError).
Proof. vm_compute. repeat split. Qed.

Lemma submissions_advance_witness :
  TypingSession.current_word_index
    (session (run (submissions two_words) opened)) = 2 /\
  typed_text_entry (run (submissions two_words) opened) = Disabled.
Proof.
  assert (Hopen : init None answers draws 1700000000%float
                  = (opened, Py.Ok tt)) by (vm_compute; reflexivity).
  destruct (submissions_advance _ _ _ _ _ Hopen) as [_ Hfinite].
  destruct Hfinite as [_ Hall]; [vm_compute; reflexivity |].
  assert (Hlen : length two_words
                 = length (TypingSession.words (session opened)))
    by (vm_compute; reflexivity).
  destruct (Hall two_words Hlen) as (Hidx & _ & Hend).
  - repeat constructor.
  - split; [rewrite Hidx; vm_compute; reflexivity |].
    apply Hend. discriminate.
Defined.

End Submissions.

(** ** The cursor and the counters of a session *)

Section SessionCursor.

Import TypingSession.

Implicit Types (typed actual : string) (s : TypingSession.t).

Lemma next_word_lookup s :
  0 <= current_word_index s + 1 ->
  snd (next_word s)
  = Py.Ok (words s !! Z.to_nat (current_word_index s + 1)).
Proof.
  intros Hpos. unfold next_word. cbn.
  destruct (Z.leb_spec (Z.of_nat (length (words s))) (current_word_index s + 1))
    as [Hge|Hlt]; cbn.
  - rewrite lookup_ge_None_2 by lia. reflexivity.
  - destruct (lookup_lt_is_Some_2 (words s) (Z.to_nat (current_word_index s + 1)))
      as [word Hword]; [lia |].
    rewrite Hword.
    rewrite <- (Z2Nat.id (current_word_index s + 1)) at 1 by exact Hpos.
    rewrite (index_lookup _ _ _ Hword). reflexivity.
Qed.

Lemma skip_state n s :
  skip n s = set_current_word_index (current_word_index s + Z.of_nat n) s.
Proof.
  induction n as [|n IH].
  - cbn. rewrite Z.add_0_r. now destruct s.
  - change (skip (S n) s) with (fst (next_word (skip n s))).
    rewrite next_word_state, IH. unfold set_current_word_index. cbn.
    f_equal. lia.
Qed.

(** X1. [next_word] has no upper guard. From a cursor that is not
    negative, [n] calls move the cursor [n] places, whatever the number
    of words, and change nothing else of the session; the call that
    follows them returns the word under the cursor it moves to, and
    [None] once that cursor reaches or passes the end of the words. *)
Theorem next_word_skips n s :
  0 <= current_word_index s ->
  current_word_index (skip n s) = current_word_index s + Z.of_nat n /\
  words (skip n s) = words s /\
  correct_words (skip n s) = correct_words s /\
  correct_chars (skip n s) = correct_chars s /\
  time_left (skip n s) = time_left s /\
  snd (next_word (skip n s))
  = Py.Ok (words s !! Z.to_nat (current_word_index s + Z.of_nat n + 1)) /\
  (Z.of_nat (length (words s)) <= current_word_index s + Z.of_nat n + 1 ->
   snd (next_word (skip n s)) = Py.Ok None).
Proof.
  intros Hpos. rewrite skip_state. cbn.
  do 5 (split; [reflexivity |]).
  assert (Hnext : snd (next_word (set_current_word_index
                    (current_word_index s + Z.of_nat n) s))
                  = Py.Ok (words s !! Z.to_nat (current_word_index s + Z.of_nat n + 1))).
  { rewrite next_word_lookup by (cbn; lia). reflexivity. }
  split; [exact Hnext |].
  intros Hover. rewrite Hnext, lookup_ge_None_2 by lia. reflexivity.
Qed.

Lemma next_word_skips_witness :
  current_word_index (skip 5 Examples.cat_dog) = 5 /\
  snd (next_word (skip 5 Examples.cat_dog)) = Py.Ok None.
Proof.
  destruct (next_word_skips 5 Examples.cat_dog) as (Hidx & _ & _ & _ & _ & _ & Hnone).
  - vm_compute. discriminate.
  - split; [exact Hidx |]. apply Hnone. vm_compute. discriminate.
Defined.

(** What [check_word] leaves alone. *)
Lemma check_word_only_counters typed s correct s1 :
  check_word typed s = Py.Ok (correct, s1) ->
  exists actual,
    Py.index (words s) (current_word_index s) = Py.Ok actual /\
    correct = bool_decide (typed = actual) /\
    s1 = set_correct_words
           (correct_words s + (if correct then 1 else 0))
           (set_correct_chars
              (correct_chars s + Z.of_nat (credit typed actual)) s).
Proof.
  intros Hrun. unfold check_word in Hrun.
  destruct (Py.index (words s) (current_word_index s)) as [actual|e];
    [| discriminate].
  exists actual. split; [reflexivity |].
  cbn in Hrun. unfold Py.str_eq in Hrun.
  destruct (bool_decide (typed = actual)); injection Hrun as <- <-.
  - split; reflexivity.
  - split; [reflexivity |]. cbn. rewrite Z.add_0_r. now destruct s.
Qed.

Lemma index_out_of_range {A} (l : list A) (i : Z) :
  ~ (- Z.of_nat (length l) <= i < Z.of_nat (length l)) ->
  Py.index l i = Py.Raise Py.IndexError.
Proof.
  intros Hout. unfold Py.index. cbv zeta.
  destruct (Z.ltb_spec i 0) as [Hneg|Hpos].
  - rewrite (proj2 (Z.ltb_lt (i + Z.of_nat (length l)) 0)) by lia. reflexivity.
  - rewrite (proj2 (Z.ltb_ge i 0)) by lia.
    rewrite (proj2 (Z.leb_le (Z.of_nat (length l)) i)) by lia. reflexivity.
Qed.

Lemma index_within {A} (l : list A) (i : Z) :
  - Z.of_nat (length l) <= i < Z.of_nat (length l) ->
  exists x, Py.index l i = Py.Ok x /\ x ∈ l.
Proof.
  intros Hin. unfold Py.index. cbv zeta.
  set (j := if i <? 0 then i + Z.of_nat (length l) else i).
  assert (Hj : 0 <= j < Z.of_nat (length l)).
  { unfold j. destruct (Z.ltb_spec i 0); lia. }
  rewrite (proj2 (Z.ltb_ge j 0)) by lia.
  rewrite (proj2 (Z.leb_gt (Z.of_nat (length l)) j)) by lia. cbn.
  destruct (lookup_lt_is_Some_2 l (Z.to_nat j)) as [x Hx]; [lia |].
  rewrite Hx. exists x. split; [reflexivity |].
  now apply list_elem_of_lookup_2 in Hx.
Qed.

(** X2. [check_word] returns exactly when the cursor is a valid
    subscript of the words, that is from [-len(words)] to
    [len(words) - 1], and raises [IndexError] otherwise. When it returns
    it has scored one of the words and only the two counters may have
    changed: [correct_words] grows by at most one and [correct_chars] by
    at most the common length of the typed string and the word; the
    words, the cursor, the clock and the metrics are as before. *)
Theorem check_word_frame typed s :
  (- Z.of_nat (length (words s)) <= current_word_index s
     < Z.of_nat (length (words s)) ->
   exists correct s' actual,
     check_word typed s = Py.Ok (correct, s') /\
     actual ∈ words s /\
     words s' = words s /\
     current_word_index s' = current_word_index s /\
     time_left s' = time_left s /\
     start_time s' = start_time s /\
     cpm_corrected s' = cpm_corrected s /\
     wpm s' = wpm s /\
     correct_words s <= correct_words s' <= correct_words s + 1 /\
     correct_chars s <= correct_chars s'
       <= correct_chars s
          + Z.of_nat (Nat.min (String.length typed) (String.length actual))) /\
  (~ (- Z.of_nat (length (words s)) <= current_word_index s
        < Z.of_nat (length (words s))) ->
   check_word typed s = Py.Raise Py.IndexError).
Proof.
  split.
  - intros Hin.
    destruct (index_within _ _ Hin) as (actual & Hactual & Helem).
    rewrite (check_word_eq typed actual s Hactual).
    eexists _, _, actual. split; [reflexivity |]. split; [exact Helem |].
    pose proof (credit_le typed actual) as Hcredit.
    destruct (bool_decide (typed = actual)); cbn; repeat split; lia.
  - intros Hout. unfold check_word.
    now rewrite (index_out_of_range _ _ Hout).
Qed.

End SessionCursor.

(** ** Sampling without replacement *)

Section Pool.

Import WordsList.

(** X3. The pool is drawn without replacement. When at most 200 source
    words are short enough, the pool is a permutation of all of them;
    when at least 200 are, the pool holds exactly 200 words; and a source
    without repeated words gives a pool without repeated words. *)
Theorem get_list_without_replacement rand ws i :
  exists pool,
    get_list rand (mk (Some ws) i) = Py.Ok pool /\
    ((length (filter short ws) <= 200)%nat -> pool ≡ₚ filter short ws) /\
    ((200 <= length (filter short ws))%nat -> length pool = 200%nat) /\
    (NoDup ws -> NoDup pool).
Proof.
  destruct (get_list_spec rand ws i) as (pool & Hrun & Hlen & Hsub).
  exists pool. split; [exact Hrun |]. split; [| split].
  - intros Hfew. apply submseteq_length_Permutation; [exact Hsub | lia].
  - intros Hmany. lia.
  - intros Hnodup. apply (NoDup_filter short) in Hnodup.
    apply submseteq_Permutation in Hsub as [rest Hrest].
    rewrite Hrest in Hnodup. now apply NoDup_app in Hnodup.
Qed.

End Pool.

(** ** What [new_session] computes *)

Section NewSession.

Import Window.

Lemma highlight_next_word_eq w :
  highlight_next_word w =
  (set_highlight
     (if (TypingSession.current_word_index (session w) <? 0)
         || (Z.of_nat (length (words_indexes w))
             <=? TypingSession.current_word_index (session w))
      then None
      else words_indexes w
             !! Z.to_nat (TypingSession.current_word_index (session w))) w,
   Py.Ok tt).
Proof.
  unfold highlight_next_word, mbind, M_bind, modify, read, lift. cbn.
  destruct (Z.ltb_spec (TypingSession.current_word_index (session w)) 0)
    as [Hneg|Hpos]; cbn; [reflexivity |].
  destruct (Z.leb_spec (Z.of_nat (length (words_indexes w)))
              (TypingSession.current_word_index (session w)))
    as [Hge|Hlt]; cbn; [reflexivity |].
  destruct (lookup_lt_is_Some_2 (words_indexes w)
              (Z.to_nat (TypingSession.current_word_index (session w))))
    as [r Hr]; [lia |].
  rewrite Hr.
  rewrite <- (Z2Nat.id (TypingSession.current_word_index (session w))) at 1
    by exact Hpos.
  rewrite (index_lookup _ _ _ Hr). reflexivity.
Qed.

Lemma new_session_eq net rand now w :
  exists pool,
    WordsList.get_list rand (fst (WordsList.init net (idiom w))) = Py.Ok pool /\
    new_session net rand now w =
    let w1 := fresh pool now (snd (WordsList.init net (idiom w))) w in
    match get_last_score (score_csv w) with
    | Py.Ok (Some sc) =>
        (set_recent_score_entry (last_score_text sc) w1, Py.Ok tt)
    | Py.Ok None => (w1, Py.Ok tt)
    | Py.Raise e => (w1, Py.Raise e)
    end.
Proof.
  destruct (get_list_spec rand
              match net (WordsList.url (idiom w)) with
              | WordsList.Words ws0 => ws0
              | WordsList.Failure _ => WordsList.fallback
              end (idiom w)) as (pool & Hpool & _).
  rewrite <- init_eq in Hpool.
  exists pool. split; [exact Hpool |].
  unfold new_session.
  unfold mbind at 1. unfold M_bind at 1. unfold read at 1. cbv beta iota.
  destruct (WordsList.init net (idiom w)) as [source printed].
  cbn [fst snd] in *.
  unfold reset_interface, mbind, M_bind, modify, read, lift.
  rewrite Hpool, highlight_next_word_eq.
  cbn -[get_last_score].
  destruct pool as [|word pool]; cbn -[get_last_score];
    destruct (get_last_score (score_csv w)) as [[sc|]|e]; reflexivity.
Qed.

End NewSession.

(** ** The text and the positions of the words *)

Ltac unchanged := let H := fresh in intros ? ? H; exact H.

Section Display.

Import Window.

Implicit Types (w : Window.t) (ws : list string) (word typed : string).

Lemma substring_prefix (s t : string) :
  substring 0 (String.length s) (s +:+ t) = s.
Proof.
  induction s as [|c s IH]; [now destruct t |].
  change (String c (substring 0 (String.length s) (s +:+ t)) = String c s).
  now rewrite IH.
Qed.

Lemma substring_skip (s t : string) (a n : nat) :
  substring (String.length s + a) n (s +:+ t) = substring a n t.
Proof. induction s as [|c s IH]; cbn; [reflexivity | exact IH]. Qed.

Lemma get_skip (s t : string) (a : nat) :
  String.get (String.length s + a) (s +:+ t) = String.get a t.
Proof. induction s as [|c s IH]; cbn; [reflexivity | exact IH]. Qed.

Lemma joined_cons word ws : joined (word :: ws) = word +:+ " " +:+ joined ws.
Proof. reflexivity. Qed.

(** The position recorded for the [k]-th word is where the word
    stands in the text, and a blank follows it. *)
Lemma positions_lookup ws : forall index k word,
  ws !! k = Some word ->
  exists a : nat,
    positions index ws !! k
      = Some ((index + a)%nat, (index + a + String.length word)%nat) /\
    substring a (String.length word) (joined ws) = word /\
    String.get (a + String.length word) (joined ws) = Some " "%char.
Proof.
  induction ws as [|first ws IH]; intros index k word Hk; [discriminate |].
  destruct k as [|k].
  - injection Hk as ->. exists 0%nat. cbn [positions lookup list_lookup].
    rewrite Nat.add_0_r, joined_cons. split; [reflexivity |].
    split; [apply substring_prefix |].
    rewrite <- (Nat.add_0_r (0 + String.length word)). cbn [Nat.add].
    rewrite get_skip. reflexivity.
  - cbn in Hk.
    destruct (IH (index + String.length first + 1)%nat k word Hk)
      as (a & Hpos & Hsub & Hget).
    exists (String.length first + S a)%nat. cbn [positions].
    change ((?x :: ?l) !! S k) with (l !! k).
    rewrite Hpos, joined_cons. split; [f_equal; f_equal; lia |].
    split.
    + rewrite substring_skip. exact Hsub.
    + rewrite <- Nat.add_assoc, get_skip. exact Hget.
Qed.

Lemma positions_bounds ws : forall index k r,
  positions index ws !! k = Some r ->
  (index <= fst r <= snd r)%nat.
Proof.
  induction ws as [|first ws IH]; intros index k r Hk; [discriminate |].
  destruct k as [|k].
  - injection Hk as <-. cbn. lia.
  - cbn in Hk. apply IH in Hk. lia.
Qed.

(** Positions of different words do not overlap. *)
Lemma positions_apart ws : forall index k k' r r',
  (k < k')%nat ->
  positions index ws !! k = Some r ->
  positions index ws !! k' = Some r' ->
  (snd r < fst r')%nat.
Proof.
  induction ws as [|first ws IH]; intros index k k' r r' Hlt Hk Hk';
    [discriminate |].
  destruct k' as [|k']; [lia |]. cbn in Hk'.
  destruct k as [|k].
  - injection Hk as <-. apply positions_bounds in Hk'. cbn. lia.
  - cbn in Hk. eapply (IH _ k k' r r'); [lia | exact Hk | exact Hk'].
Qed.

(** X4. [reset_interface] returns, and the position it records for the
    [k]-th word is where that word stands in the text: the text between
    its start and its end is the word and a blank follows it. There are
    as many positions as words, the positions of earlier words end before
    this one starts, the letter and word tags are gone and the entry is
    enabled. *)
Theorem reset_interface_positions w k word :
  words_list w !! k = Some word ->
  exists w' a,
    reset_interface w = (w', Py.Ok tt) /\
    words_indexes w' !! k = Some (a, (a + String.length word)%nat) /\
    substring a (a + String.length word - a) (text w') = word /\
    String.get (a + String.length word) (text w') = Some " "%char /\
    length (words_indexes w') = length (words_list w) /\
    (forall j r,
       (j < k)%nat ->
       words_indexes w' !! j = Some r ->
       (snd r < a)%nat) /\
    letter_tags w' = [] /\ word_tags w' = [] /\
    typed_text_entry w' = Normal.
Proof.
  intros Hk.
  destruct (positions_lookup (words_list w) 0 k word Hk)
    as (a & Hpos & Hsub & Hget).
  eexists _, a. split; [reflexivity |]. cbn.
  split; [exact Hpos |].
  split; [now replace (a + String.length word - a)%nat
            with (String.length word) by lia |].
  split; [exact Hget |].
  split; [apply positions_length |].
  split; [| repeat split].
  intros j r Hj Hr.
  apply (positions_apart _ _ _ _ _ _ Hj Hr Hpos).
Qed.

Lemma reset_interface_positions_witness :
  exists w' a,
    reset_interface Examples.opened = (w', Py.Ok tt) /\
    words_indexes w' !! 1%nat = Some (a, (a + 3)%nat).
Proof.
  assert (Hk : words_list Examples.opened !! 1%nat = Some "cat"%string)
    by (vm_compute; reflexivity).
  destruct (reset_interface_positions Examples.opened 1 "cat" Hk)
    as (w' & a & Hrun & Hpos & _).
  exists w', a. split; [exact Hrun | exact Hpos].
Defined.

End Display.

(** ** Key releases: [Window.check_typed_word] *)

Section KeyRelease.

Import Window.

Implicit Types (w : Window.t) (ws : list string) (word typed : string).

(** A property of the window that a submission keeps. *)
Lemma space_pressed_keeps entry now today (I : Window.t -> Prop) :
  (forall w correct s1, I w ->
     TypingSession.check_word (Py.strip entry) (session w)
       = Py.Ok (correct, s1) ->
     I (set_session s1 w)) ->
  (forall w s2, I w ->
     TypingSession.update_metrics now (session w) = Py.Ok s2 ->
     I (set_session s2 w)) ->
  (forall w, I w ->
     I (set_session (fst (TypingSession.next_word (session w))) w)) ->
  (forall w v, I w -> I (set_corrected_cpm_entry v w)) ->
  (forall w v, I w -> I (set_wpm_entry v w)) ->
  (forall w v, I w -> I (set_word_tags v w)) ->
  (forall w v, I w -> I (set_highlight v w)) ->
  (forall w v, I w -> I (set_typed_text_entry v w)) ->
  (forall w v, I w -> I (set_recent_score_entry v w)) ->
  (forall w v, I w -> I (set_score_csv v w)) ->
  (forall w v, I w -> I (set_dialogs v w)) ->
  keeps I (space_pressed entry now today).
Proof.
  intros Hcheck Hupdate Hnext Hcpm Hwpm Htags Hhighlight Hentry Hrecent Hcsv
    Hdialogs.
  unfold space_pressed, update_cpm, update_wpm. cbv zeta.
  apply keeps_bind; [apply keeps_on_session; intros; eauto | intros correct].
  apply keeps_bind.
  { apply keeps_on_session. intros w [] s' Hw Hrun.
    destruct (TypingSession.update_metrics now (session w)) as [s2|e] eqn:Hs2;
      [| discriminate Hrun].
    rewrite bind_ok in Hrun. injection Hrun as <-. now apply Hupdate. }
  intros _.
  do 7 (apply keeps_bind;
        [repeat first [keeps_step | apply keeps_read | apply keeps_lift];
         intros; auto | intros ?]).
  apply keeps_bind.
  { apply keeps_on_session. intros w [] s' Hw Hrun.
    rewrite (surjective_pairing (TypingSession.next_word (session w))) in Hrun.
    destruct (snd (TypingSession.next_word (session w))) as [o|e];
      [| discriminate Hrun].
    rewrite bind_ok in Hrun. injection Hrun as <-. now apply Hnext. }
  intros _.
  repeat first
    [ keeps_step
    | apply end_test_keeps
    | apply highlight_next_word_keeps ];
    intros; auto.
Qed.

(** A property that does not depend on the session. *)
Lemma space_pressed_frame entry now today (I : Window.t -> Prop) :
  (forall w s', I w -> I (set_session s' w)) ->
  (forall w v, I w -> I (set_corrected_cpm_entry v w)) ->
  (forall w v, I w -> I (set_wpm_entry v w)) ->
  (forall w v, I w -> I (set_word_tags v w)) ->
  (forall w v, I w -> I (set_highlight v w)) ->
  (forall w v, I w -> I (set_typed_text_entry v w)) ->
  (forall w v, I w -> I (set_recent_score_entry v w)) ->
  (forall w v, I w -> I (set_score_csv v w)) ->
  (forall w v, I w -> I (set_dialogs v w)) ->
  keeps I (space_pressed entry now today).
Proof.
  intros Hsession **. apply space_pressed_keeps; intros; auto.
Qed.

Lemma new_session_display_ok net rand now w :
  display_ok (fst (new_session net rand now w)).
Proof.
  destruct (new_session_eq net rand now w) as (pool & _ & ->). cbv zeta.
  destruct (get_last_score (score_csv w)) as [[sc|]|e]; split; reflexivity.
Qed.

Lemma reset_eq net rand now w :
  reset net rand now w =
  new_session net rand now
    (set_timer_started false
       (if after_id w
        then set_after_id false (set_timer_pending false w)
        else w)).
Proof.
  unfold reset, cancel_timer, mbind, M_bind, modify, read. cbn.
  now destruct (after_id w).
Qed.

Lemma change_language_eq i net rand now w :
  change_language i net rand now w =
  reset net rand now (set_timer_started false (set_idiom i w)).
Proof. reflexivity. Qed.

Lemma handle_display_ok e w : display_ok w -> display_ok (handle e w).
Proof.
  intros Hok. destruct e as [typed today|entry now today|today
                            |net rand now|i net rand now]; cbn [handle].
  - apply check_typed_word_keeps; try unchanged; exact Hok.
  - apply space_pressed_frame; try unchanged; exact Hok.
  - destruct (timer_pending w); [| exact Hok].
    apply update_timer_keeps; try unchanged; exact Hok.
  - rewrite reset_eq. apply new_session_display_ok.
  - rewrite change_language_eq, reset_eq. apply new_session_display_ok.
Qed.

Lemma run_display_ok es : forall w, display_ok w -> display_ok (run es w).
Proof.
  induction es as [|e es IH]; intros w Hok; [exact Hok |].
  apply IH, handle_display_ok, Hok.
Qed.

Lemma update_timer_returns today w :
  displayable (TypingSession.cpm_corrected (session w)) ->
  displayable (TypingSession.wpm (session w)) ->
  exists w', update_timer today w = (w', Py.Ok tt).
Proof.
  intros Hc Hp.
  destruct (Z.lt_ge_cases 0 (TypingSession.time_left (session w)))
    as [Hleft|Hleft].
  - rewrite update_timer_running by exact Hleft. now eexists.
  - unfold update_timer, mbind, M_bind, modify, read. cbn.
    rewrite (proj2 (Z.ltb_ge _ _) Hleft).
    destruct (end_test_returns today
                (set_time_entry
                   (Py.str_of_int (TypingSession.time_left (session w))) w)
                Hc Hp) as (w' & Hrun & _).
    exists w'. exact Hrun.
Qed.

(** A key release once the countdown runs only colours letters. *)
Lemma check_typed_word_started typed today w r :
  timer_started w = true ->
  0 <= TypingSession.current_word_index (session w) ->
  Py.index (words_indexes w) (TypingSession.current_word_index (session w))
    = Py.Ok r ->
  check_typed_word typed today w =
  (set_letter_tags
     (filter (fun t => ¬ (fst r <= fst t < snd r)%nat) (letter_tags w)
      ++ letter_tags_of (fst r) typed
           (substring (fst r) (snd r - fst r) (text w))) w,
   Py.Ok tt).
Proof.
  intros Hstarted Hpos Hr.
  unfold check_typed_word, mbind, M_bind, modify, read, lift, mret, M_ret.
  rewrite Hstarted. cbv beta iota.
  destruct (Z.eqb_spec (TypingSession.current_word_index (session w)) (-1))
    as [Heq|_]; [lia |].
  rewrite Hr. reflexivity.
Qed.

(** The first key release of a test starts the countdown, then does
    what the later ones do. *)
Lemma check_typed_word_first typed today w w1 :
  timer_started w = false ->
  update_timer today (set_timer_started true w) = (w1, Py.Ok tt) ->
  check_typed_word typed today w = check_typed_word typed today w1.
Proof.
  intros Hstarted Hrun.
  assert (Hstarted1 : timer_started w1 = true).
  { change w1 with (fst (w1, @Py.Ok unit tt)). rewrite <- Hrun.
    apply (update_timer_keeps today (fun w' => timer_started w' = true));
      try unchanged. reflexivity. }
  assert (Hstart : (modify (set_timer_started true) ≫= fun _ => update_timer today) w
                   = (w1, Py.Ok tt)).
  { erewrite run_bind by reflexivity. exact Hrun. }
  unfold check_typed_word.
  erewrite (run_bind (read timer_started) _ w) by reflexivity.
  erewrite (run_bind (read timer_started) _ w1) by reflexivity.
  rewrite Hstarted, Hstarted1.
  erewrite run_bind by exact Hstart.
  erewrite (run_bind (mret tt) _ w1) by reflexivity.
  reflexivity.
Qed.

End KeyRelease.

Section Colours.

Import Window.

Implicit Types (w : Window.t) (ws : list string) (word typed : string).

Lemma init_display_ok file net rand now :
  display_ok (fst (init file net rand now)).
Proof. apply new_session_display_ok. Qed.

Lemma letter_tags_of_elem a typed word i :
  (i < Nat.min (String.length typed) (String.length word))%nat ->
  ((a + i)%nat, bool_decide (String.get i typed = String.get i word))
    ∈ letter_tags_of a typed word.
Proof.
  intros Hi. unfold letter_tags_of.
  apply list_elem_of_fmap. exists i. split; [| apply elem_of_seq; lia].
  reflexivity.
Qed.

(** X5. In a window that opened, after any events with finite clock
    readings, a key release with the cursor on the [k]-th word returns.
    The letters it compares with the typed string are those of that word,
    read back from the text at the recorded position. The letter tags
    within the word are replaced by one tag per typed character, up to
    the length of the word, correct exactly where the typed character is
    the character of the word; the cursor and the word tags do not change
    and the countdown is started. *)
Theorem check_typed_word_colours file net rand now0 es typed today k word :
  let w := run es (fst (init file net rand now0)) in
  is_finite now0 = true ->
  Forall finite_clock es ->
  TypingSession.current_word_index (session w) = Z.of_nat k ->
  words_list w !! k = Some word ->
  exists w' a,
    check_typed_word typed today w = (w', Py.Ok tt) /\
    words_indexes w !! k = Some (a, (a + String.length word)%nat) /\
    substring a (a + String.length word - a) (text w) = word /\
    letter_tags w' =
      filter (fun t => ¬ (a <= fst t < a + String.length word)%nat)
        (letter_tags w)
      ++ letter_tags_of a typed word /\
    (forall i,
       (i < Nat.min (String.length typed) (String.length word))%nat ->
       ((a + i)%nat, bool_decide (String.get i typed = String.get i word))
         ∈ letter_tags w') /\
    TypingSession.current_word_index (session w') = Z.of_nat k /\
    word_tags w' = word_tags w /\
    timer_started w' = true.
Proof.
  intros w Hnow0 Hclocks Hidx Hword.
  assert (Hscore : scoring_ok w).
  { apply run_scoring_ok; [exact Hclocks |]. now apply init_opens. }
  assert (Hshow : display_ok w) by apply run_display_ok, init_display_ok.
  clearbody w.
  destruct Hshow as [Htext Hindexes].
  destruct (positions_lookup (words_list w) 0 k word Hword)
    as (a & Hpos & Hsub & _).
  cbn [Nat.add] in Hpos. rewrite <- Hindexes in Hpos.
  assert (Hget : substring a (a + String.length word - a) (text w) = word).
  { rewrite Htext.
    now replace (a + String.length word - a)%nat with (String.length word)
      by lia. }
  set (J := fun w1 : Window.t =>
    timer_started w1 = true /\
    letter_tags w1 = letter_tags w /\
    text w1 = text w /\
    words_indexes w1 = words_indexes w /\
    word_tags w1 = word_tags w /\
    TypingSession.current_word_index (session w1) = Z.of_nat k).
  assert (Hlater : forall w1, J w1 ->
            check_typed_word typed today w1 =
            (set_letter_tags
               (filter (fun t => ¬ (a <= fst t < a + String.length word)%nat)
                  (letter_tags w)
                ++ letter_tags_of a typed word) w1,
             Py.Ok tt)).
  { intros w1 (Hstarted1 & Htags1 & Htext1 & Hindexes1 & _ & Hidx1).
    rewrite (check_typed_word_started typed today w1
               (a, (a + String.length word)%nat));
      [| exact Hstarted1 | lia
       | rewrite Hidx1, Hindexes1; now apply index_lookup].
    cbn [fst snd]. now rewrite Htags1, Htext1, Hget. }
  assert (Hend : forall w1, J w1 ->
            exists w' a0,
              check_typed_word typed today w1 = (w', Py.Ok tt) /\
              words_indexes w !! k = Some (a0, (a0 + String.length word)%nat) /\
              substring a0 (a0 + String.length word - a0) (text w) = word /\
              letter_tags w' =
                filter (fun t => ¬ (a0 <= fst t < a0 + String.length word)%nat)
                  (letter_tags w)
                ++ letter_tags_of a0 typed word /\
              (forall i,
                 (i < Nat.min (String.length typed) (String.length word))%nat ->
                 ((a0 + i)%nat,
                  bool_decide (String.get i typed = String.get i word))
                   ∈ letter_tags w') /\
              TypingSession.current_word_index (session w') = Z.of_nat k /\
              word_tags w' = word_tags w /\
              timer_started w' = true).
  { intros w1 HJ. pose proof (Hlater w1 HJ) as Hrun.
    destruct HJ as (Hstarted1 & _ & _ & _ & Hwords1 & Hidx1).
    eexists _, a. split; [exact Hrun |]. cbn.
    split; [exact Hpos |]. split; [exact Hget |]. split; [reflexivity |].
    split; [| now repeat split].
    intros i Hi. apply elem_of_app. right. now apply letter_tags_of_elem. }
  destruct (timer_started w) eqn:Hstarted.
  - apply Hend. now repeat split.
  - destruct Hscore as (_ & _ & _ & _ & _ & Hc & Hp).
    destruct (update_timer_returns today (set_timer_started true w) Hc Hp)
      as [w1 Hrun].
    rewrite (check_typed_word_first typed today w w1 Hstarted Hrun).
    apply Hend.
    change w1 with (fst (w1, @Py.Ok unit tt)). rewrite <- Hrun.
    apply (update_timer_keeps today J); try unchanged.
    now repeat split.
Qed.

Lemma check_typed_word_colours_witness :
  let w := run [] (fst (init None Examples.answers Examples.draws
                          1700000000)) in
  exists w' a,
    check_typed_word "do" "" w = (w', Py.Ok tt) /\
    words_indexes w !! 0%nat = Some (a, (a + String.length "dog")%nat) /\
    timer_started w' = true.
Proof.
  intros w.
  assert (Hnow : is_finite 1700000000 = true) by (vm_compute; reflexivity).
  assert (Hidx : TypingSession.current_word_index (session w) = Z.of_nat 0)
    by (vm_compute; reflexivity).
  assert (Hword : words_list w !! 0%nat = Some "dog"%string)
    by (vm_compute; reflexivity).
  destruct (check_typed_word_colours None Examples.answers Examples.draws
              1700000000 [] "do" "" 0 "dog" Hnow (Forall_nil_2 _) Hidx Hword)
    as (w' & a & Hrun & Hpos & _ & _ & _ & _ & _ & Hstarted).
  exists w', a. split; [exact Hrun |]. split; [exact Hpos | exact Hstarted].
Defined.

(** X6. In a window that opened, once the cursor is past the last word
    and the countdown was started, a key release raises [IndexError] and
    changes nothing: the guard of the handler only tests the cursor for
    [-1]. *)
Theorem check_typed_word_over file net rand now0 es typed today :
  let w := run es (fst (init file net rand now0)) in
  timer_started w = true ->
  TypingSession.current_word_index (session w)
    = Z.of_nat (length (words_list w)) ->
  check_typed_word typed today w = (w, Py.Raise Py.IndexError).
Proof.
  intros w Hstarted Hidx.
  assert (Hok : session_ok w).
  { apply run_session_ok. unfold init.
    apply new_session_session_ok, blank_session_ok. }
  clearbody w. destruct Hok as (_ & Hlen & _).
  unfold check_typed_word.
  erewrite (run_bind (read timer_started) _ w) by reflexivity.
  rewrite Hstarted.
  erewrite (run_bind (mret tt) _ w) by reflexivity.
  erewrite run_bind by reflexivity.
  destruct (Z.eqb_spec (TypingSession.current_word_index (session w)) (-1))
    as [Heq|_]; [lia |].
  apply run_bind_raise.
  erewrite run_bind by reflexivity.
  unfold lift. f_equal.
  apply index_out_of_range. rewrite Hlen. lia.
Qed.

Lemma check_typed_word_over_witness :
  let w := run (KeyRelease "d" "" :: submissions Examples.two_words)
             (fst (init None Examples.answers Examples.draws 1700000000)) in
  check_typed_word "x" "" w = (w, Py.Raise Py.IndexError).
Proof.
  intros w.
  assert (Hstarted : timer_started w = true) by (vm_compute; reflexivity).
  assert (Hidx : TypingSession.current_word_index (session w)
                 = Z.of_nat (length (words_list w)))
    by (vm_compute; reflexivity).
  exact (check_typed_word_over None Examples.answers Examples.draws
           1700000000 _ "x" "" Hstarted Hidx).
Defined.

End Colours.

(** ** The countdown across events *)

Section CountdownInvariant.

Import Window.

Implicit Types (w : Window.t) (today typed : string).

(** What a tick does to the countdown. *)
Lemma update_timer_effect today w :
  timer_started (fst (update_timer today w)) = timer_started w /\
  time_entry (fst (update_timer today w))
    = Py.str_of_int (TypingSession.time_left (session w)) /\
  ((0 < TypingSession.time_left (session w) /\
    session (fst (update_timer today w))
      = TypingSession.set_time_left
          (TypingSession.time_left (session w) - 1) (session w) /\
    timer_pending (fst (update_timer today w)) = true /\
    after_id (fst (update_timer today w)) = true) \/
   (TypingSession.time_left (session w) <= 0 /\
    session (fst (update_timer today w)) = session w /\
    timer_pending (fst (update_timer today w)) = timer_pending w /\
    after_id (fst (update_timer today w)) = after_id w)).
Proof.
  destruct (Z.lt_ge_cases 0 (TypingSession.time_left (session w)))
    as [Hleft|Hleft].
  - rewrite update_timer_running by exact Hleft. cbn.
    split; [reflexivity |]. split; [reflexivity |]. left. now repeat split.
  - unfold update_timer, mbind, M_bind, modify, read. cbn.
    rewrite (proj2 (Z.ltb_ge _ _) Hleft).
    set (w0 := set_time_entry
                 (Py.str_of_int (TypingSession.time_left (session w))) w).
    pose (I := fun w' : Window.t =>
            timer_started w' = timer_started w /\
            time_entry w'
              = Py.str_of_int (TypingSession.time_left (session w)) /\
            session w' = session w /\
            timer_pending w' = timer_pending w /\
            after_id w' = after_id w).
    assert (HI : I (fst (end_test today w0))).
    { apply (end_test_keeps today I); try unchanged. now repeat split. }
    destruct HI as (Hstarted & Hentry & Hsession & Hpending & Hafter).
    split; [exact Hstarted |]. split; [exact Hentry |]. right.
    now repeat split.
Qed.

(** The window a key release leaves: the countdown is started if it was
    not, then at most the letter tags change. *)
Lemma check_typed_word_state typed today w :
  let w1 := if timer_started w then w
            else fst (update_timer today (set_timer_started true w)) in
  fst (check_typed_word typed today w) = w1 \/
  exists tags, fst (check_typed_word typed today w) = set_letter_tags tags w1.
Proof.
  assert (Hrest : forall w1, timer_started w1 = true ->
            fst (check_typed_word typed today w1) = w1 \/
            exists tags,
              fst (check_typed_word typed today w1) = set_letter_tags tags w1).
  { intros w1 Hstarted1. unfold check_typed_word.
    erewrite (run_bind (read timer_started) _ w1) by reflexivity.
    rewrite Hstarted1.
    erewrite (run_bind (mret tt) _ w1) by reflexivity.
    erewrite run_bind by reflexivity.
    destruct (_ =? -1); [now left |].
    destruct (Py.index (words_indexes w1)
                (TypingSession.current_word_index (session w1)))
      as [r|e] eqn:Hr.
    - right. eexists.
      erewrite run_bind;
        [| erewrite run_bind by reflexivity; unfold lift; now rewrite Hr].
      erewrite run_bind by reflexivity. reflexivity.
    - left. erewrite run_bind_raise; [reflexivity |].
      erewrite run_bind by reflexivity. unfold lift. now rewrite Hr. }
  cbv zeta. destruct (timer_started w) eqn:Hstarted; [now apply Hrest |].
  destruct (update_timer today (set_timer_started true w)) as [w1 [[]|e]]
    eqn:Hrun; cbn [fst].
  - rewrite (check_typed_word_first typed today w w1 Hstarted Hrun).
    apply Hrest.
    change w1 with (fst (w1, @Py.Ok unit tt)). rewrite <- Hrun.
    apply (update_timer_keeps today (fun w' => timer_started w' = true));
      try unchanged. reflexivity.
  - left. unfold check_typed_word.
    erewrite (run_bind (read timer_started) _ w) by reflexivity.
    rewrite Hstarted.
    erewrite run_bind_raise; [reflexivity |].
    erewrite run_bind by reflexivity. exact Hrun.
Qed.

Lemma update_timer_countdown_ok today w :
  timer_started w = true -> countdown_ok w ->
  countdown_ok (fst (update_timer today w)).
Proof.
  intros Hstarted (Hrange & Hpending & Hidle).
  destruct (update_timer_effect today w)
    as (Hstarted' & _ & [(Hleft & Hs & Hp & Ha)|(Hleft & Hs & Hp & Ha)]);
    unfold countdown_ok; rewrite Hstarted', Hs, Hp, Ha, Hstarted; cbn.
  - split; [lia |]. split; [tauto | discriminate].
  - split; [lia |]. split; [tauto | discriminate].
Qed.

Lemma new_session_countdown_ok net rand now w :
  timer_pending w = false -> timer_started w = false ->
  countdown_ok (fst (new_session net rand now w)).
Proof.
  intros Hpending Hstarted.
  destruct (new_session_eq net rand now w) as (pool & _ & ->). cbv zeta.
  destruct (get_last_score (score_csv w)) as [[sc|]|e];
    unfold countdown_ok; cbn; rewrite Hpending, Hstarted;
    (split; [lia |]); (split; [discriminate | reflexivity]).
Qed.

Lemma reset_countdown_ok net rand now w :
  (timer_pending w = true -> after_id w = true) ->
  countdown_ok (fst (reset net rand now w)).
Proof.
  intros Hpending. rewrite reset_eq.
  apply new_session_countdown_ok; [| reflexivity].
  destruct (after_id w) eqn:Hafter; cbn; [reflexivity |].
  destruct (timer_pending w); [| reflexivity].
  symmetry. now apply Hpending.
Qed.

Lemma handle_countdown_ok e w : countdown_ok w -> countdown_ok (handle e w).
Proof.
  intros Hok. destruct e as [typed today|entry now today|today
                            |net rand now|i net rand now]; cbn [handle].
  - assert (Hstart : countdown_ok
              (if timer_started w then w
               else fst (update_timer today (set_timer_started true w)))).
    { destruct (timer_started w) eqn:Hstarted; [exact Hok |].
      apply update_timer_countdown_ok; [reflexivity |].
      destruct Hok as (Hrange & Hpending & Hidle).
      unfold countdown_ok. cbn. rewrite Hstarted in Hpending.
      split; [exact Hrange |]. split; [| discriminate].
      intros Hp. destruct (Hpending Hp) as [_ Hcontra]. discriminate Hcontra. }
    destruct (check_typed_word_state typed today w) as [->|[tags ->]];
      exact Hstart.
  - apply space_pressed_keeps; try unchanged; [| | | exact Hok].
    + intros w0 correct s1 Hw0 Hrun.
      apply check_word_only_counters in Hrun as (actual & _ & _ & ->).
      exact Hw0.
    + intros w0 s2 Hw0 Hrun.
      apply update_metrics_returns in Hrun as (c & p & ->). exact Hw0.
    + intros w0 Hw0. rewrite next_word_state. exact Hw0.
  - destruct (timer_pending w) eqn:Hpending; [| exact Hok].
    destruct Hok as (Hrange & Hp & Hidle).
    destruct (Hp Hpending) as [Hafter Hstarted].
    apply update_timer_countdown_ok; [exact Hstarted |].
    unfold countdown_ok. cbn. rewrite Hstarted.
    split; [exact Hrange |]. split; discriminate.
  - apply reset_countdown_ok. intros Hp. now apply Hok.
  - rewrite change_language_eq. apply reset_countdown_ok.
    cbn. intros Hp. now apply Hok.
Qed.

Lemma run_countdown_ok es : forall w, countdown_ok w -> countdown_ok (run es w).
Proof.
  induction es as [|e es IH]; intros w Hok; [exact Hok |].
  apply IH, handle_countdown_ok, Hok.
Qed.

Lemma init_countdown_ok file net rand now :
  countdown_ok (fst (init file net rand now)).
Proof. now apply new_session_countdown_ok. Qed.

End CountdownInvariant.

Section CountdownProperties.

Import Window.

Implicit Types (w : Window.t) (today typed : string).

(** X7. In a window that opened, whatever events follow, between 0 and
    60 seconds are left; a scheduled tick has its identifier recorded in
    [after_id] and belongs to a countdown that was started; and as long
    as the countdown of the current test was not started, 60 seconds are
    left and no tick is scheduled. *)
Theorem countdown_invariant file net rand now es :
  let w := run es (fst (init file net rand now)) in
  0 <= TypingSession.time_left (session w) <= 60 /\
  (timer_pending w = true -> after_id w = true /\ timer_started w = true) /\
  (timer_started w = false ->
   TypingSession.time_left (session w) = 60 /\ timer_pending w = false).
Proof.
  intros w.
  assert (Hok : countdown_ok w) by apply run_countdown_ok, init_countdown_ok.
  clearbody w. destruct Hok as (Hrange & Hpending & Hidle).
  split; [exact Hrange |]. split; [exact Hpending |].
  intros Hstarted. split; [now apply Hidle |].
  destruct (timer_pending w); [| reflexivity].
  destruct Hpending as [_ Hcontra]; [reflexivity | congruence].
Qed.

(** X8. The countdown starts with the first key release of a test, not
    when the test is shown. That release shows 60, leaves 59 seconds and
    schedules the next tick, without ending the test; a key release once
    the countdown was started leaves the session, the time shown and the
    scheduling as they are. *)
Theorem first_key_release_starts_countdown file net rand now es typed today :
  let w := run es (fst (init file net rand now)) in
  let w' := handle (KeyRelease typed today) w in
  (timer_started w = false ->
   timer_started w' = true /\
   TypingSession.time_left (session w') = 59 /\
   timer_pending w' = true /\
   time_entry w' = "60"%string /\
   typed_text_entry w' = typed_text_entry w /\
   score_csv w' = score_csv w /\
   dialogs w' = dialogs w) /\
  (timer_started w = true ->
   timer_started w' = true /\
   session w' = session w /\
   timer_pending w' = timer_pending w /\
   time_entry w' = time_entry w /\
   typed_text_entry w' = typed_text_entry w /\
   score_csv w' = score_csv w /\
   dialogs w' = dialogs w).
Proof.
  intros w w'.
  assert (Hok : countdown_ok w) by apply run_countdown_ok, init_countdown_ok.
  unfold w'. clearbody w. clear w'. cbn [handle].
  destruct Hok as (_ & _ & Hidle).
  pose proof (check_typed_word_state typed today w) as Hstate.
  cbv zeta in Hstate. split; intros Hstarted; rewrite Hstarted in Hstate.
  - rewrite update_timer_running in Hstate
      by (cbn; rewrite (Hidle Hstarted); lia).
    cbn [fst] in Hstate.
    destruct Hstate as [->|[tags ->]]; cbn; rewrite (Hidle Hstarted);
      repeat split.
  - destruct Hstate as [->|[tags ->]]; cbn; repeat split; exact Hstarted.
Qed.

Lemma reset_state net rand now w :
  (timer_pending w = true -> after_id w = true) ->
  exists pool,
    WordsList.get_list rand (fst (WordsList.init net (idiom w))) = Py.Ok pool /\
    let w1 := fresh pool now (snd (WordsList.init net (idiom w)))
                (set_timer_started false
                   (set_after_id false (set_timer_pending false w))) in
    (fst (reset net rand now w) = w1 \/
     exists sc,
       fst (reset net rand now w)
       = set_recent_score_entry (last_score_text sc) w1).
Proof.
  intros Hpending. rewrite reset_eq.
  assert (Hcancel : (if after_id w
                     then set_after_id false (set_timer_pending false w)
                     else w)
                    = set_after_id false (set_timer_pending false w)).
  { destruct (after_id w) eqn:Hafter; [reflexivity |].
    destruct (timer_pending w) eqn:Hp.
    - discriminate (Hpending eq_refl).
    - destruct w. cbn in *. now subst. }
  rewrite Hcancel.
  destruct (new_session_eq net rand now
              (set_timer_started false
                 (set_after_id false (set_timer_pending false w))))
    as (pool & Hpool & ->).
  exists pool. split; [exact Hpool |]. cbv zeta.
  destruct (get_last_score _) as [[sc|]|e]; cbn [fst].
  - right. exists sc. reflexivity.
  - left. reflexivity.
  - left. reflexivity.
Qed.

(** X9. In a window that opened, whatever events came before, a restart
    leaves a fresh test, whether [new_session] then returns or raises
    while reading the score log: the tick that was scheduled is cancelled
    and the countdown is not started, the words are those drawn from the
    answer to the request for the language of the window, the session is
    the initial one over them (cursor and counters at 0, 60 seconds
    left), the text shows them with their positions, the first word is
    highlighted, the tags and the two metric entries are empty, the time
    shown is 60 and the entry is enabled; the score log is untouched. A
    change of language does the same for the language chosen, which it
    records. *)
Theorem restart_opens_fresh_test file net0 rand0 now0 es i net rand now :
  let w := run es (fst (init file net0 rand0 now0)) in
  (let w' := handle (Restart net rand now) w in
   exists pool,
     WordsList.get_list rand (fst (WordsList.init net (idiom w)))
       = Py.Ok pool /\
     idiom w' = idiom w /\
     words_list w' = pool /\
     session w' = TypingSession.init pool now /\
     timer_started w' = false /\
     timer_pending w' = false /\
     after_id w' = false /\
     typed_text_entry w' = Normal /\
     time_entry w' = "60"%string /\
     corrected_cpm_entry w' = EmptyString /\
     wpm_entry w' = EmptyString /\
     text w' = joined pool /\
     words_indexes w' = positions 0 pool /\
     highlight w' = head (positions 0 pool) /\
     letter_tags w' = [] /\
     word_tags w' = [] /\
     score_csv w' = score_csv w /\
     dialogs w' = dialogs w) /\
  (let w' := handle (Language i net rand now) w in
   exists pool,
     WordsList.get_list rand (fst (WordsList.init net i)) = Py.Ok pool /\
     idiom w' = i /\
     words_list w' = pool /\
     session w' = TypingSession.init pool now /\
     timer_started w' = false /\
     timer_pending w' = false /\
     after_id w' = false /\
     typed_text_entry w' = Normal /\
     time_entry w' = "60"%string /\
     corrected_cpm_entry w' = EmptyString /\
     wpm_entry w' = EmptyString /\
     text w' = joined pool /\
     words_indexes w' = positions 0 pool /\
     highlight w' = head (positions 0 pool) /\
     letter_tags w' = [] /\
     word_tags w' = [] /\
     score_csv w' = score_csv w /\
     dialogs w' = dialogs w).
Proof.
  intros w.
  assert (Hok : countdown_ok w) by apply run_countdown_ok, init_countdown_ok.
  clearbody w. destruct Hok as (_ & Hpending & _).
  split; cbv zeta; cbn [handle].
  - destruct (reset_state net rand now w) as (pool & Hpool & Hstate);
      [intros Hp; now apply Hpending |].
    exists pool. split; [exact Hpool |]. cbv zeta in Hstate.
    destruct Hstate as [->|[sc ->]]; cbn; repeat split.
  - rewrite change_language_eq.
    destruct (reset_state net rand now
                (set_timer_started false (set_idiom i w)))
      as (pool & Hpool & Hstate); [intros Hp; now apply Hpending |].
    exists pool. split; [exact Hpool |]. cbv zeta in Hstate.
    destruct Hstate as [->|[sc ->]]; cbn; repeat split.
Qed.

End CountdownProperties.

(** ** The end of a test: [Window.end_test] *)

Section ScoreProperties.

Import Window.

Implicit Types (w : Window.t) (today : string) (rows : list (list string)).

(** A metric that counts as false converts to [0]. *)
Lemma falsy_int_of (x : Py.number) (c : Z) :
  Py.truthy x = false -> Py.int_of x = Py.Ok c -> c = 0.
Proof.
  destruct x as [z|f]; cbn; intros Hfalse Hint.
  - injection Hint as <-. apply negb_false_iff in Hfalse. lia.
  - apply negb_false_iff in Hfalse.
    rewrite FloatAxioms.eqb_spec, zero_spec in Hfalse.
    unfold Py.int_of_float in Hint.
    destruct (Prim2SF f) as [sg|sg| |sg m e]; cbn in Hfalse;
      try discriminate Hfalse; try (destruct sg; discriminate Hfalse).
    now injection Hint as <-.
Qed.

Lemma end_test_eq today w c p :
  Py.int_of (TypingSession.cpm_corrected (session w)) = Py.Ok c ->
  Py.int_of (TypingSession.wpm (session w)) = Py.Ok p ->
  end_test today w =
  (set_dialogs (S (dialogs w))
     (set_score_csv
        (Some (log_rows (score_csv w) ++ [score_row today (idiom w) c p]))
        (set_recent_score_entry (score_text c p)
           (set_typed_text_entry Disabled w))),
   Py.Ok tt).
Proof.
  intros Hc Hp.
  assert (Hc' : (if Py.truthy (TypingSession.cpm_corrected (session w))
                 then lift (Py.int_of (TypingSession.cpm_corrected (session w)))
                 else mret 0) = (mret c : M Z)).
  { destruct (Py.truthy (TypingSession.cpm_corrected (session w)))
      eqn:Htruthy; [rewrite Hc; reflexivity |].
    rewrite (falsy_int_of _ _ Htruthy Hc). reflexivity. }
  assert (Hp' : (if Py.truthy (TypingSession.wpm (session w))
                 then lift (Py.int_of (TypingSession.wpm (session w)))
                 else mret 0) = (mret p : M Z)).
  { destruct (Py.truthy (TypingSession.wpm (session w)))
      eqn:Htruthy; [rewrite Hp; reflexivity |].
    rewrite (falsy_int_of _ _ Htruthy Hp). reflexivity. }
  unfold end_test, mbind, M_bind, modify, read. cbn.
  rewrite Hc'. cbn. rewrite Hp'. cbn.
  rewrite save_score_to_csv_ok with (c := c) (p := p);
    [| exact Hc | exact Hp].
  reflexivity.
Qed.

(** X10. When both metrics convert to integers [c] and [p], [end_test]
    returns. It disables the entry, shows [c CPM (p WPM)] and appends to
    the score log the row with the date, the language and the same two
    integers, after a header if the file did not exist: a metric that
    counts as false is shown as 0 and is also saved as 0. One dialog is
    shown, and the session, the scheduled tick and its identifier are
    left as they were. *)
Theorem end_test_shows_what_it_saves today w c p :
  Py.int_of (TypingSession.cpm_corrected (session w)) = Py.Ok c ->
  Py.int_of (TypingSession.wpm (session w)) = Py.Ok p ->
  exists w',
    end_test today w = (w', Py.Ok tt) /\
    typed_text_entry w' = Disabled /\
    recent_score_entry w'
      = Py.str_of_int c +:+ " CPM (" +:+ Py.str_of_int p +:+ " WPM)" /\
    score_csv w'
      = Some (match score_csv w with
              | None => [header]
              | Some rows => rows
              end
              ++ [[today; lang_of (idiom w);
                   Py.str_of_int c; Py.str_of_int p]]) /\
    dialogs w' = S (dialogs w) /\
    session w' = session w /\
    timer_pending w' = timer_pending w /\
    after_id w' = after_id w /\
    timer_started w' = timer_started w.
Proof.
  intros Hc Hp. rewrite (end_test_eq today w c p Hc Hp).
  eexists. split; [reflexivity |]. cbn. repeat split.
Qed.

Lemma end_test_shows_what_it_saves_witness :
  exists w',
    end_test "2026-01-01 10:00:00" Examples.opened = (w', Py.Ok tt) /\
    recent_score_entry w' = "0 CPM (0 WPM)"%string.
Proof.
  destruct (end_test_shows_what_it_saves "2026-01-01 10:00:00"
              Examples.opened 0 0 eq_refl eq_refl)
    as (w' & Hrun & _ & Hrecent & _).
  exists w'. split; [exact Hrun | exact Hrecent].
Defined.

End ScoreProperties.

Section ScoreLogProperties.

Import Window.

Implicit Types (w : Window.t) (today : string) (rows : list (list string)).

Lemma run_app es1 es2 w : run (es1 ++ es2) w = run es2 (run es1 w).
Proof. apply foldl_app. Qed.

(** A countdown that is running reaches zero after as many timer events
    as seconds are left, and nothing else of the test changes. *)
Lemma timers_count_down today n : forall w,
  timer_pending w = true ->
  TypingSession.time_left (session w) = Z.of_nat n ->
  TypingSession.time_left (session (run (replicate n (Timer today)) w)) = 0 /\
  timer_pending (run (replicate n (Timer today)) w) = true /\
  score_csv (run (replicate n (Timer today)) w) = score_csv w /\
  dialogs (run (replicate n (Timer today)) w) = dialogs w /\
  idiom (run (replicate n (Timer today)) w) = idiom w /\
  TypingSession.cpm_corrected (session (run (replicate n (Timer today)) w))
    = TypingSession.cpm_corrected (session w) /\
  TypingSession.wpm (session (run (replicate n (Timer today)) w))
    = TypingSession.wpm (session w).
Proof.
  induction n as [|n IH]; intros w Hpending Hleft.
  - cbn. now repeat split.
  - change (run (replicate (S n) (Timer today)) w)
      with (run (replicate n (Timer today)) (handle (Timer today) w)).
    cbn [handle]. rewrite Hpending.
    rewrite update_timer_running by (cbn; lia). cbn [fst].
    match goal with |- context [run _ ?w1] =>
      destruct (IH w1) as (H1 & H2 & H3 & H4 & H5 & H6 & H7);
      [reflexivity | cbn; lia |]
    end.
    rewrite H1, H2, H3, H4, H5, H6, H7. now repeat split.
Qed.

(** X11. [end_test] does not cancel the countdown. When a test ends
    while a tick is scheduled and [n] seconds are left, as it does on the
    last word, the [n + 1] timer events that follow end it again: the
    score log then holds two rows for the test, with the same scores, two
    dialogs were shown and no tick is scheduled any more. *)
Theorem test_recorded_twice d1 d2 w c p n :
  Py.int_of (TypingSession.cpm_corrected (session w)) = Py.Ok c ->
  Py.int_of (TypingSession.wpm (session w)) = Py.Ok p ->
  timer_pending w = true ->
  TypingSession.time_left (session w) = Z.of_nat n ->
  exists w1,
    end_test d1 w = (w1, Py.Ok tt) /\
    timer_pending w1 = true /\
    TypingSession.time_left (session w1) = Z.of_nat n /\
    let w2 := run (replicate (S n) (Timer d2)) w1 in
    score_csv w2
      = Some (match score_csv w with
              | None => [header]
              | Some rows => rows
              end
              ++ [[d1; lang_of (idiom w); Py.str_of_int c; Py.str_of_int p];
                  [d2; lang_of (idiom w); Py.str_of_int c; Py.str_of_int p]]) /\
    dialogs w2 = S (S (dialogs w)) /\
    timer_pending w2 = false.
Proof.
  intros Hc Hp Hpending Hleft.
  rewrite (end_test_eq d1 w c p Hc Hp).
  eexists. split; [reflexivity |].
  split; [exact Hpending |]. split; [exact Hleft |].
  match goal with |- let w2 := run _ ?w0 in _ => set (w1 := w0) end.
  cbv zeta.
  replace (replicate (S n) (Timer d2))
    with (replicate n (Timer d2) ++ [Timer d2])
    by (symmetry; apply replicate_S_end).
  rewrite run_app.
  destruct (timers_count_down d2 n w1 Hpending Hleft)
    as (Hzero & Hpending' & Hcsv & Hdialogs & Hidiom & Hcpm & Hwpm).
  set (w' := run (replicate n (Timer d2)) w1) in *. clearbody w'.
  change (run [Timer d2] w') with (handle (Timer d2) w').
  cbn [handle]. rewrite Hpending'.
  unfold update_timer, mbind, M_bind, modify, read. cbn.
  rewrite Hzero. cbn.
  rewrite (end_test_eq d2 _ c p);
    [| cbn; rewrite Hcpm; exact Hc | cbn; rewrite Hwpm; exact Hp].
  cbn. rewrite Hcsv, Hdialogs, Hidiom. cbn.
  rewrite <- app_assoc. repeat split.
Qed.

Lemma test_recorded_twice_witness :
  exists w1,
    end_test "10:00:20" (fst (update_timer "10:00:00" Examples.opened))
      = (w1, Py.Ok tt) /\
    timer_pending w1 = true.
Proof.
  assert (Hpending : timer_pending
                       (fst (update_timer "10:00:00" Examples.opened)) = true)
    by (vm_compute; reflexivity).
  assert (Hleft : TypingSession.time_left
                    (session (fst (update_timer "10:00:00" Examples.opened)))
                  = Z.of_nat 59) by (vm_compute; reflexivity).
  assert (Hc : Py.int_of (TypingSession.cpm_corrected
                 (session (fst (update_timer "10:00:00" Examples.opened))))
               = Py.Ok 0) by (vm_compute; reflexivity).
  assert (Hp : Py.int_of (TypingSession.wpm
                 (session (fst (update_timer "10:00:00" Examples.opened))))
               = Py.Ok 0) by (vm_compute; reflexivity).
  destruct (test_recorded_twice "10:00:20" "10:01:00" _ 0 0 59%nat
              Hc Hp Hpending Hleft) as (w1 & Hrun & Hp1 & _).
  exists w1. split; [exact Hrun | exact Hp1].
Defined.

End ScoreLogProperties.

(** ** The last score: [Window.get_last_score] and [Window.new_session] *)

Section LastScore.

Import Window.

Implicit Types (w : Window.t) (today : string) (rows : list (list string)).

(** Only the last row of the log is read. *)
Lemma get_last_score_last rows row :
  rows <> [] ->
  get_last_score (Some (rows ++ [row])) =
  (d ← Py.index row 0;
   l ← Py.index row 1;
   c ← Py.index row 2;
   c ← Py.int_of_str c;
   p ← Py.index row 3;
   p ← Py.int_of_str p;
   Py.Ok (Some (mk_score d l c p))).
Proof.
  intros Hrows. unfold get_last_score.
  assert (Hlen : (length (rows ++ [row]) <=? 1)%nat = false).
  { apply Nat.leb_gt. rewrite length_app. cbn.
    destruct rows; [congruence | cbn; lia]. }
  now rewrite Hlen, index_last, bind_ok.
Qed.

Lemma new_session_raises net rand now w e :
  get_last_score (score_csv w) = Py.Raise e ->
  snd (new_session net rand now w) = Py.Raise e.
Proof.
  intros Hlast.
  destruct (new_session_eq net rand now w) as (pool & _ & ->).
  cbv zeta. now rewrite Hlast.
Qed.

(** X12. Of a score log of at least two rows, [get_last_score] reads
    the last row only. A last row of fewer than three fields, such as a
    blank line, makes it raise [IndexError], and then the construction of
    the window raises too. A last row of four fields whose last two are
    decimal integers is returned with these integers. *)
Theorem malformed_log_stops_the_window rows row net rand now :
  rows <> [] ->
  (forall rows', rows' <> [] ->
     get_last_score (Some (rows' ++ [row]))
     = get_last_score (Some (rows ++ [row]))) /\
  ((length row < 3)%nat ->
   get_last_score (Some (rows ++ [row])) = Py.Raise Py.IndexError /\
   init (Some (rows ++ [row])) net rand now
   = (fst (init (Some (rows ++ [row])) net rand now),
      Py.Raise Py.IndexError)) /\
  (forall d l c p zc zp,
     row = [d; l; c; p] ->
     Py.int_of_str c = Py.Ok zc -> Py.int_of_str p = Py.Ok zp ->
     get_last_score (Some (rows ++ [row]))
     = Py.Ok (Some (mk_score d l zc zp))).
Proof.
  intros Hrows. split; [| split].
  - intros rows' Hrows'. now rewrite !get_last_score_last.
  - intros Hshort.
    assert (Hlast : get_last_score (Some (rows ++ [row]))
                    = Py.Raise Py.IndexError).
    { rewrite get_last_score_last by exact Hrows.
      destruct row as [|d [|l [|c rest]]]; [reflexivity .. |].
      cbn in Hshort. lia. }
    split; [exact Hlast |].
    rewrite (surjective_pairing (init _ net rand now)) at 1.
    f_equal. now apply new_session_raises.
  - intros d l c p zc zp -> Hc Hp.
    rewrite get_last_score_last by exact Hrows.
    change (Py.index [d; l; c; p] 0) with (Py.Ok d).
    change (Py.index [d; l; c; p] 1) with (Py.Ok l).
    change (Py.index [d; l; c; p] 2) with (Py.Ok c).
    change (Py.index [d; l; c; p] 3) with (Py.Ok p).
    now rewrite !bind_ok, Hc, !bind_ok, Hp.
Qed.

Lemma malformed_log_stops_the_window_witness :
  snd (init (Some ([header] ++ [[]])) Examples.answers Examples.draws
         1700000000)
  = Py.Raise Py.IndexError.
Proof.
  assert (Hrows : [header] <> []) by discriminate.
  destruct (malformed_log_stops_the_window [header] [] Examples.answers
              Examples.draws 1700000000 Hrows) as (_ & Hshort & _).
  destruct Hshort as [_ Hinit]; [cbn; lia |].
  rewrite Hinit. reflexivity.
Defined.

Lemma new_session_shows net rand now w sc :
  get_last_score (score_csv w) = Py.Ok (Some sc) ->
  exists w',
    new_session net rand now w = (w', Py.Ok tt) /\
    recent_score_entry w' = last_score_text sc /\
    score_csv w' = score_csv w.
Proof.
  intros Hlast.
  destruct (new_session_eq net rand now w) as (pool & _ & ->).
  cbv zeta. rewrite Hlast. eexists. split; [reflexivity |].
  split; reflexivity.
Qed.

(** X13. The score of a test that ended is what the next test shows.
    After [end_test] on a log that is absent or holds a row, [reset]
    returns and the recent-score entry reads
    [Lang: <language> c CPM (p WPM)], with the language and the integers
    of the row just saved, and leaves the log as it is; a window
    constructed on that log shows the same. *)
Theorem restart_shows_last_score today w c p net rand now :
  Py.int_of (TypingSession.cpm_corrected (session w)) = Py.Ok c ->
  Py.int_of (TypingSession.wpm (session w)) = Py.Ok p ->
  score_csv w <> Some [] ->
  exists w1 w2 w3,
    end_test today w = (w1, Py.Ok tt) /\
    reset net rand now w1 = (w2, Py.Ok tt) /\
    recent_score_entry w2
      = "Lang: " +:+ lang_of (idiom w) +:+ " " +:+ Py.str_of_int c
        +:+ " CPM (" +:+ Py.str_of_int p +:+ " WPM)" /\
    score_csv w2 = score_csv w1 /\
    init (score_csv w1) net rand now = (w3, Py.Ok tt) /\
    recent_score_entry w3 = recent_score_entry w2.
Proof.
  intros Hc Hp Hfile.
  rewrite (end_test_eq today w c p Hc Hp).
  assert (Hlast : get_last_score
                    (Some (log_rows (score_csv w)
                           ++ [score_row today (idiom w) c p]))
                  = Py.Ok (Some (mk_score today (lang_of (idiom w)) c p))).
  { apply get_last_score_row.
    destruct (score_csv w) as [[|row rows]|]; cbn; congruence. }
  match goal with |- exists w1 w2 w3, (?w0, _) = _ /\ _ =>
    set (w1 := w0)
  end.
  destruct (new_session_shows net rand now
              (set_timer_started false
                 (if after_id w1
                  then set_after_id false (set_timer_pending false w1)
                  else w1)) _
              ltac:(destruct (after_id w1); exact Hlast))
    as (w2 & Hrun2 & Hrecent2 & Hcsv2).
  destruct (new_session_shows net rand now (blank (score_csv w1)) _ Hlast)
    as (w3 & Hrun3 & Hrecent3 & _).
  exists w1, w2, w3. split; [reflexivity |].
  split; [rewrite reset_eq; exact Hrun2 |].
  split; [exact Hrecent2 |].
  split; [rewrite Hcsv2; now destruct (after_id w1) |].
  split; [exact Hrun3 |]. now rewrite Hrecent3, Hrecent2.
Qed.

Lemma restart_shows_last_score_witness :
  exists w1 w2,
    end_test "2026-01-01 10:01:00" Examples.opened = (w1, Py.Ok tt) /\
    reset Examples.answers Examples.draws 1700000100 w1 = (w2, Py.Ok tt) /\
    recent_score_entry w2 = "Lang: en 0 CPM (0 WPM)"%string.
Proof.
  assert (Hfile : score_csv Examples.opened <> Some []) by discriminate.
  destruct (restart_shows_last_score "2026-01-01 10:01:00" Examples.opened
              0 0 Examples.answers Examples.draws 1700000100
              eq_refl eq_refl Hfile)
    as (w1 & w2 & w3 & Hrun1 & Hrun2 & Hrecent & _).
  exists w1, w2. split; [exact Hrun1 |]. split; [exact Hrun2 | exact Hrecent].
Defined.

End LastScore.

(** ** What a submission does *)

Section SubmissionEffect.

Import Window.

Implicit Types (w : Window.t) (today entry : string).

Lemma update_cpm_eq x v w :
  Py.int_of x = Py.Ok v ->
  update_cpm x w = (set_corrected_cpm_entry (Py.str_of_int v) w, Py.Ok tt).
Proof.
  intros Hv. unfold update_cpm, mbind, M_bind, modify, lift.
  rewrite Hv. reflexivity.
Qed.

Lemma update_wpm_eq x v w :
  Py.int_of x = Py.Ok v ->
  update_wpm x w = (set_wpm_entry (Py.str_of_int v) w, Py.Ok tt).
Proof.
  intros Hv. unfold update_wpm, mbind, M_bind, modify, lift.
  rewrite Hv. reflexivity.
Qed.

(** A submission whose steps all return, step by step. *)
Lemma space_pressed_eq entry now today w correct s1 s2 vc vp r :
  TypingSession.check_word (Py.strip entry) (session w)
    = Py.Ok (correct, s1) ->
  TypingSession.update_metrics now s1 = Py.Ok s2 ->
  Py.int_of (TypingSession.cpm_corrected s2) = Py.Ok vc ->
  Py.int_of (TypingSession.wpm s2) = Py.Ok vp ->
  Py.index (words_indexes w) (TypingSession.current_word_index s2) = Py.Ok r ->
  0 <= TypingSession.current_word_index s2 + 1 ->
  space_pressed entry now today w =
  (if Z.of_nat (length (words_list w))
      <=? TypingSession.current_word_index s2 + 1
   then end_test today else highlight_next_word)
    (set_session
       (TypingSession.set_current_word_index
          (TypingSession.current_word_index s2 + 1) s2)
       (set_word_tags
          (filter (fun t => fst t ≠ r) (word_tags w) ++ [(r, correct)])
          (set_wpm_entry (Py.str_of_int vp)
             (set_corrected_cpm_entry (Py.str_of_int vc)
                (set_session s2 w))))).
Proof.
  intros Hcheck Hupdate Hvc Hvp Hr Hnext.
  unfold space_pressed. cbv zeta.
  erewrite run_bind; [| unfold on_session; rewrite Hcheck; reflexivity].
  erewrite run_bind;
    [| unfold on_session; cbn [session set_session];
       rewrite Hupdate, bind_ok; reflexivity].
  erewrite run_bind by reflexivity.
  erewrite run_bind by (apply update_cpm_eq; exact Hvc).
  erewrite run_bind by reflexivity.
  erewrite run_bind by (apply update_wpm_eq; exact Hvp).
  erewrite run_bind by reflexivity.
  erewrite run_bind;
    [| erewrite run_bind by reflexivity; unfold lift;
       cbn [session set_session set_wpm_entry set_corrected_cpm_entry
            words_indexes];
       rewrite Hr; reflexivity].
  erewrite run_bind by reflexivity.
  destruct (next_word_returns s2 Hnext) as [o Ho].
  erewrite run_bind;
    [| unfold on_session;
       cbn [session set_session set_wpm_entry set_corrected_cpm_entry
            set_word_tags];
       rewrite (surjective_pairing (TypingSession.next_word s2)),
         next_word_state, Ho, bind_ok; reflexivity].
  erewrite run_bind by reflexivity.
  erewrite run_bind by reflexivity.
  reflexivity.
Qed.

End SubmissionEffect.

Section SubmissionProperties.

Import Window.

Implicit Types (w : Window.t) (today entry : string).

(** A submission on the [k]-th word of a pool, at a finite clock
    reading: the session after the three session calls, and the rest of
    the handler. *)
Lemma space_pressed_effect entry now today w k actual :
  scoring_ok w ->
  is_finite now = true ->
  TypingSession.current_word_index (session w) = Z.of_nat k ->
  words_list w !! k = Some actual ->
  exists r cm pm vc vp,
    words_indexes w !! k = Some r /\
    Py.int_of cm = Py.Ok vc /\
    Py.int_of pm = Py.Ok vp /\
    (String.length actual <= 8)%nat /\
    (k < 200)%nat /\
    let correct := bool_decide (Py.strip entry = actual) in
    let s2 :=
      TypingSession.set_metrics cm pm
        (TypingSession.set_correct_words
           (TypingSession.correct_words (session w)
            + (if correct then 1 else 0))
           (TypingSession.set_correct_chars
              (TypingSession.correct_chars (session w)
               + Z.of_nat (TypingSession.credit (Py.strip entry) actual))
              (session w))) in
    space_pressed entry now today w =
    (if Z.of_nat (length (words_list w)) <=? Z.of_nat k + 1
     then end_test today else highlight_next_word)
      (set_session
         (TypingSession.set_current_word_index (Z.of_nat k + 1) s2)
         (set_word_tags
            (filter (fun t => fst t ≠ r) (word_tags w) ++ [(r, correct)])
            (set_wpm_entry (Py.str_of_int vp)
               (set_corrected_cpm_entry (Py.str_of_int vc)
                  (set_session s2 w))))).
Proof.
  intros ((Hsame & Hpos & Hrange) & Hshort & Hsize & Hchars & Hstart & Hcpm
          & Hwpm) Hnow Hidx Hword.
  pose proof (lookup_lt_Some _ _ _ Hword) as Hk.
  assert (Hactual : Py.index (TypingSession.words (session w))
                      (TypingSession.current_word_index (session w))
                    = Py.Ok actual).
  { rewrite Hidx, Hsame. now apply index_lookup. }
  assert (Hactual_short : (String.length actual <= 8)%nat).
  { apply list_elem_of_lookup_2 in Hword.
    exact (proj1 (Forall_forall _ _) Hshort actual Hword). }
  destruct (lookup_lt_is_Some_2 (words_indexes w) k) as [r Hr]; [lia |].
  pose proof (TypingSession.check_word (Py.strip entry) (session w)) as X.
  clear X.
  destruct (TypingSession.check_word (Py.strip entry) (session w))
    as [[correct s1]|e] eqn:Hcheck;
    [| rewrite (check_word_eq _ actual _ Hactual) in Hcheck;
       discriminate Hcheck].
  destruct (check_word_only_counters _ _ _ _ Hcheck)
    as (actual' & Hactual' & Hcorrect & Hs1).
  rewrite Hactual in Hactual'. injection Hactual' as <-.
  pose proof (credit_le_actual (Py.strip entry) actual) as Hcredit.
  destruct (update_metrics_displayable now s1) as (cm & pm & Hupdate & Hc & Hp);
    [rewrite Hs1; cbn; lia | exact Hnow | now rewrite Hs1 | now rewrite Hs1
    | now rewrite Hs1 |].
  destruct Hc as [vc Hvc], Hp as [vp Hvp].
  exists r, cm, pm, vc, vp.
  split; [exact Hr |]. split; [exact Hvc |]. split; [exact Hvp |].
  split; [exact Hactual_short |]. split; [lia |]. cbv zeta.
  rewrite (space_pressed_eq entry now today w correct s1
             (TypingSession.set_metrics cm pm s1) vc vp r Hcheck Hupdate
             Hvc Hvp);
    [| rewrite Hs1; cbn; rewrite Hidx; now apply index_lookup
     | rewrite Hs1; cbn; lia].
  rewrite Hs1, Hcorrect. cbn. rewrite Hidx. reflexivity.
Qed.

(** X14. In a window that opened, after any events with finite clock
    readings, a submission at a finite clock reading with the cursor on
    the [k]-th word returns. The word is correct exactly when the entry
    without the blanks around it is the word: [correct_words] grows by one
    then, [correct_chars] by the credit of the stripped entry, the word
    gets one tag saying so, and the cursor moves to [k + 1] while the
    time left is unchanged. The two metric entries show the integer parts
    of the metrics of the session. If the word was not the last one, the
    next word is highlighted and nothing is saved; if it was, the entry is
    disabled, one dialog is shown and one row with those two integers is
    appended to the score log. *)
Theorem submission_scores_and_moves file net rand now0 es entry now today
    k actual :
  let w := run es (fst (init file net rand now0)) in
  is_finite now0 = true ->
  Forall finite_clock es ->
  is_finite now = true ->
  TypingSession.current_word_index (session w) = Z.of_nat k ->
  words_list w !! k = Some actual ->
  exists w' r vc vp,
    space_pressed entry now today w = (w', Py.Ok tt) /\
    words_indexes w !! k = Some r /\
    let correct := bool_decide (Py.strip entry = actual) in
    let last := bool_decide (length (words_list w) = S k) in
    TypingSession.correct_words (session w')
      = TypingSession.correct_words (session w) + (if correct then 1 else 0) /\
    TypingSession.correct_chars (session w')
      = TypingSession.correct_chars (session w)
        + Z.of_nat (TypingSession.credit (Py.strip entry) actual) /\
    TypingSession.current_word_index (session w') = Z.of_nat k + 1 /\
    TypingSession.time_left (session w')
      = TypingSession.time_left (session w) /\
    word_tags w'
      = filter (fun t => fst t ≠ r) (word_tags w) ++ [(r, correct)] /\
    Py.int_of (TypingSession.cpm_corrected (session w')) = Py.Ok vc /\
    Py.int_of (TypingSession.wpm (session w')) = Py.Ok vp /\
    corrected_cpm_entry w' = Py.str_of_int vc /\
    wpm_entry w' = Py.str_of_int vp /\
    highlight w'
      = (if last then highlight w else words_indexes w !! S k) /\
    typed_text_entry w'
      = (if last then Disabled else typed_text_entry w) /\
    score_csv w'
      = (if last
         then Some (match score_csv w with
                    | None => [header]
                    | Some rows => rows
                    end
                    ++ [[today; lang_of (idiom w);
                         Py.str_of_int vc; Py.str_of_int vp]])
         else score_csv w) /\
    dialogs w' = (if last then S (dialogs w) else dialogs w).
Proof.
  intros w Hnow0 Hclocks Hnow Hidx Hword.
  assert (Hscore : scoring_ok w).
  { apply run_scoring_ok; [exact Hclocks |]. now apply init_opens. }
  clearbody w.
  destruct (space_pressed_effect entry now today w k actual Hscore Hnow Hidx
              Hword)
    as (r & cm & pm & vc & vp & Hr & Hvc & Hvp & _ & _ & Hrun).
  cbv zeta in Hrun. rewrite Hrun. clear Hrun.
  pose proof (lookup_lt_Some _ _ _ Hword) as Hk.
  destruct Hscore as ((_ & Hpos & _) & _).
  destruct (decide (length (words_list w) = S k)) as [Hlast|Hmore].
  - rewrite (bool_decide_eq_true_2 _ Hlast).
    rewrite (proj2 (Z.leb_le _ _)) by lia.
    rewrite (end_test_eq today _ vc vp); [| exact Hvc | exact Hvp].
    eexists _, r, vc, vp. split; [reflexivity |]. split; [exact Hr |].
    cbn. repeat split; assumption.
  - rewrite (bool_decide_eq_false_2 _ Hmore).
    rewrite (proj2 (Z.leb_gt _ _)) by lia.
    rewrite highlight_next_word_eq.
    eexists _, r, vc, vp. split; [reflexivity |]. split; [exact Hr |].
    cbn.
    rewrite (proj2 (Z.ltb_ge _ _)) by lia.
    rewrite (proj2 (Z.leb_gt _ _)) by lia. cbn.
    replace (Z.to_nat (Z.of_nat k + 1)) with (S k) by lia.
    repeat split; assumption.
Qed.

Lemma submission_scores_and_moves_witness :
  let w := run [] (fst (init None Examples.answers Examples.draws
                          1700000000)) in
  exists w',
    space_pressed "dog " 1700000001 "2026-01-01 10:00:01" w = (w', Py.Ok tt) /\
    TypingSession.current_word_index (session w') = Z.of_nat 0 + 1.
Proof.
  intros w.
  assert (Hnow0 : is_finite 1700000000 = true) by (vm_compute; reflexivity).
  assert (Hnow : is_finite 1700000001 = true) by (vm_compute; reflexivity).
  assert (Hidx : TypingSession.current_word_index (session w) = Z.of_nat 0)
    by (vm_compute; reflexivity).
  assert (Hword : words_list w !! 0%nat = Some "dog"%string)
    by (vm_compute; reflexivity).
  destruct (submission_scores_and_moves None Examples.answers Examples.draws
              1700000000 [] "dog " 1700000001 "2026-01-01 10:00:01" 0 "dog"
              Hnow0 (Forall_nil_2 _) Hnow Hidx Hword)
    as (w' & r & vc & vp & Hrun & _ & _ & _ & Hmoved & _).
  exists w'. split; [exact Hrun | exact Hmoved].
Defined.

End SubmissionProperties.

Section Counters.

Import Window.

Implicit Types (w : Window.t) (today entry : string).

Lemma new_session_counts_ok net rand now w :
  counts_ok (fst (new_session net rand now w)).
Proof.
  destruct (new_session_eq net rand now w) as (pool & _ & ->). cbv zeta.
  destruct (get_last_score (score_csv w)) as [[sc|]|e];
    unfold counts_ok; cbn; lia.
Qed.

Lemma space_pressed_counts_ok entry now today w :
  scoring_ok w -> is_finite now = true -> counts_ok w ->
  counts_ok (fst (space_pressed entry now today w)).
Proof.
  intros Hscore Hnow Hcounts.
  pose proof Hscore as ((Hsame & _ & Hrange) & _).
  destruct (Z.lt_ge_cases (TypingSession.current_word_index (session w))
              (Z.of_nat (length (words_list w)))) as [Hlt|Hge].
  - set (k := Z.to_nat (TypingSession.current_word_index (session w))).
    assert (Hidx : TypingSession.current_word_index (session w) = Z.of_nat k)
      by (unfold k; lia).
    destruct (lookup_lt_is_Some_2 (words_list w) k) as [actual Hword];
      [lia |].
    destruct (space_pressed_effect entry now today w k actual Hscore Hnow
                Hidx Hword)
      as (r & cm & pm & vc & vp & _ & _ & _ & _ & _ & Hrun).
    cbv zeta in Hrun. rewrite Hrun. clear Hrun.
    match goal with |- counts_ok (fst (_ ?w3)) =>
      assert (Hcounts3 : counts_ok w3)
    end.
    { destruct Hcounts as (Hwords & Hchars). rewrite Hidx in Hwords, Hchars.
      rewrite Nat2Z.id in Hchars.
      pose proof (credit_le_actual (Py.strip entry) actual) as Hcredit.
      unfold counts_ok. cbn.
      replace (Z.to_nat (Z.of_nat k + 1)) with (S k) by lia.
      rewrite Hsame, (take_S_r _ _ _ Hword), sum_list_with_app. cbn.
      rewrite Hsame in Hchars.
      destruct (bool_decide (Py.strip entry = actual)); lia. }
    destruct (_ <=? _).
    + apply (end_test_keeps today counts_ok); try unchanged. exact Hcounts3.
    + apply (highlight_next_word_keeps counts_ok); try unchanged.
      exact Hcounts3.
  - rewrite space_pressed_over; [exact Hcounts | lia | rewrite Hsame; lia].
Qed.

Lemma handle_counts_ok e w :
  finite_clock e -> scoring_ok w -> counts_ok w -> counts_ok (handle e w).
Proof.
  intros Hclock Hscore Hcounts.
  destruct e as [typed today|entry now today|today
                |net rand now|i net rand now]; cbn [handle].
  - apply (check_typed_word_keeps typed today counts_ok); try unchanged.
    exact Hcounts.
  - now apply space_pressed_counts_ok.
  - destruct (timer_pending w); [| exact Hcounts].
    apply (update_timer_keeps today counts_ok); try unchanged.
    exact Hcounts.
  - rewrite reset_eq. apply new_session_counts_ok.
  - rewrite change_language_eq, reset_eq. apply new_session_counts_ok.
Qed.

Lemma run_counts_ok es : forall w,
  Forall finite_clock es -> scoring_ok w -> counts_ok w ->
  counts_ok (run es w).
Proof.
  induction es as [|e es IH]; intros w Hclocks Hscore Hcounts;
    [exact Hcounts |].
  apply Forall_cons in Hclocks as [Hclock Hclocks].
  apply IH; [exact Hclocks | now apply handle_scoring_ok
            | now apply handle_counts_ok].
Qed.

(** X15. In a window that opened, after any events with finite clock
    readings, the counters are bounded by what was passed:
    [0 <= correct_words <= cursor <= len(words) <= 200], and
    [correct_chars] is at least 0 and at most the total length of the
    words before the cursor, hence at most [8 * cursor] and at most
    1600. *)
Theorem counters_bounded file net rand now0 es :
  let w := run es (fst (init file net rand now0)) in
  is_finite now0 = true ->
  Forall finite_clock es ->
  0 <= TypingSession.correct_words (session w)
    <= TypingSession.current_word_index (session w) /\
  TypingSession.current_word_index (session w)
    <= Z.of_nat (length (TypingSession.words (session w))) /\
  (length (TypingSession.words (session w)) <= 200)%nat /\
  0 <= TypingSession.correct_chars (session w)
    <= Z.of_nat
         (sum_list_with String.length
            (take (Z.to_nat (TypingSession.current_word_index (session w)))
               (TypingSession.words (session w)))) /\
  TypingSession.correct_chars (session w)
    <= 8 * TypingSession.current_word_index (session w) /\
  TypingSession.correct_chars (session w) <= 1600.
Proof.
  intros w Hnow0 Hclocks.
  destruct (init_opens file net rand now0 Hnow0) as (Hscore0 & _).
  assert (Hscore : scoring_ok w) by now apply run_scoring_ok.
  assert (Hcounts : counts_ok w).
  { apply run_counts_ok; [exact Hclocks | exact Hscore0 |].
    apply new_session_counts_ok. }
  clearbody w.
  destruct Hscore as ((Hsame & _ & Hrange) & _ & Hsize & Hchars & _).
  destruct Hcounts as (Hwords & Hsum). rewrite Hsame.
  split; [exact Hwords |]. split; [lia |]. split; [exact Hsize |].
  rewrite Hsame in Hsum. split; [exact Hsum |]. split; lia.
Qed.

Lemma counters_bounded_witness :
  let w := run (submissions Examples.two_words)
             (fst (init None Examples.answers Examples.draws 1700000000)) in
  0 <= TypingSession.correct_words (session w)
    <= TypingSession.current_word_index (session w) /\
  TypingSession.correct_chars (session w) <= 1600.
Proof.
  intros w.
  assert (Hnow0 : is_finite 1700000000 = true) by (vm_compute; reflexivity).
  assert (Hclocks : Forall finite_clock (submissions Examples.two_words)).
  { repeat constructor. }
  destruct (counters_bounded None Examples.answers Examples.draws 1700000000
              (submissions Examples.two_words) Hnow0 Hclocks)
    as (Hwords & _ & _ & _ & _ & Hchars).
  split; [exact Hwords | exact Hchars].
Defined.

End Counters.

(** ** What the events of a running test keep *)

Section WithinTest.

Import Window.

Implicit Types (w : Window.t) (today entry typed : string).

(** Properties kept by the handlers of a running test, given that the
    handlers they call keep them. *)
Lemma end_test_keeps_save today (I : Window.t -> Prop) :
  (forall w, I w -> I (set_typed_text_entry Disabled w)) ->
  (forall w v, I w -> I (set_recent_score_entry v w)) ->
  (forall w v, I w -> I (set_dialogs v w)) ->
  keeps I (save_score_to_csv today) ->
  keeps I (end_test today).
Proof.
  intros Hentry Hrecent Hdialogs Hsave. unfold end_test.
  repeat first [exact Hsave | keeps_step]; intros; auto.
Qed.

Lemma update_timer_keeps_end today (I : Window.t -> Prop) :
  (forall w v, I w -> I (set_time_entry v w)) ->
  (forall w, I w ->
     I (set_timer_pending true
          (set_after_id true
             (set_session
                (TypingSession.set_time_left
                   (TypingSession.time_left (session w) - 1) (session w))
                w)))) ->
  keeps I (end_test today) ->
  keeps I (update_timer today).
Proof.
  intros Htime Htick Hend. unfold update_timer.
  repeat first [exact Hend | keeps_step]; intros; auto.
Qed.

Lemma check_typed_word_keeps_timer typed today (I : Window.t -> Prop) :
  (forall w v, I w -> I (set_letter_tags v w)) ->
  (forall w, I w -> I (set_timer_started true w)) ->
  keeps I (update_timer today) ->
  keeps I (check_typed_word typed today).
Proof.
  intros Htags Hstarted Htimer. unfold check_typed_word.
  repeat first [exact Htimer | keeps_step]; intros; auto.
Qed.

Lemma space_pressed_keeps_end entry now today (I : Window.t -> Prop) :
  (forall w s', I w -> I (set_session s' w)) ->
  (forall w v, I w -> I (set_corrected_cpm_entry v w)) ->
  (forall w v, I w -> I (set_wpm_entry v w)) ->
  (forall w v, I w -> I (set_word_tags v w)) ->
  (forall w v, I w -> I (set_highlight v w)) ->
  keeps I (end_test today) ->
  keeps I (space_pressed entry now today).
Proof.
  intros Hsession Hcpm Hwpm Htags Hhighlight Hend.
  unfold space_pressed, update_cpm, update_wpm. cbv zeta.
  repeat first
    [ exact Hend
    | keeps_step
    | apply keeps_on_session
    | apply highlight_next_word_keeps ];
    intros; auto.
Qed.

Lemma handle_within_test (I : Window.t -> Prop) e w :
  within_test e ->
  (forall w s', I w -> I (set_session s' w)) ->
  (forall w v, I w -> I (set_corrected_cpm_entry v w)) ->
  (forall w v, I w -> I (set_wpm_entry v w)) ->
  (forall w v, I w -> I (set_word_tags v w)) ->
  (forall w v, I w -> I (set_highlight v w)) ->
  (forall w v, I w -> I (set_letter_tags v w)) ->
  (forall w v, I w -> I (set_timer_started v w)) ->
  (forall w v, I w -> I (set_time_entry v w)) ->
  (forall w v, I w -> I (set_timer_pending v w)) ->
  (forall w v, I w -> I (set_after_id v w)) ->
  (forall today, keeps I (end_test today)) ->
  I w -> I (handle e w).
Proof.
  intros Hwithin Hsession Hcpm Hwpm Hwords Hhighlight Hletters Hstarted
    Htime Hpending Hafter Hend Hw.
  assert (Htimer : forall today, keeps I (update_timer today)).
  { intros today. apply update_timer_keeps_end; auto. }
  destruct e as [typed today|entry now today|today
                |net rand now|i net rand now]; cbn [handle];
    try contradiction.
  - apply (check_typed_word_keeps_timer typed today I); auto.
  - apply (space_pressed_keeps_end entry now today I); auto.
  - destruct (timer_pending w); [| exact Hw].
    apply Htimer. auto.
Qed.

End WithinTest.

Section LogAndEntry.

Import Window.

Implicit Types (w : Window.t) (today entry typed : string)
  (rows : list (list string)).

(** X16. Once the entry is disabled it stays disabled under key
    releases, submissions and timer events: only a restart or a change of
    language enables typing again. *)
Theorem entry_stays_disabled es w :
  typed_text_entry w = Disabled ->
  Forall within_test es ->
  typed_text_entry (run es w) = Disabled.
Proof.
  intros Hentry Hwithin. revert w Hentry.
  induction Hwithin as [|e es He _ IH]; intros w Hentry; [exact Hentry |].
  apply IH.
  apply (handle_within_test (fun w' => typed_text_entry w' = Disabled));
    try unchanged; [exact He | | exact Hentry].
  intros today w' _. apply end_test_triggers.
Qed.

Lemma entry_stays_disabled_witness :
  typed_text_entry
    (run [KeyRelease "x" ""; Timer ""]
       (fst (end_test "" Examples.opened))) = Disabled.
Proof.
  apply entry_stays_disabled.
  - vm_compute. reflexivity.
  - repeat constructor.
Defined.

(** What a save leaves in the log, also when it raises. *)
Lemma save_score_to_csv_log today w :
  exists more,
    score_csv (fst (save_score_to_csv today w))
    = Some (log_rows (score_csv w) ++ more).
Proof.
  unfold save_score_to_csv, mbind, M_bind, modify, read, lift. cbn.
  destruct (score_csv w) as [rows|] eqn:Hfile; cbn;
    destruct (Py.int_of (TypingSession.cpm_corrected (session w)));
    cbn; try (exists []; now rewrite ?Hfile, app_nil_r);
    destruct (Py.int_of (TypingSession.wpm (session w)));
    cbn; try (exists []; now rewrite ?Hfile, app_nil_r);
    rewrite ?Hfile; cbn; eexists; reflexivity.
Qed.

Lemma new_session_score_csv net rand now w :
  score_csv (fst (new_session net rand now w)) = score_csv w.
Proof.
  destruct (new_session_eq net rand now w) as (pool & _ & ->). cbv zeta.
  destruct (get_last_score (score_csv w)) as [[sc|]|e]; reflexivity.
Qed.

Lemma handle_score_csv (I : Window.t -> Prop) e w :
  (forall w1 w2, score_csv w1 = score_csv w2 -> I w1 -> I w2) ->
  (forall today, keeps I (save_score_to_csv today)) ->
  I w -> I (handle e w).
Proof.
  intros Hlog Hsave Hw.
  assert (Hend : forall today, keeps I (end_test today)).
  { intros today. apply end_test_keeps_save;
      try (intros w' v Hw'; now apply (Hlog w'));
      try (intros w' Hw'; now apply (Hlog w')).
    apply Hsave. }
  destruct e as [typed today|entry now today|today
                |net rand now|i net rand now].
  1-3: apply (handle_within_test I); try exact Logic.I; try exact Hend;
    try exact Hw; intros w' v Hw'; now apply (Hlog w').
  - cbn [handle]. rewrite reset_eq.
    apply (Hlog w); [| exact Hw].
    rewrite new_session_score_csv. now destruct (after_id w).
  - cbn [handle]. rewrite change_language_eq, reset_eq.
    apply (Hlog w); [| exact Hw].
    rewrite new_session_score_csv. cbn. now destruct (after_id w).
Qed.

(** X17. No event removes or changes a row of the score log. A log
    that exists keeps its rows as a prefix, whatever events follow; a log
    that does not exist stays absent or starts with the header. *)
Theorem score_log_only_grows es w :
  (forall rows,
     score_csv w = Some rows ->
     exists more, score_csv (run es w) = Some (rows ++ more)) /\
  (score_csv w = None ->
   score_csv (run es w) = None \/
   exists more, score_csv (run es w) = Some (header :: more)).
Proof.
  split.
  - intros rows Hrows.
    pose (I := fun w' : Window.t =>
            exists more, score_csv w' = Some (rows ++ more)).
    assert (Hw : I w) by (exists []; now rewrite app_nil_r).
    clear Hrows. revert w Hw.
    induction es as [|e es IH]; intros w Hw; [exact Hw |].
    apply IH, (handle_score_csv I); [| | exact Hw].
    + intros w1 w2 Heq [more Hmore]. exists more. now rewrite <- Heq.
    + intros today w' [more Hmore].
      destruct (save_score_to_csv_log today w') as [more' Hsave].
      exists (more ++ more'). rewrite Hsave, Hmore. cbn.
      now rewrite app_assoc.
  - intros Hnone.
    pose (J := fun w' : Window.t =>
            score_csv w' = None \/
            exists more, score_csv w' = Some (header :: more)).
    assert (Hw : J w) by now left.
    clear Hnone. revert w Hw.
    induction es as [|e es IH]; intros w Hw; [exact Hw |].
    apply IH, (handle_score_csv J); [| | exact Hw].
    + intros w1 w2 Heq [Hnone|[more Hmore]]; [left | right; exists more];
        now rewrite <- Heq.
    + intros today w' Hw'. right.
      destruct (save_score_to_csv_log today w') as [more' Hsave].
      rewrite Hsave.
      destruct Hw' as [->|[more ->]]; cbn; eexists; reflexivity.
Qed.

End LogAndEntry.

(** ** Between submissions *)

Section Passive.

Import Window.

Implicit Types (w : Window.t).

Lemma handle_passive e w0 w :
  passive e ->
  (exists t, session w = TypingSession.set_time_left t (session w0)) ->
  exists t, session (handle e w) = TypingSession.set_time_left t (session w0).
Proof.
  intros Hpassive Hw.
  pose (I := fun w' : Window.t =>
          exists t, session w' = TypingSession.set_time_left t (session w0)).
  assert (Htick : forall w' v, I w' ->
            I (set_session (TypingSession.set_time_left v (session w')) w')).
  { intros w' v [t Ht]. exists v. cbn. rewrite Ht. reflexivity. }
  destruct e as [typed today|entry now today|today
                |net rand now|i net rand now]; cbn [handle];
    try contradiction.
  - apply (check_typed_word_keeps typed today I); try unchanged;
      [exact Htick | exact Hw].
  - destruct (timer_pending w); [| exact Hw].
    apply (update_timer_keeps today I); try unchanged; [exact Htick |].
    exact Hw.
Qed.

(** X18. Key releases and timer events change nothing of the session
    but the time left: the counters, the cursor and the two metrics are
    those of the last submission, so the score that a time-out shows and
    saves is the one computed at the last submission, and 0 when nothing
    was submitted. *)
Theorem metrics_wait_for_submissions es w :
  Forall passive es ->
  TypingSession.cpm_corrected (session (run es w))
    = TypingSession.cpm_corrected (session w) /\
  TypingSession.wpm (session (run es w)) = TypingSession.wpm (session w) /\
  TypingSession.correct_words (session (run es w))
    = TypingSession.correct_words (session w) /\
  TypingSession.correct_chars (session (run es w))
    = TypingSession.correct_chars (session w) /\
  TypingSession.current_word_index (session (run es w))
    = TypingSession.current_word_index (session w) /\
  TypingSession.start_time (session (run es w))
    = TypingSession.start_time (session w) /\
  TypingSession.words (session (run es w)) = TypingSession.words (session w).
Proof.
  intros Hpassive.
  assert (Hrun : exists t,
            session (run es w) = TypingSession.set_time_left t (session w)).
  { assert (Hw : exists t,
              session w = TypingSession.set_time_left t (session w)).
    { exists (TypingSession.time_left (session w)). now destruct (session w). }
    revert Hw. generalize w at 1 3. 
    induction Hpassive as [|e es He _ IH]; intros w' Hw'; [exact Hw' |].
    apply IH. now apply handle_passive. }
  destruct Hrun as [t ->]. now repeat split.
Qed.

Lemma metrics_wait_for_submissions_witness :
  TypingSession.cpm_corrected
    (session (run [KeyRelease "do" ""; Timer ""; Timer ""] Examples.opened))
  = TypingSession.cpm_corrected (session Examples.opened).
Proof.
  destruct (metrics_wait_for_submissions
              [KeyRelease "do" ""; Timer ""; Timer ""] Examples.opened)
    as [Hcpm _]; [repeat constructor | exact Hcpm].
Defined.

End Passive.
